(** * The bulk-edit compiler of centralCLI

    A shallow embedding of [BuildCLI] from [lib/centralCLI/central.py]:
    [get_bulkedit_data] (the CSV ingestor) and [build_cmds] (the group
    reconciler and the command emitter), followed by the properties of the
    specification that concern them.

    Python strings are modelled by [string]: sequences of code points
    below 256.  Dictionaries whose iteration order is never observed
    ([_common], a VLAN record, an inventory entry) are [gmap]s; the
    top-level [cli_data], which [build_cmds] iterates, is an insertion
    ordered association list.  The two buffers [_common] and [_vlans] are
    objects of a store, and a device entry holds their locations. *)

From stdpp Require Import gmap strings list.
From Stdlib Require Import Ascii.

(** ** Python string primitives *)

Module Py.

Definition code (c : ascii) : nat := nat_of_ascii c.

(** [str.isspace] on one character. *)
Definition is_space (c : ascii) : bool :=
  let n := code c in
  (Nat.leb 9 n && Nat.leb n 13) || (Nat.leb 28 n && Nat.leb n 32)
  || Nat.eqb n 133 || Nat.eqb n 160.

Fixpoint lstrip (s : string) : string :=
  match s with
  | String c s' => if is_space c then lstrip s' else s
  | EmptyString => EmptyString
  end.

Fixpoint rstrip (s : string) : string :=
  match s with
  | String c s' =>
      match rstrip s' with
      | EmptyString => if is_space c then EmptyString else String c EmptyString
      | r => String c r
      end
  | EmptyString => EmptyString
  end.

(** [s.strip()] *)
Definition strip (s : string) : string := rstrip (lstrip s).

Definition lower_char (c : ascii) : ascii :=
  let n := code c in
  if (Nat.leb 65 n && Nat.leb n 90)
     || (Nat.leb 192 n && Nat.leb n 222 && negb (Nat.eqb n 215))
  then ascii_of_nat (n + 32) else c.

Fixpoint map_chars (f : ascii -> ascii) (s : string) : string :=
  match s with
  | String c s' => String (f c) (map_chars f s')
  | EmptyString => EmptyString
  end.

(** [s.lower()] *)
Definition lower (s : string) : string := map_chars lower_char s.

(** [s.replace(a, b)] for one-character [a] and [b]. *)
Definition replace_char (a b : ascii) (s : string) : string :=
  map_chars (fun c => if Ascii.eqb c a then b else c) s.

(** [s.startswith(p)] *)
Definition startswith (p s : string) : bool := String.prefix p s.

(** [s.startswith((p1, ..., pn))] *)
Definition startswith_any (ps : list string) (s : string) : bool :=
  existsb (fun p => startswith p s) ps.

(** [sub in s] for strings. *)
Fixpoint contains (sub s : string) : bool :=
  startswith sub s ||
  match s with
  | String _ s' => contains sub s'
  | EmptyString => false
  end.

(** [x in l] for a list of strings. *)
Definition mem (x : string) (l : list string) : bool :=
  existsb (String.eqb x) l.

(** [sep.join(l)] *)
Definition join (sep : string) (l : list string) : string :=
  String.concat sep l.

(** Iterating over a string yields its characters. *)
Fixpoint chars (s : string) : list string :=
  match s with
  | String c s' => String c EmptyString :: chars s'
  | EmptyString => []
  end.

Definition nl : string := String "010"%char EmptyString.

Definition hex_digit (n : nat) : ascii :=
  if Nat.ltb n 10 then ascii_of_nat (48 + n) else ascii_of_nat (87 + n).

Definition repr_char (quote : ascii) (c : ascii) : string :=
  let n := code c in
  if Ascii.eqb c quote || Ascii.eqb c "\"%char then String "\"%char (String c EmptyString)
  else if Nat.eqb n 9 then "\t"
  else if Nat.eqb n 10 then "\n"
  else if Nat.eqb n 13 then "\r"
  else if Nat.ltb n 32 || (Nat.leb 127 n && Nat.leb n 160) || Nat.eqb n 173
  then String "\"%char (String "x"%char
         (String (hex_digit (n / 16)) (String (hex_digit (n mod 16)) EmptyString)))
  else String c EmptyString.

Fixpoint concat_map (f : ascii -> string) (s : string) : string :=
  match s with
  | String c s' => f c +:+ concat_map f s'
  | EmptyString => EmptyString
  end.

(** [repr(s)] *)
Definition repr (s : string) : string :=
  let quote :=
    if contains "'" s && negb (contains (String "034"%char EmptyString) s)
    then "034"%char else "'"%char in
  String quote (concat_map (repr_char quote) s) +:+ String quote EmptyString.

(** [str(l)] for a list of strings. *)
Definition str_list (l : list string) : string :=
  "[" +:+ join ", " (map repr l) +:+ "]".

End Py.

(** ** Values, records and exceptions *)

(** A dictionary value of the ingestor: a cell of the file, or one of the
    lists [dns_servers], [dhcp_def_gws], [dhcp_excludes]. *)
Inductive value :=
| VStr (s : string)
| VList (l : list string).

#[global] Instance value_eq_dec : EqDecision value.
Proof. solve_decision. Defined.

(** Truth value of [d.get(k)]. *)
Definition truthy (o : option value) : bool :=
  match o with
  | Some (VStr s) => negb (String.eqb s "")
  | Some (VList l) => match l with [] => false | _ => true end
  | None => false
  end.

(** [f"{x}"] *)
Definition py_str (x : value) : string :=
  match x with
  | VStr s => s
  | VList l => Py.str_list l
  end.

(** [for e in x] *)
Definition iter_value (x : value) : list string :=
  match x with
  | VStr s => Py.chars s
  | VList l => l
  end.

Inductive exn :=
| KeyError (k : string)
| AttributeError (attr : string)
| TransportError (msg : string).

Inductive result (A : Type) :=
| Ok (a : A)
| Raise (e : exn).
Arguments Ok {A} a.
Arguments Raise {A} e.

Abbreviation vlanrec := (gmap string value).
Abbreviation common := (gmap string string).

(** ** The store and the device mapping *)

Record store := mkStore {
  dicts : list common;
  lists : list (list vlanrec)
}.

Definition empty_store : store := mkStore [] [].

Definition alloc_dict (h : store) : nat * store :=
  (length (dicts h), mkStore (dicts h ++ [∅]) (lists h)).

Definition alloc_list (h : store) : nat * store :=
  (length (lists h), mkStore (dicts h) (lists h ++ [[]])).

(** [d[k] = v] on the dictionary at [l]. *)
Definition store_setitem (l : nat) (k v : string) (h : store) : store :=
  mkStore (alter (insert k v) l (dicts h)) (lists h).

(** [xs.append(r)] on the list at [l]. *)
Definition store_append (l : nat) (r : vlanrec) (h : store) : store :=
  mkStore (dicts h) (alter (fun xs => xs ++ [r]) l (lists h)).

(** A value of [cli_data]: the empty dictionary, or
    [{"_common": _common, "vlans": _vlans}] holding two references. *)
Inductive entry :=
| EmptyEntry
| DevEntry (c vl : nat).

(** [d[k] = e] on an insertion-ordered dictionary. *)
Fixpoint dict_set (k : string) (e : entry) (d : list (string * entry))
  : list (string * entry) :=
  match d with
  | [] => [(k, e)]
  | (k', e') :: d' =>
      if String.eqb k' k then (k, e) :: d' else (k', e') :: dict_set k e d'
  end.

Fixpoint dict_get (k : string) (d : list (string * entry)) : option entry :=
  match d with
  | [] => None
  | (k', e') :: d' => if String.eqb k' k then Some e' else dict_get k d'
  end.

(** ** The CSV ingestor: [BuildCLI.get_bulkedit_data] *)

(** The local variables of [get_bulkedit_data] that outlive a column,
    the store holding [_common] and [_vlans], and what was printed. *)
Record ingest := mkIngest {
  cli_data : list (string * entry);
  heap : store;
  _mac : string;
  _exclude_start : string;
  vlan_data : vlanrec;
  printed : list string
}.

Definition common_keys : list string :=
  ["group"; "model"; "hostname"; "bg_peer_ip"; "controller_vlan";
   "zs_site_to_site_map_name"; "source_fqdn"].

Definition vlan_prefixes : list string :=
  ["vlan"; "dhcp"; "domain"; "dns"; "vrrp"; "access_port"; "ppoe"].

(** [k.strip().lower().replace(' ', '_')] *)
Definition normalise (k : string) : string :=
  Py.replace_char " "%char "_"%char (Py.lower (Py.strip k)).

(** [[v] if key not in vlan_data else [*vlan_data[key], *[v]]] *)
Definition appended (key v : string) (d : vlanrec) : value :=
  match d !! key with
  | None => VList [v]
  | Some old => VList (iter_value old ++ [v])
  end.

Definition exclude_line (start v : string) : string :=
  "ip dhcp exclude-address " +:+ start +:+ " " +:+ v.

Definition exclude_error (v : string) : string :=
  "Validation Error DHCP Exclude End with no preceding start (" +:+ v
  +:+ ")... Ignoring" +:+ Py.nl.

Section Ingest.

(** The locations of [_common] and [_vlans]. *)
Variables (lc lv : nat).

(** The body of the column loop, for one [(k, v)] of [zip(header, row)]. *)
Definition ingest_column (s : ingest) (kv : string * string) : ingest :=
  let k := normalise kv.1 in
  let v := kv.2 in
  if String.eqb k "mac_address" then
    mkIngest (dict_set v EmptyEntry (cli_data s)) (heap s) v
             (_exclude_start s) (vlan_data s) (printed s)
  else if Py.mem k common_keys then
    mkIngest (cli_data s) (store_setitem lc k v (heap s)) (_mac s)
             (_exclude_start s) (vlan_data s) (printed s)
  else if Py.startswith_any vlan_prefixes k then
    if String.eqb k "vlan_id" then
      let h := if bool_decide (vlan_data s = ∅) then heap s
               else store_append lv (vlan_data s) (heap s) in
      mkIngest (cli_data s) h (_mac s) (_exclude_start s)
               {[ k := VStr v ]} (printed s)
    else if Py.startswith "dns_server_" k then
      mkIngest (cli_data s) (heap s) (_mac s) (_exclude_start s)
               (<["dns_servers" := appended "dns_servers" v (vlan_data s)]> (vlan_data s))
               (printed s)
    else if Py.startswith "dhcp_default_router" k then
      mkIngest (cli_data s) (heap s) (_mac s) (_exclude_start s)
               (<["dhcp_def_gws" := appended "dhcp_def_gws" v (vlan_data s)]> (vlan_data s))
               (printed s)
    else if Py.startswith "dhcp_exclude_start" k then
      mkIngest (cli_data s) (heap s) (_mac s) v (vlan_data s) (printed s)
    else if Py.startswith "dhcp_exclude_end" k then
      if negb (String.eqb (_exclude_start s) "") then
        let _line := exclude_line (_exclude_start s) v in
        mkIngest (cli_data s) (heap s) (_mac s) ""
                 (<["dhcp_excludes" := appended "dhcp_excludes" _line (vlan_data s)]>
                    (vlan_data s))
                 (printed s)
      else
        mkIngest (cli_data s) (heap s) (_mac s) (_exclude_start s) (vlan_data s)
                 (printed s ++ [exclude_error v])
    else
      mkIngest (cli_data s) (heap s) (_mac s) (_exclude_start s)
               (<[k := VStr v]> (vlan_data s)) (printed s)
  else s.

(** The body of the row loop. *)
Definition ingest_row (header : list string) (s : ingest) (data_row : list string)
  : ingest :=
  let s0 := mkIngest (cli_data s) (heap s) (_mac s) (_exclude_start s) ∅ (printed s) in
  let s1 := foldl ingest_column s0 (zip header data_row) in
  mkIngest (dict_set (_mac s1) (DevEntry lc lv) (cli_data s1))
           (store_append lv (vlan_data s1) (heap s1))
           (_mac s1) (_exclude_start s1) (vlan_data s1) (printed s1).

End Ingest.

(** [get_bulkedit_data] on [csv_rows], the rows that [csv.reader] yields
    for the lines of the file that do not start with [#]. *)
Definition get_bulkedit_data (csv_rows : list (list string)) : ingest :=
  let '(lc, h1) := alloc_dict empty_store in
  let '(lv, h2) := alloc_list h1 in
  let s := mkIngest [] h2 "error" "" ∅ [] in
  match csv_rows with
  | [] => s
  | header :: rows => foldl (ingest_row lc lv header) s rows
  end.

(** What [data[dev]["vlans"]] and [data[dev]["_common"]] refer to. *)
Definition vlans_of (h : store) (e : entry) : option (list vlanrec) :=
  match e with
  | EmptyEntry => None
  | DevEntry _ vl => lists h !! vl
  end.

Definition common_of (h : store) (e : entry) : option common :=
  match e with
  | EmptyEntry => None
  | DevEntry c _ => dicts h !! c
  end.

(** ** Effects of [build_cmds]

    [build_cmds] appends to [self.cmds], prints, and calls the session.
    Its blocks that do not call the session are written in [E], a writer
    with exceptions; the whole of it in [M], which threads the state of
    the session through. *)

Inductive call :=
| GetDevByType (dev_type : string)
| GetGroupForDevBySerial (serial_num : string)
| MoveDevToGroup (group : string) (serial_num : string).

Record output := mkOut {
  cmds : list string;
  stdout : list string;
  calls : list call
}.

Definition no_output : output := mkOut [] [] [].

Definition out_app (a b : output) : output :=
  mkOut (cmds a ++ cmds b) (stdout a ++ stdout b) (calls a ++ calls b).

Definition E (A : Type) : Type := result A * output.

#[global] Instance E_ret : MRet E := λ A a, (Ok a, no_output).

#[global] Instance E_bind : MBind E := λ A B f m,
  match m.1 with
  | Ok a => let r := f a in (r.1, out_app m.2 r.2)
  | Raise e => (Raise e, m.2)
  end.

Definition raise {A : Type} (e : exn) : E A := (Raise e, no_output).

(** [self.cmds += l] *)
Definition add_cmds (l : list string) : E unit := (Ok tt, mkOut l [] []).

(** [print(msg, end=e)] and [print(msg)] *)
Definition print_end (msg e : string) : E unit := (Ok tt, mkOut [] [msg +:+ e] []).
Definition print (msg : string) : E unit := print_end msg Py.nl.

(** [d[k]] *)
Definition getitem {V : Type} (d : gmap string V) (k : string) : E V :=
  match d !! k with
  | Some x => mret x
  | None => raise (KeyError k)
  end.

Definition when (b : bool) (body : E unit) : E unit :=
  if b then body else mret tt.

(** [for x in l: body] *)
Fixpoint for_each {T : Type → Type} `{!MRet T, !MBind T} {A : Type}
    (l : list A) (body : A → T unit) : T unit :=
  match l with
  | [] => mret tt
  | x :: l' => body x;; for_each l' body
  end.

(** ** The command emitter: the VLAN loop of [BuildCLI.build_cmds] *)

(** [self.cmds += [f"vlan {v['vlan_id']}", "!"]] *)
Definition vlan_block (v : vlanrec) : E unit :=
  id ← getitem v "vlan_id";
  add_cmds ["vlan " +:+ py_str id; "!"].

(** [if v.get("vlan_ip"): ...] *)
Definition interface_block (v : vlanrec) : E unit :=
  when (truthy (v !! "vlan_ip")) (
    when (negb (truthy (v !! "vlan_subnet"))) (
      id ← getitem v "vlan_id";
      print ("Validation Error No subnet mask for VLAN " +:+ py_str id +:+ " "));;
    id ← getitem v "vlan_id";
    ip ← getitem v "vlan_ip";
    subnet ← getitem v "vlan_subnet";
    add_cmds ["interface vlan " +:+ py_str id;
              "ip address " +:+ py_str ip +:+ " " +:+ py_str subnet];;
    when (truthy (v !! "vlan_interface_description")) (
      d ← getitem v "vlan_interface_description";
      add_cmds ["description " +:+ py_str d]);;
    when (truthy (v !! "vlan_helper_addr")) (
      a ← getitem v "vlan_helper_addr";
      add_cmds ["ip helper-address " +:+ py_str a]);;
    when (truthy (v !! "vlan_interface_operstate")) (
      o ← getitem v "vlan_interface_operstate";
      add_cmds ["operstate " +:+ py_str o]);;
    add_cmds ["!"]).

(** [if v.get("pppoe_username"): ...] *)
Definition pppoe_block (v : vlanrec) : E unit :=
  when (truthy (v !! "pppoe_username"))
       (print "Warning PPPoE not supported by this tool yet").

(** ["thernet" not in p and not p.startswith("g")] *)
Definition needs_prefix (p : value) : E bool :=
  match p with
  | VStr s => mret (negb (Py.contains "thernet" s) && negb (Py.startswith "g" s))
  | VList l =>
      if negb (Py.mem "thernet" l) then raise (AttributeError "startswith")
      else mret false
  end.

(** [if v.get("access_port"): ...] *)
Definition access_port_block (v : vlanrec) : E unit :=
  when (truthy (v !! "access_port")) (
    p ← getitem v "access_port";
    b ← needs_prefix p;
    let _line := if b : bool then "interface gigabitethernet " +:+ py_str p
                 else "interface " +:+ py_str p in
    id ← getitem v "vlan_id";
    add_cmds [_line; "switchport access vlan " +:+ py_str id; "!"]).

(** [if v.get("dhcp_pool_name"): ...] *)
Definition dhcp_pool_block (v : vlanrec) : E unit :=
  when (truthy (v !! "dhcp_pool_name")) (
    n ← getitem v "dhcp_pool_name";
    add_cmds ["ip dhcp pool " +:+ py_str n];;
    when (truthy (v !! "dhcp_def_gws")) (
      gws ← getitem v "dhcp_def_gws";
      for_each (iter_value gws) (λ gw, add_cmds ["default-router " +:+ gw]));;
    when (truthy (v !! "dns_servers")) (
      dns ← getitem v "dns_servers";
      add_cmds ["dns-server " +:+ Py.join " " (iter_value dns)]);;
    when (truthy (v !! "domain_name")) (
      d ← getitem v "domain_name";
      add_cmds ["domain-name " +:+ py_str d]);;
    when (truthy (v !! "dhcp_network")) (
      if truthy (v !! "dhcp_mask") then
        net ← getitem v "dhcp_network";
        mask ← getitem v "dhcp_mask";
        add_cmds ["network " +:+ py_str net +:+ " " +:+ py_str mask]
      else
        when (truthy (v !! "dhcp_network_prefix")) (
          net ← getitem v "dhcp_network";
          pre ← getitem v "dhcp_network_prefix";
          add_cmds ["network " +:+ py_str net +:+ " /" +:+ py_str pre]));;
    add_cmds ["!"]).

(** [if v.get("dhcp_excludes"): ...] *)
Definition dhcp_excludes_block (v : vlanrec) : E unit :=
  when (truthy (v !! "dhcp_excludes")) (
    ex ← getitem v "dhcp_excludes";
    for_each (iter_value ex) (λ _line, add_cmds [_line])).

(** [if v.get("vrrp_id"): ...] *)
Definition vrrp_block (v : vlanrec) : E unit :=
  when (truthy (v !! "vrrp_id")) (
    if truthy (v !! "vrrp_ip") then
      vid ← getitem v "vrrp_id";
      ip ← getitem v "vrrp_ip";
      id ← getitem v "vlan_id";
      add_cmds ["vrrp " +:+ py_str vid; "ip address " +:+ py_str ip;
                "vlan " +:+ py_str id];;
      when (truthy (v !! "vrrp_priority")) (
        p ← getitem v "vrrp_priority";
        add_cmds ["priority " +:+ py_str p]);;
      add_cmds ["no shutdown"; "!"]
    else
      vid ← getitem v "vrrp_id";
      id ← getitem v "vlan_id";
      print ("Validation Error VRRP ID " +:+ py_str vid +:+ " VLAN " +:+ py_str id
             +:+ " No VRRP IP provided... Skipped")).

(** [if v.get("bg_peer_ip"): ...] and the Zscaler test after it. *)
Definition unsupported_block (v : vlanrec) : E unit :=
  when (truthy (v !! "bg_peer_ip"))
       (print "bgp peer ip Not Supported by Script yet");;
  when (truthy (v !! "zs_site_to_site_map_name") || truthy (v !! "source_fqdn"))
       (print "Zscaler Configuration Not Supported by Script Yet").

(** The body of [for v in vlans]. *)
Definition build_vlan (v : vlanrec) : E unit :=
  vlan_block v;;
  interface_block v;;
  pppoe_block v;;
  access_port_block v;;
  dhcp_pool_block v;;
  dhcp_excludes_block v;;
  vrrp_block v;;
  unsupported_block v.

(** From [print(f"Building cmds for ...")] to the end of the VLAN loop. *)
Definition build_dev_cmds (_pretty_name : string) (com : common)
    (vlans : list vlanrec) : E unit :=
  print ("Building cmds for " +:+ _pretty_name);;
  when (truthy (VStr <$> com !! "hostname")) (
    h ← getitem com "hostname";
    add_cmds ["hostname " +:+ h; "!"]);;
  for_each vlans build_vlan.

(** ** The session and the driver: [BuildCLI.build_cmds] *)

(** The session that [BuildCLI] is given.  The class of the objects that
    [CentralApi.get_dev_by_type] and [get_group_for_dev_by_serial] return
    is not part of this file; the operations are taken with the interface
    of the specification: an inventory is a sequence of dictionaries, a
    group is its name, a move answers whether it succeeded.  [W] is the
    state of the remote service. *)
Record session (W : Type) := mkSession {
  get_dev_by_type : string → W → result (list (gmap string string)) * W;
  get_group_for_dev_by_serial : string → W → result string * W;
  move_dev_to_group : string → string → W → result bool * W
}.
Arguments get_dev_by_type {W} _ _ _.
Arguments get_group_for_dev_by_serial {W} _ _ _.
Arguments move_dev_to_group {W} _ _ _ _.

Module CentralApi.

(** [CentralApi.move_dev_to_group], over [post url headers group serials],
    the [ok] of the response to [requests.post] with that payload.
    [vars] and [access_token] are those of [self.central];
    [vars["base_url"]] raises for a configuration without that key,
    before anything is posted. *)
Definition move_dev_to_group {W : Type}
    (post : string → gmap string string → string → list string
            → W → result bool * W)
    (vars : gmap string string) (access_token : string)
    (group : string) (serial_num : string + list string) : W → result bool * W :=
  let url := "/configuration/v1/devices/move" in
  let serial_num := match serial_num with inl s => [s] | inr l => l end in
  let header : gmap string string :=
    <["Content-type" := "application/json"]>
      {[ "authorization" := "Bearer " +:+ access_token ]} in
  match vars !! "base_url" with
  | Some base_url => post (base_url +:+ url) header group serial_num
  | None => λ w, (Raise (KeyError "base_url"), w)
  end.

End CentralApi.

Definition M (W A : Type) : Type := W → E A * W.

#[global] Instance M_ret {W} : MRet (M W) := λ A a w, (mret a, w).

(** The output [o] of what ran before, put in front of that of [r]. *)
Definition attach {W B : Type} (o : output) (r : E B * W) : E B * W :=
  match r with
  | ((x, o'), w) => ((x, out_app o o'), w)
  end.

#[global] Instance M_bind {W} : MBind (M W) := λ A B f m w,
  match m w with
  | ((Ok a, o), w1) => attach o (f a w1)
  | ((Raise e, o), w1) => ((Raise e, o), w1)
  end.

Definition lift {W A : Type} (e : E A) : M W A := λ w, (e, w).

(** A call of the session, recorded in [calls]. *)
Definition session_call {W A : Type} (c : call) (op : W → result A * W) : M W A :=
  λ w, let r := op w in ((r.1, mkOut [] [] [c]), r.2).

Section Driver.

Context {W : Type} (S : session W).

(** The group reconciler: from [gateways = ...] to the end of
    [if self.dev_info:]. *)
Definition reconcile (dev _pretty_name : string) (com : common) : M W unit :=
  gateways ← session_call (GetDevByType "gateway") (get_dev_by_type S "gateway");
  let dev_info :=
    List.filter (λ _dev : gmap string string,
                   String.eqb (Py.lower (default "" (_dev !! "macaddr"))) (Py.lower dev))
                gateways in
  match dev_info with
  | [] => mret tt
  | dev_info :: _ =>
      group ← lift (getitem com "group");
      serial ← lift (getitem dev_info "serial");
      current ← session_call (GetGroupForDevBySerial serial)
                             (get_group_for_dev_by_serial S serial);
      if String.eqb group current then lift (print " Confirmed")
      else
        lift (print " it is *Not*");;
        group ← lift (getitem com "group");
        lift (print ("Moving " +:+ _pretty_name +:+ " to Group " +:+ group));;
        group ← lift (getitem com "group");
        serial ← lift (getitem dev_info "serial");
        res ← session_call (MoveDevToGroup group serial)
                           (move_dev_to_group S group serial);
        if negb res then
          hostname ← lift (getitem com "hostname");
          group ← lift (getitem com "group");
          lift (print ("Error Returned Moving " +:+ hostname +:+ " to Group " +:+ group))
        else mret tt
  end.

(** The body of [for dev in self.data]. *)
Definition build_dev (h : store) (dev : string) (e : entry) : M W unit :=
  com ← lift (from_option mret (raise (KeyError "_common")) (common_of h e));
  vlans ← lift (from_option mret (raise (KeyError "vlans")) (vlans_of h e));
  let _pretty_name := default dev (com !! "hostname") in
  group ← lift (getitem com "group");
  lift (print_end ("Verifying " +:+ _pretty_name +:+ " is in Group " +:+ group +:+ "...") "");;
  reconcile dev _pretty_name com;;
  lift (build_dev_cmds _pretty_name com vlans).

Definition build_cmds (h : store) (data : list (string * entry)) : M W unit :=
  for_each data (λ d, build_dev h d.1 d.2).

(** [BuildCLI(session=S, filename=...)] on the rows of the file: the
    output of [build_cmds] on the ingested data. *)
Definition BuildCLI (csv_rows : list (list string)) : M W unit :=
  let r := get_bulkedit_data csv_rows in
  lift (Ok tt, mkOut [] (printed r) []);;
  build_cmds (heap r) (cli_data r).

End Driver.

(** A session over a fixed inventory: every device is in group [current],
    and the response to the request of a move has [ok = move_ok].  Its
    configuration has a [base_url]. *)
Definition fixed_session (inventory : list (gmap string string)) (current : string)
    (move_ok : bool) : session unit :=
  mkSession unit
    (λ _ w, (Ok inventory, w))
    (λ _ w, (Ok current, w))
    (λ group serial_num,
       CentralApi.move_dev_to_group (λ _ _ _ _ w, (Ok move_ok, w))
         {[ "base_url" := "https://central.example" ]} "token" group (inl serial_num)).

(** A VLAN record on which no block of [build_vlan] raises: it has its
    [vlan_id], a configured [vlan_ip] comes with the key [vlan_subnet],
    and [access_port] is not a list without ["thernet"]. *)
Definition emittable (v : vlanrec) : bool :=
  bool_decide (is_Some (v !! "vlan_id"))
  && (negb (truthy (v !! "vlan_ip")) || bool_decide (is_Some (v !! "vlan_subnet")))
  && match v !! "access_port" with
     | Some (VList (x :: l)) => Py.mem "thernet" (x :: l)
     | _ => true
     end.

(** The [vlan <id>] lines of a command list. *)
Definition vlan_lines (l : list string) : list string :=
  List.filter (Py.startswith "vlan ") l.

(** ** Predicates of the properties *)

(** [m] raises nothing. *)
Definition ok {A : Type} (m : E A) : Prop := ∃ a, m.1 = Ok a.

(** What the VRRP block prints when [vrrp_ip] is not set. *)
Definition vrrp_error (vid id : value) : string :=
  ("Validation Error VRRP ID " +:+ py_str vid +:+ " VLAN " +:+ py_str id
   +:+ " No VRRP IP provided... Skipped") +:+ Py.nl.


(** The columns named [mac_address] among those of a header, and among
    the pairs of a zipped row. *)
Definition mac_columns (header : list string) : nat :=
  length (List.filter (λ k, String.eqb (normalise k) "mac_address") header).

Definition mac_pairs (cols : list (string * string)) : nat :=
  length (List.filter (λ kv : string * string,
                         String.eqb (normalise kv.1) "mac_address") cols).

(** Every entry of [cli_data] is a device entry on the two buffers. *)
Definition all_devices (lc lv : nat) (s : ingest) : Prop :=
  ∀ dev e, dict_get dev (cli_data s) = Some e → e = DevEntry lc lv.

(** Every entry but that of the current MAC is one. *)
Definition all_but_current (lc lv : nat) (s : ingest) : Prop :=
  ∀ dev e, dict_get dev (cli_data s) = Some e → e = DevEntry lc lv ∨ dev = _mac s.

(** Every entry is one, or is empty. *)
Definition shared_or_empty (lc lv : nat) (s : ingest) : Prop :=
  ∀ dev e, dict_get dev (cli_data s) = Some e → e = DevEntry lc lv ∨ e = EmptyEntry.

(** The store of [get_bulkedit_data] holds one dictionary and one list,
    at location 0 of each kind; the list has at least [n] records. *)
Definition two_buffers (n : nat) (s : ingest) : Prop :=
  ∃ (com : common) (vl : list vlanrec),
    heap s = mkStore [com] [vl] ∧ n ≤ length vl.


(** No command of [m] is a [vlan <id>] line. *)
Definition no_vlan_line {A : Type} (m : E A) : Prop :=
  vlan_lines (cmds m.2) = [].

(** No line of [dhcp_excludes] is a [vlan <id>] line. *)
Definition excludes_ok (v : vlanrec) : Prop :=
  ∀ x, v !! "dhcp_excludes" = Some x → vlan_lines (iter_value x) = [].

(** That holds of the open record and of every stored one. *)
Definition records_ok (s : ingest) : Prop :=
  excludes_ok (vlan_data s) ∧ Forall (Forall excludes_ok) (lists (heap s)).

(** The [vlan <id>] line of a record, and whether its VRRP block is
    emitted. *)
Definition vlan_line (v : vlanrec) : string :=
  "vlan " +:+ from_option py_str "" (v !! "vlan_id").

Definition vrrp_emitted (v : vlanrec) : bool :=
  truthy (v !! "vrrp_id") && truthy (v !! "vrrp_ip").

(** The number of distinct [vlan_id] values of a VLAN list. *)
Definition distinct_vlan_ids (vl : list vlanrec) : nat :=
  length (remove_dups (omap (λ v : vlanrec, v !! "vlan_id") vl)).



(** ** Sample sessions, records and files *)

(** A session in which the inventory is empty. *)
Definition no_inventory : session unit := fixed_session [] "" true.

(** An inventory that lists the gateway [aa:bb]. *)
Definition inventory_aabb : list (gmap string string) :=
  [ {[ "macaddr" := "AA:BB"; "serial" := "S1" ]} ].

(** A record with a complete VRRP block. *)
Definition vrrp_record : vlanrec :=
  <["vlan_id" := VStr "10"]> (<["vrrp_id" := VStr "5"]>
    (<["vrrp_ip" := VStr "10.0.0.254"]> (<["vrrp_priority" := VStr "110"]> ∅))).

(** A record of VLAN 10 with the access port [p]. *)
Definition access_record (p : string) : vlanrec :=
  <["vlan_id" := VStr "10"]> (<["access_port" := VStr p]> ∅).

(** The ingestor after the [vlan_id] column of a first row. *)
Definition open_vlan_10 : ingest :=
  mkIngest [("aa:bb", EmptyEntry)] (mkStore [∅] [[]]) "aa:bb" ""
           {[ "vlan_id" := VStr "10" ]} [].

(** Files, as the rows that [csv.reader] yields. *)
Definition rows_without_group : list (list string) :=
  [ ["MAC Address"; "VLAN ID"];
    ["aa:bb"; "10"] ].

Definition rows_without_subnet : list (list string) :=
  [ ["MAC Address"; "Group"; "VLAN ID"; "VLAN IP"];
    ["aa:bb"; "Branch1"; "10"; "10.0.0.1"] ].

Definition rows_pppoe : list (list string) :=
  [ ["MAC Address"; "Group"; "VLAN ID"; "pppoe_username"];
    ["aa:bb"; "Branch1"; "10"; "user1"] ].

Definition rows_blank_line : list (list string) :=
  [ ["MAC Address"; "Group"; "VLAN ID"];
    ["aa:bb"; "Branch1"; "10"];
    [] ].

Definition rows_without_hostname : list (list string) :=
  [ ["MAC Address"; "Group"; "VLAN ID"];
    ["aa:bb"; "Branch1"; "10"] ].

Definition rows_two_devices : list (list string) :=
  [ ["MAC Address"; "Group"; "Hostname"; "VLAN ID"];
    ["aa:bb"; "Branch1"; "gw1"; "10"];
    ["cc:dd"; "Branch2"; "gw2"; "20"] ].

Definition rows_vrrp : list (list string) :=
  [ ["MAC Address"; "Group"; "VLAN ID"; "VRRP ID"; "VRRP IP"; "VLAN ID"];
    ["aa:bb"; "Branch1"; "10"; "5"; "10.0.0.254"; "20"] ].

(** The VLAN list that ingestion builds from [rows_vrrp]. *)
Definition vrrp_vlans : list vlanrec :=
  [ {[ "vlan_id" := VStr "10"; "vrrp_id" := VStr "5"; "vrrp_ip" := VStr "10.0.0.254" ]};
    {[ "vlan_id" := VStr "20" ]} ].

Definition rows_same_vlan : list (list string) :=
  [ ["MAC Address"; "Group"; "VLAN ID"; "Access Port"];
    ["aa:bb"; "Branch1"; "10"; "1/1/1"];
    ["aa:bb"; "Branch1"; "10"; "1/1/2"] ].



(** A record with a VRRP group and no [vrrp_ip]. *)
Definition vrrp_without_ip : vlanrec :=
  {[ "vlan_id" := VStr "10"; "vrrp_id" := VStr "5" ]}.

(** ** Predicates of further properties *)

(** The keys that the VLAN loop of [build_cmds] reads in a record. *)
Definition emitter_keys : list string :=
  ["vlan_id"; "vlan_ip"; "vlan_subnet"; "vlan_interface_description";
   "vlan_helper_addr"; "vlan_interface_operstate"; "pppoe_username";
   "access_port"; "dhcp_pool_name"; "dhcp_def_gws"; "dns_servers";
   "domain_name"; "dhcp_network"; "dhcp_mask"; "dhcp_network_prefix";
   "dhcp_excludes"; "vrrp_id"; "vrrp_ip"; "vrrp_priority"; "bg_peer_ip";
   "zs_site_to_site_map_name"; "source_fqdn"].

(** A key that the ingestor routes to the VLAN branch: it is no common
    attribute and starts with one of the VLAN prefixes. *)
Definition routed_key (k : string) : bool :=
  negb (Py.mem k common_keys) && Py.startswith_any vlan_prefixes k.

(** Every key of a record is one. *)
Definition keys_routed (v : vlanrec) : Prop :=
  ∀ k, is_Some (v !! k) → routed_key k = true.

(** [P] holds of the open record and of every stored one. *)
Definition records_sat (P : vlanrec → Prop) (s : ingest) : Prop :=
  P (vlan_data s) ∧ Forall (Forall P) (lists (heap s)).

(** Among the columns of a row, the first one that the ingestor routes to
    the VLAN branch exists and is a [vlan_id] column. *)
Fixpoint vlan_id_first (cols : list (string * string)) : bool :=
  match cols with
  | [] => false
  | kv :: cols' =>
      let k := normalise kv.1 in
      if String.eqb k "mac_address" || Py.mem k common_keys
         || negb (Py.startswith_any vlan_prefixes k)
      then vlan_id_first cols'
      else String.eqb k "vlan_id"
  end.

Definition has_vlan_id (v : vlanrec) : Prop := is_Some (v !! "vlan_id").

(** The lines of the DHCP pool of a record, after [ip dhcp pool <name>]. *)
Definition gw_lines (v : vlanrec) : list string :=
  map (λ gw, "default-router " +:+ gw)
      (from_option iter_value [] (v !! "dhcp_def_gws")).

Definition dns_lines (v : vlanrec) : list string :=
  if truthy (v !! "dns_servers")
  then ["dns-server " +:+ Py.join " " (from_option iter_value [] (v !! "dns_servers"))]
  else [].

Definition domain_lines (v : vlanrec) : list string :=
  if truthy (v !! "domain_name")
  then ["domain-name " +:+ from_option py_str "" (v !! "domain_name")]
  else [].

Definition network_lines (v : vlanrec) : list string :=
  let net := from_option py_str "" (v !! "dhcp_network") in
  if truthy (v !! "dhcp_network") then
    if truthy (v !! "dhcp_mask")
    then ["network " +:+ net +:+ " " +:+ from_option py_str "" (v !! "dhcp_mask")]
    else if truthy (v !! "dhcp_network_prefix")
    then ["network " +:+ net +:+ " /"
          +:+ from_option py_str "" (v !! "dhcp_network_prefix")]
    else []
  else [].

(** The lines of a command list that start with [p]. *)
Definition lines_with (p : string) (l : list string) : list string :=
  List.filter (Py.startswith p) l.

(** A record with a DHCP pool that has both a mask and a prefix. *)
Definition pool_record : vlanrec :=
  {[ "vlan_id" := VStr "10"; "dhcp_pool_name" := VStr "users";
     "dhcp_network" := VStr "10.0.0.0"; "dhcp_mask" := VStr "255.255.255.0";
     "dhcp_network_prefix" := VStr "24" ]}.

(** The ingestor in a VLAN block that has a DHCP pool. *)
Definition open_pool : ingest :=
  mkIngest [("aa:bb", EmptyEntry)] (mkStore [∅] [[]]) "aa:bb" ""
           {[ "vlan_id" := VStr "10"; "dhcp_pool_name" := VStr "users" ]} [].

(** The lines that [build_cmds] emits for the hostname of a device. *)
Definition hostname_lines (com : common) : list string :=
  match com !! "hostname" with
  | Some h => if negb (String.eqb h "") then ["hostname " +:+ h; "!"] else []
  | None => []
  end.

(** A session whose transport fails on every call. *)
Definition failing_session : session unit :=
  mkSession unit
    (λ _ w, (Raise (TransportError "timed out"), w))
    (λ _ w, (Raise (TransportError "timed out"), w))
    (λ _ _ w, (Raise (TransportError "timed out"), w)).

(** Common attributes with a group and a hostname. *)
Definition common_gw1 : common := {[ "group" := "Branch1"; "hostname" := "gw1" ]}.

(** ** Reading the file *)

(** [[line for line in csv_file.readlines() if not line.startswith('#')]] *)
Definition uncommented (lines : list string) : list string :=
  List.filter (λ line, negb (Py.startswith "#" line)) lines.

(** [get_bulkedit_data] on the lines of the file; [reader] is
    [csv.reader] of the Python library, from the lines it is given to the
    rows it yields. *)
Definition get_bulkedit_data_lines (reader : list string → list (list string))
    (lines : list string) : ingest :=
  get_bulkedit_data (reader (uncommented lines)).

(** The value of the last column of a row whose key is [key]. *)
Fixpoint last_value (key : string) (cols : list (string * string)) : option string :=
  match cols with
  | [] => None
  | kv :: cols' =>
      match last_value key cols' with
      | Some v => Some v
      | None => if String.eqb (normalise kv.1) key then Some kv.2 else None
      end
  end.

(** The common attributes at location 0 of the store. *)
Definition shared_common (s : ingest) : option common := dicts (heap s) !! 0.

(** The keys of an insertion-ordered dictionary after [d[k] = ...], and
    the distinct elements of a list in the order of their first
    occurrence. *)
Definition add_key (k : string) (ks : list string) : list string :=
  if Py.mem k ks then ks else ks ++ [k].

Definition first_seen (l : list string) : list string :=
  foldl (λ ks k, add_key k ks) [] l.

(** The line [p <value>] of an optional field that is set. *)
Definition opt_line (p : string) (o : option value) : list string :=
  match o with
  | Some x => if truthy (Some x) then [p +:+ py_str x] else []
  | None => []
  end.

Definition subnet_error (id : value) : string :=
  ("Validation Error No subnet mask for VLAN " +:+ py_str id +:+ " ") +:+ Py.nl.


(** ** Predicates of whole files *)

(** The columns of a file as the ingestor reads them: row by row, each
    row zipped with the header. *)
Definition file_columns (header : list string) (rows : list (list string))
  : list (string * string) :=
  concat (map (zip header) rows).

(** The cells of the [vlan_id] columns among columns, in their order. *)
Definition vlan_id_cells (cols : list (string * string)) : list string :=
  map snd (List.filter (λ kv : string * string,
                          String.eqb (normalise kv.1) "vlan_id") cols).

(** [_common] after columns: a column named by a common attribute sets
    it, the other columns leave [_common] alone. *)
Definition set_common (com : common) (kv : string * string) : common :=
  if Py.mem (normalise kv.1) common_keys then <[normalise kv.1 := kv.2]> com
  else com.

Definition common_after (cols : list (string * string)) : common :=
  foldl set_common ∅ cols.

(** The [vlan_id] values of the records of a VLAN list that have one. *)
Definition vlan_ids (vl : list vlanrec) : list value :=
  omap (λ v : vlanrec, v !! "vlan_id") vl.

(** A file whose header names [mac_address] twice. *)
Definition rows_two_mac_columns : list (list string) :=
  [ ["MAC Address"; "MAC Address"; "Group"; "VLAN ID"];
    ["aa:bb"; "cc:dd"; "Branch1"; "10"];
    ["aa:bb"; "ee:ff"; "Branch2"; "20"] ].



(** A file with an exclude range in a VLAN block, with the columns of
    the classes of the statement named; and one whose VLAN has an
    address and no [VLAN Subnet] column. *)
Definition rows_exclude : list (list string) :=
  [ ["MAC Address"; "Group"; "VLAN ID"; "DHCP Exclude Start 1"; "Domain Name";
     "DHCP Exclude End 1"];
    ["aa:bb"; "Branch1"; "10"; "10.0.0.2"; "lab"; "10.0.0.10"] ].


(** ** The request builders of [CentralApi] *)

Module Requests.

(** [params = {}] and the loop [for k, v in zip(keys, values): if v:
    params[k] = v] of [get_wlan_clients] and [get_wired_clients]; an
    argument is a string or [None]. *)
Definition filters (keys : list string) (values : list (option string))
  : gmap string string :=
  foldl (λ (params : gmap string string) (kv : string * option string),
           match kv.2 with
           | Some v => if negb (String.eqb v "") then <[kv.1 := v]> params else params
           | None => params
           end)
        ∅ (zip keys values).

(** [CentralApi.get_wlan_clients], over [get url params], what
    [self.central.get] returns for these arguments. *)
Definition get_wlan_clients {R : Type} (get : string → gmap string string → R)
    (group swarm_id label ssid serial os_type cluster_id band : option string) : R :=
  let params :=
    filters ["group"; "swarm_id"; "label"; "ssid"; "serial"; "os_type";
             "cluster_id"; "band"]
            [group; swarm_id; label; ssid; serial; os_type; cluster_id; band] in
  let url := "/monitoring/v1/clients/wireless" in
  get url params.

(** [CentralApi.get_wired_clients] *)
Definition get_wired_clients {R : Type} (get : string → gmap string string → R)
    (group swarm_id label ssid serial cluster_id stack_id : option string) : R :=
  let params :=
    filters ["group"; "swarm_id"; "label"; "ssid"; "serial"; "cluster_id";
             "stack_id"]
            [group; swarm_id; label; ssid; serial; cluster_id; stack_id] in
  let url := "/monitoring/v1/clients/wired" in
  get url params.

(** [CentralApi.get_dev_by_type] *)
Definition get_dev_by_type {R : Type} (get : string → gmap string string → R)
    (dev_type : string) : R :=
  let url := "/platform/device_inventory/v1/devices" in
  let dev_type :=
    if Py.mem (Py.lower dev_type) ["aps"; "ap"] then "iap" else dev_type in
  let params : gmap string string := {[ "sku_type" := dev_type ]} in
  get url params.

(** [CentralApi.caasapi], over [post url params headers cli_cmds], the
    call of [requests.post]; [vars] and [access_token] are those of
    [self.central].  [vars.get('customer_id')] is [None] for a
    configuration without that key, [vars["base_url"]] raises. *)
Definition caasapi {R : Type}
    (post : string → gmap string (option string) → gmap string string
            → list string → R)
    (vars : gmap string string) (access_token : string)
    (group_dev : string) (cli_cmds : option (list string)) : result R :=
  let key :=
    if Py.contains ":" group_dev && Nat.eqb (String.length group_dev) 17
    then "node_name" else "group_name" in
  let url := "/caasapi/v1/exec/cmd" in
  let params : gmap string (option string) :=
    <[key := Some group_dev]> {[ "cid" := vars !! "customer_id" ]} in
  let header : gmap string string :=
    <["Content-type" := "application/json"]>
      {[ "authorization" := "Bearer " +:+ access_token ]} in
  let payload :=
    match cli_cmds with
    | Some (c :: l) => c :: l
    | _ => []
    end in
  match vars !! "base_url" with
  | Some base_url => Ok (post (base_url +:+ url) params header payload)
  | None => Raise (KeyError "base_url")
  end.

End Requests.

(** The keys and the arguments of [get_wlan_clients], paired as its loop
    pairs them. *)
Definition wlan_arguments
    (group swarm_id label ssid serial os_type cluster_id band : option string)
  : list (string * option string) :=
  [ ("group", group); ("swarm_id", swarm_id); ("label", label); ("ssid", ssid);
    ("serial", serial); ("os_type", os_type); ("cluster_id", cluster_id);
    ("band", band) ].

Definition wired_arguments
    (group swarm_id label ssid serial cluster_id stack_id : option string)
  : list (string * option string) :=
  [ ("group", group); ("swarm_id", swarm_id); ("label", label); ("ssid", ssid);
    ("serial", serial); ("cluster_id", cluster_id); ("stack_id", stack_id) ].

(** A MAC address in colon notation: six octets of two characters. *)
Definition colon_mac (octets : list string) : string := Py.join ":" octets.

(** The headers of the calls of [requests.post]. *)
Definition json_headers (access_token : string) : gmap string string :=
  <["Content-type" := "application/json"]>
    {[ "authorization" := "Bearer " +:+ access_token ]}.

(** * Properties *)

(** ** Reasoning in [E] *)

Lemma bind_ok {A B : Type} (m : E A) (f : A → E B) (a : A) :
  m.1 = Ok a → m ≫= f = ((f a).1, out_app m.2 (f a).2).
Proof. intros H. unfold mbind, E_bind. now rewrite H. Qed.

Lemma bind_raise {A B : Type} (m : E A) (f : A → E B) (e : exn) :
  m.1 = Raise e → m ≫= f = (Raise e, m.2).
Proof. intros H. unfold mbind, E_bind. now rewrite H. Qed.

Lemma out_app_nil_l (o : output) : out_app no_output o = o.
Proof. now destruct o. Qed.

Lemma out_app_nil_r (o : output) : out_app o no_output = o.
Proof. destruct o. unfold out_app. cbn. now rewrite !app_nil_r. Qed.

Lemma ret_bind {A B : Type} (a : A) (f : A → E B) : mret a ≫= f = f a.
Proof.
  rewrite (bind_ok _ _ a) by reflexivity. cbn.
  rewrite out_app_nil_l. now destruct (f a).
Qed.

Lemma getitem_Some {V : Type} (d : gmap string V) (k : string) (x : V) :
  d !! k = Some x → getitem d k = mret x.
Proof. intros H. unfold getitem. now rewrite H. Qed.

Lemma getitem_bind {V B : Type} (d : gmap string V) (k : string) (x : V)
    (f : V → E B) :
  d !! k = Some x → getitem d k ≫= f = f x.
Proof. intros H. rewrite (getitem_Some _ _ _ H). apply ret_bind. Qed.

Lemma truthy_Some (o : option value) : truthy o = true → ∃ x, o = Some x.
Proof. destruct o; [eauto | discriminate]. Qed.

Lemma ok_ret {A : Type} (a : A) : ok (mret a : E A).
Proof. now exists a. Qed.

Lemma ok_add_cmds (l : list string) : ok (add_cmds l).
Proof. now exists tt. Qed.

Lemma ok_print (msg : string) : ok (print msg).
Proof. now exists tt. Qed.

Lemma ok_bind {A B : Type} (m : E A) (f : A → E B) :
  ok m → (∀ a, m.1 = Ok a → ok (f a)) → ok (m ≫= f).
Proof.
  intros [a Ha] Hf. destruct (Hf a Ha) as [b Hb].
  exists b. now rewrite (bind_ok _ _ a Ha).
Qed.

Lemma ok_when (b : bool) (m : E unit) : (b = true → ok m) → ok (when b m).
Proof. destruct b; cbn; [auto | intros _; apply ok_ret]. Qed.

Lemma ok_getitem {V : Type} (d : gmap string V) (k : string) :
  is_Some (d !! k) → ok (getitem d k).
Proof. intros [x Hx]. rewrite (getitem_Some _ _ _ Hx). apply ok_ret. Qed.

Lemma ok_for_each {A : Type} (l : list A) (body : A → E unit) :
  (∀ x, x ∈ l → ok (body x)) → ok (for_each l body).
Proof.
  induction l as [|x l IH]; intros H; cbn.
  - apply ok_ret.
  - apply ok_bind; [apply H; left | intros _ _; apply IH].
    intros y Hy. apply H. now right.
Qed.

Lemma ok_tt (m : E unit) : ok m → m.1 = Ok tt.
Proof. intros [[] H]. exact H. Qed.

(** Sequencing after a block that raises nothing concatenates the outputs. *)
Lemma seq_ok (m k : E unit) : ok m → (m;; k) = (k.1, out_app m.2 k.2).
Proof. intros H. apply bind_ok with (a := tt). now apply ok_tt. Qed.


Lemma truthy_is_Some (o : option value) : truthy o = true → is_Some o.
Proof. destruct o; [eauto | discriminate]. Qed.

Ltac ok_step :=
  lazymatch goal with
  | |- ok (when _ _) => apply ok_when; intros ?
  | |- ok (getitem _ _) => apply ok_getitem; auto using truthy_is_Some
  | |- ok (mret _) => apply ok_ret
  | |- ok (add_cmds _) => apply ok_add_cmds
  | |- ok (print _) => apply ok_print
  | |- ok (for_each _ _) => apply ok_for_each; intros ? ?
  | |- ok (if ?b then _ else _) => destruct b eqn:?
  | |- ok (_ ≫= _) => apply ok_bind; [|intros ? ?]
  end.

Ltac solve_ok := repeat ok_step.

(** ** Which records the emitter accepts *)

Lemma ok_vlan_block (v : vlanrec) : is_Some (v !! "vlan_id") → ok (vlan_block v).
Proof. intros H. unfold vlan_block. solve_ok. Qed.

Lemma ok_interface_block (v : vlanrec) :
  is_Some (v !! "vlan_id") →
  (truthy (v !! "vlan_ip") = true → is_Some (v !! "vlan_subnet")) →
  ok (interface_block v).
Proof. intros H1 H2. unfold interface_block. solve_ok. Qed.

Lemma ok_pppoe_block (v : vlanrec) : ok (pppoe_block v).
Proof. unfold pppoe_block. solve_ok. Qed.

Lemma ok_needs_prefix (p : value) :
  match p with VList (x :: l) => Py.mem "thernet" (x :: l) | _ => true end = true →
  truthy (Some p) = true → ok (needs_prefix p).
Proof.
  destruct p as [s|[|x l]]; cbn -[Py.mem]; intros H Ht; try discriminate.
  - apply ok_ret.
  - rewrite H. apply ok_ret.
Qed.

Lemma ok_access_port_block (v : vlanrec) :
  is_Some (v !! "vlan_id") →
  match v !! "access_port" with
  | Some (VList (x :: l)) => Py.mem "thernet" (x :: l)
  | _ => true
  end = true →
  ok (access_port_block v).
Proof.
  intros H1 H2. unfold access_port_block.
  apply ok_when. intros Ht.
  destruct (v !! "access_port") as [p|] eqn:Hp; [|discriminate].
  rewrite (getitem_bind _ _ p) by exact Hp.
  apply ok_bind; [now apply ok_needs_prefix|].
  intros b _. solve_ok.
Qed.

Lemma ok_dhcp_pool_block (v : vlanrec) : ok (dhcp_pool_block v).
Proof. unfold dhcp_pool_block. solve_ok. Qed.

Lemma ok_dhcp_excludes_block (v : vlanrec) : ok (dhcp_excludes_block v).
Proof. unfold dhcp_excludes_block. solve_ok. Qed.

Lemma ok_vrrp_block (v : vlanrec) : is_Some (v !! "vlan_id") → ok (vrrp_block v).
Proof. intros H. unfold vrrp_block. solve_ok. Qed.

Lemma ok_unsupported_block (v : vlanrec) : ok (unsupported_block v).
Proof. unfold unsupported_block. solve_ok. Qed.

Lemma emittable_inv (v : vlanrec) :
  emittable v = true →
  is_Some (v !! "vlan_id")
  ∧ (truthy (v !! "vlan_ip") = true → is_Some (v !! "vlan_subnet"))
  ∧ match v !! "access_port" with
    | Some (VList (x :: l)) => Py.mem "thernet" (x :: l)
    | _ => true
    end = true.
Proof.
  unfold emittable. intros H.
  apply andb_prop in H as [H H3]. apply andb_prop in H as [H1 H2].
  apply bool_decide_eq_true_1 in H1. repeat split; [done| |done].
  intros Ht. rewrite Ht in H2. cbn in H2. now apply bool_decide_eq_true_1 in H2.
Qed.

(** On an emittable record the output of [build_vlan] is the outputs of
    its blocks, one after the other. *)
Lemma build_vlan_blocks (v : vlanrec) :
  emittable v = true →
  build_vlan v =
    (Ok tt,
     out_app (vlan_block v).2 (out_app (interface_block v).2
       (out_app (pppoe_block v).2 (out_app (access_port_block v).2
         (out_app (dhcp_pool_block v).2 (out_app (dhcp_excludes_block v).2
           (out_app (vrrp_block v).2 (unsupported_block v).2))))))).
Proof.
  intros H. apply emittable_inv in H as (H1 & H2 & H3).
  unfold build_vlan.
  rewrite (seq_ok (vlan_block v)) by now apply ok_vlan_block.
  rewrite (seq_ok (interface_block v)) by now apply ok_interface_block.
  rewrite (seq_ok (pppoe_block v)) by apply ok_pppoe_block.
  rewrite (seq_ok (access_port_block v)) by now apply ok_access_port_block.
  rewrite (seq_ok (dhcp_pool_block v)) by apply ok_dhcp_pool_block.
  rewrite (seq_ok (dhcp_excludes_block v)) by apply ok_dhcp_excludes_block.
  rewrite (seq_ok (vrrp_block v)) by now apply ok_vrrp_block.
  cbn [fst snd]. now rewrite (ok_tt _ (ok_unsupported_block v)).
Qed.



Lemma unsupported_block_cmds (v : vlanrec) : cmds (unsupported_block v).2 = [].
Proof.
  unfold unsupported_block.
  destruct (truthy (v !! "bg_peer_ip")),
    (truthy (v !! "zs_site_to_site_map_name") || truthy (v !! "source_fqdn"));
    reflexivity.
Qed.


(** ** The VRRP block *)


(** What the VRRP block prints and emits. *)
Lemma vrrp_block_out (v : vlanrec) (vid id : value) :
  v !! "vrrp_id" = Some vid → truthy (Some vid) = true →
  v !! "vlan_id" = Some id →
  vrrp_block v =
    match v !! "vrrp_ip" with
    | Some ip =>
        if truthy (Some ip) then
          (Ok tt,
           mkOut (["vrrp " +:+ py_str vid; "ip address " +:+ py_str ip;
                   "vlan " +:+ py_str id]
                  ++ match v !! "vrrp_priority" with
                     | Some p =>
                         if truthy (Some p) then ["priority " +:+ py_str p] else []
                     | None => []
                     end
                  ++ ["no shutdown"; "!"]) [] [])
        else (Ok tt, mkOut [] [vrrp_error vid id] [])
    | None => (Ok tt, mkOut [] [vrrp_error vid id] [])
    end.
Proof.
  intros Hvid Ht Hid. unfold vrrp_block. rewrite Hvid, Ht. cbn [when].
  assert (Herr : (vid ← getitem v "vrrp_id"; id ← getitem v "vlan_id";
                  print ("Validation Error VRRP ID " +:+ py_str vid +:+ " VLAN "
                         +:+ py_str id +:+ " No VRRP IP provided... Skipped"))
                 = (Ok tt, mkOut [] [vrrp_error vid id] [])).
  { rewrite (getitem_bind _ _ vid) by exact Hvid.
    now rewrite (getitem_bind _ _ id) by exact Hid. }
  destruct (v !! "vrrp_ip") as [ip|] eqn:Hip; [|exact Herr].
  destruct (truthy (Some ip)) eqn:Htip; [|exact Herr].
  rewrite (getitem_bind _ _ vid) by exact Hvid.
  rewrite (getitem_bind _ _ ip) by exact Hip.
  rewrite (getitem_bind _ _ id) by exact Hid.
  destruct (v !! "vrrp_priority") as [p|] eqn:Hp.
  - rewrite (getitem_Some _ _ _ Hp). now destruct (truthy (Some p)).
  - reflexivity.
Qed.

(** ** The access-port block *)

Lemma pppoe_block_cmds (v : vlanrec) : cmds (pppoe_block v).2 = [].
Proof. unfold pppoe_block. now destruct (truthy (v !! "pppoe_username")). Qed.




(** ** Reasoning in [M] *)

Lemma out_app_assoc (a b c : output) :
  out_app a (out_app b c) = out_app (out_app a b) c.
Proof. unfold out_app. cbn. now rewrite !app_assoc. Qed.

Section DriverFacts.

Context {W : Type} (S : session W).

Lemma M_bind_ok {A B : Type} (m : M W A) (f : A → M W B) (w w1 : W)
    (a : A) (o : output) :
  m w = ((Ok a, o), w1) → (m ≫= f) w = attach o (f a w1).
Proof. intros H. unfold mbind, M_bind. now rewrite H. Qed.

Lemma M_bind_raise {A B : Type} (m : M W A) (f : A → M W B) (w w1 : W)
    (e : exn) (o : output) :
  m w = ((Raise e, o), w1) → (m ≫= f) w = ((Raise e, o), w1).
Proof. intros H. unfold mbind, M_bind. now rewrite H. Qed.

Lemma build_cmds_cons (h : store) (d : string * entry)
    (data : list (string * entry)) (w : W) :
  build_cmds S h (d :: data) w =
    match build_dev S h d.1 d.2 w with
    | ((Ok _, o), w1) => attach o (build_cmds S h data w1)
    | ((Raise e, o), w1) => ((Raise e, o), w1)
    end.
Proof. reflexivity. Qed.

(** An exception in the body of the device loop ends the loop: the
    output is that of the devices before, then that of the failing one. *)
Lemma build_cmds_abort (h : store) (pre post : list (string * entry))
    (dev : string) (e : entry) (x : exn) (o o' : output) (w w' w'' : W) :
  build_cmds S h pre w = ((Ok tt, o), w') →
  build_dev S h dev e w' = ((Raise x, o'), w'') →
  build_cmds S h (pre ++ (dev, e) :: post) w = ((Raise x, out_app o o'), w'').
Proof.
  revert w o. induction pre as [|d pre IH]; intros w o Hpre Hdev.
  - cbn in Hpre. injection Hpre as <- <-.
    cbn [app]. rewrite build_cmds_cons. cbn [fst snd]. rewrite Hdev.
    now rewrite out_app_nil_l.
  - cbn [app]. rewrite build_cmds_cons in *.
    destruct (build_dev S h d.1 d.2 w) as [[r1 o1] w1].
    destruct r1 as [[]|x1]; [|discriminate Hpre].
    destruct (build_cmds S h pre w1) as [[r2 o2] w2] eqn:Hrest.
    cbn [attach] in Hpre. injection Hpre as -> <- ->.
    rewrite (IH w1 o2 Hrest Hdev). cbn [attach].
    now rewrite out_app_assoc.
Qed.

(** ** A device without [group] *)

(** C10.  For a device whose common attributes lack [group], the body of
    the device loop raises [KeyError group] with no command, no print
    and no call of the session; and when the devices before it were
    processed without error, the run ends there, its output being
    theirs. *)
Theorem missing_group_aborts (h : store) (pre post : list (string * entry))
    (dev : string) (e : entry) (com : common) (vl : list vlanrec)
    (o : output) (w w' : W) :
  common_of h e = Some com →
  vlans_of h e = Some vl →
  com !! "group" = None →
  build_cmds S h pre w = ((Ok tt, o), w') →
  build_dev S h dev e w' = ((Raise (KeyError "group"), no_output), w')
  ∧ build_cmds S h (pre ++ (dev, e) :: post) w
    = ((Raise (KeyError "group"), o), w').
Proof.
  intros Hcom Hvl Hg Hpre.
  assert (Hdev : build_dev S h dev e w'
                 = ((Raise (KeyError "group"), no_output), w')).
  { unfold build_dev. rewrite Hcom, Hvl. cbn [from_option].
    rewrite (M_bind_ok _ _ w' w' com no_output) by reflexivity.
    rewrite (M_bind_ok _ _ w' w' vl no_output) by reflexivity.
    rewrite (M_bind_raise _ _ w' w' (KeyError "group") no_output)
      by (unfold lift, getitem; now rewrite Hg).
    reflexivity. }
  split; [exact Hdev|].
  rewrite (build_cmds_abort h pre post dev e _ o no_output w w' w' Hpre Hdev).
  now rewrite out_app_nil_r.
Qed.

End DriverFacts.

Lemma missing_group_aborts_witness :
  let r := get_bulkedit_data rows_without_group in
  build_dev no_inventory (heap r) "aa:bb" (DevEntry 0 0) tt
  = ((Raise (KeyError "group"), no_output), tt)
  ∧ build_cmds no_inventory (heap r) ([] ++ [("aa:bb", DevEntry 0 0)]) tt
    = ((Raise (KeyError "group"), no_output), tt).
Proof.
  apply (missing_group_aborts no_inventory
           (heap (get_bulkedit_data rows_without_group)) [] []
           "aa:bb" (DevEntry 0 0) ∅ [ {[ "vlan_id" := VStr "10" ]} ]
           no_output tt tt);
    vm_compute; reflexivity.
Defined.

(** ** A configured address without the key [vlan_subnet] *)

(** A record with [vlan_ip] set and no key [vlan_subnet]: the validation
    error is printed, then [v['vlan_subnet']] raises; neither line of the
    interface block is emitted. *)
Lemma interface_block_without_subnet (v : vlanrec) (id : value) :
  v !! "vlan_id" = Some id →
  truthy (v !! "vlan_ip") = true →
  v !! "vlan_subnet" = None →
  build_vlan v =
    (Raise (KeyError "vlan_subnet"),
     mkOut ["vlan " +:+ py_str id; "!"]
           [("Validation Error No subnet mask for VLAN " +:+ py_str id +:+ " ")
            +:+ Py.nl] []).
Proof.
  intros Hid Hip Hsub.
  destruct (truthy_Some _ Hip) as [ip Hip'].
  assert (Hi : interface_block v =
               (Raise (KeyError "vlan_subnet"),
                mkOut [] [("Validation Error No subnet mask for VLAN "
                           +:+ py_str id +:+ " ") +:+ Py.nl] [])).
  { unfold interface_block. rewrite Hip, Hsub. cbn [when truthy negb].
    rewrite !(getitem_bind v "vlan_id" id) by exact Hid.
    rewrite (getitem_bind v "vlan_ip" ip) by exact Hip'.
    rewrite (bind_ok _ _ tt) by reflexivity.
    unfold getitem. rewrite Hsub. reflexivity. }
  unfold build_vlan, vlan_block. rewrite (getitem_bind v "vlan_id" id) by exact Hid.
  rewrite (bind_ok _ _ tt) by reflexivity.
  rewrite (bind_raise _ _ (KeyError "vlan_subnet")) by now rewrite Hi.
  now rewrite Hi.
Qed.

(** With the key present and empty, the line is emitted with an empty
    subnet and the run goes on. *)
Lemma interface_block_empty_subnet (v : vlanrec) (id ip : value) :
  v !! "vlan_id" = Some id →
  v !! "vlan_ip" = Some ip → truthy (Some ip) = true →
  v !! "vlan_subnet" = Some (VStr "") →
  ok (interface_block v)
  ∧ ("Validation Error No subnet mask for VLAN " +:+ py_str id +:+ " ") +:+ Py.nl
    ∈ stdout (interface_block v).2
  ∧ ∃ rest, cmds (interface_block v).2 =
      ("interface vlan " +:+ py_str id) :: ("ip address " +:+ py_str ip +:+ " ") :: rest.
Proof.
  intros Hid Hip Ht Hsub. split.
  { apply ok_interface_block; rewrite ?Hid, ?Hsub; eauto. }
  unfold interface_block. rewrite Hip, Ht, Hsub. cbn [when truthy negb String.eqb].
  rewrite !(getitem_bind v "vlan_id" id) by exact Hid.
  rewrite (getitem_bind v "vlan_ip" ip) by exact Hip.
  rewrite (getitem_bind v "vlan_subnet" (VStr "")) by exact Hsub.
  rewrite (bind_ok _ _ tt) by reflexivity.
  rewrite (bind_ok (add_cmds _) _ tt) by reflexivity.
  cbn [fst snd out_app cmds stdout app]. split.
  - apply list_elem_of_here.
  - eexists. reflexivity.
Qed.

(** C3, at a file with a [VLAN IP] column and no [VLAN Subnet] column: the
    validation error is printed, then the run ends on
    [KeyError vlan_subnet], and no [ip address] line is among the
    commands. *)
Theorem missing_subnet_key_aborts :
  BuildCLI no_inventory rows_without_subnet tt =
    ((Raise (KeyError "vlan_subnet"),
      mkOut ["vlan 10"; "!"]
            ["Verifying aa:bb is in Group Branch1...";
             "Building cmds for aa:bb" +:+ Py.nl;
             "Validation Error No subnet mask for VLAN 10 " +:+ Py.nl]
            [GetDevByType "gateway"]),
     tt).
Proof. vm_compute. reflexivity. Qed.

(** ** The column [pppoe_username] *)

(** The key [pppoe_username] starts with none of the prefixes of the
    VLAN branch, whose last one is [ppoe]: the column is ignored. *)
Lemma ingest_column_pppoe (lc lv : nat) (s : ingest) (k v : string) :
  normalise k = "pppoe_username" → ingest_column lc lv s (k, v) = s.
Proof. intros H. unfold ingest_column. cbn [fst snd]. now rewrite H. Qed.

(** On a record that has [pppoe_username], the emitter prints the warning
    and the block emits no command. *)
Lemma pppoe_block_warns (v : vlanrec) :
  truthy (v !! "pppoe_username") = true →
  pppoe_block v
  = (Ok tt, mkOut [] ["Warning PPPoE not supported by this tool yet" +:+ Py.nl] []).
Proof. intros H. unfold pppoe_block. now rewrite H. Qed.

(** C8, at a file with a [pppoe_username] column: the record that
    ingestion stores has no [pppoe_username], and the run prints no
    warning. *)
Theorem pppoe_username_not_ingested :
  lists (heap (get_bulkedit_data rows_pppoe)) = [ [ {[ "vlan_id" := VStr "10" ]} ] ]
  ∧ BuildCLI no_inventory rows_pppoe tt =
      ((Ok tt,
        mkOut ["vlan 10"; "!"]
              ["Verifying aa:bb is in Group Branch1...";
               "Building cmds for aa:bb" +:+ Py.nl]
              [GetDevByType "gateway"]),
       tt).
Proof. split; vm_compute; reflexivity. Qed.

(** ** Records without [vlan_id] *)

(** A row always appends its [vlan_data], whether a [vlan_id] was read in
    it or not. *)
Lemma ingest_row_appends (lc lv : nat) (header : list string) (s : ingest)
    (data_row : list string) :
  let s1 := foldl (ingest_column lc lv)
              (mkIngest (cli_data s) (heap s) (_mac s) (_exclude_start s) ∅ (printed s))
              (zip header data_row) in
  lists (heap (ingest_row lc lv header s data_row))
  = alter (λ xs, xs ++ [vlan_data s1]) lv (lists (heap s1)).
Proof. reflexivity. Qed.

(** C9, at a file that ends with an empty line: the row of that line
    appends the empty record, which has no [vlan_id], and the emitter
    stops on it with [KeyError vlan_id]. *)
Theorem blank_row_appends_empty_record :
  lists (heap (get_bulkedit_data rows_blank_line))
  = [ [ {[ "vlan_id" := VStr "10" ]}; ∅ ] ]
  ∧ (∅ : vlanrec) !! "vlan_id" = None
  ∧ BuildCLI no_inventory rows_blank_line tt =
      ((Raise (KeyError "vlan_id"),
        mkOut ["vlan 10"; "!"]
              ["Verifying aa:bb is in Group Branch1...";
               "Building cmds for aa:bb" +:+ Py.nl]
              [GetDevByType "gateway"]),
       tt).
Proof. repeat split; vm_compute; reflexivity. Qed.

(** ** The group reconciler *)

Section ReconcilerFacts.

Context {W : Type} (S : session W).

(** The reconciler on a device found in the inventory, when the calls
    of the session return: the move is requested exactly when the
    current group differs from the desired one, and a failed move is
    reported when the device has a [hostname]. *)
Lemma reconcile_matched (dev _pretty_name : string) (com : common)
    (gateways : list (gmap string string)) (dev_info : gmap string string)
    (rest : list (gmap string string)) (group serial current : string)
    (res : bool) (w w1 w2 w3 : W) :
  get_dev_by_type S "gateway" w = (Ok gateways, w1) →
  List.filter (λ _dev : gmap string string,
                 String.eqb (Py.lower (default "" (_dev !! "macaddr"))) (Py.lower dev))
              gateways = dev_info :: rest →
  com !! "group" = Some group →
  dev_info !! "serial" = Some serial →
  get_group_for_dev_by_serial S serial w1 = (Ok current, w2) →
  move_dev_to_group S group serial w2 = (Ok res, w3) →
  reconcile S dev _pretty_name com w =
    let asked := [GetDevByType "gateway"; GetGroupForDevBySerial serial] in
    let moving := [" it is *Not*" +:+ Py.nl;
                   ("Moving " +:+ _pretty_name +:+ " to Group " +:+ group) +:+ Py.nl] in
    if String.eqb group current then
      ((Ok tt, mkOut [] [" Confirmed" +:+ Py.nl] asked), w2)
    else if res then
      ((Ok tt, mkOut [] moving (asked ++ [MoveDevToGroup group serial])), w3)
    else
      match com !! "hostname" with
      | Some hostname =>
          ((Ok tt,
            mkOut [] (moving ++ [("Error Returned Moving " +:+ hostname
                                  +:+ " to Group " +:+ group) +:+ Py.nl])
                  (asked ++ [MoveDevToGroup group serial])), w3)
      | None =>
          ((Raise (KeyError "hostname"),
            mkOut [] moving (asked ++ [MoveDevToGroup group serial])), w3)
      end.
Proof.
  intros Hinv Hmatch Hg Hserial Hcur Hmove. unfold reconcile.
  rewrite (M_bind_ok _ _ w w1 gateways (mkOut [] [] [GetDevByType "gateway"]))
    by (unfold session_call; now rewrite Hinv).
  rewrite Hmatch.
  rewrite (M_bind_ok _ _ w1 w1 group no_output)
    by (unfold lift, getitem; now rewrite Hg).
  rewrite (M_bind_ok _ _ w1 w1 serial no_output)
    by (unfold lift, getitem; now rewrite Hserial).
  rewrite (M_bind_ok _ _ w1 w2 current
             (mkOut [] [] [GetGroupForDevBySerial serial]))
    by (unfold session_call; now rewrite Hcur).
  destruct (String.eqb group current); [reflexivity|].
  rewrite (M_bind_ok _ _ w2 w2 tt (mkOut [] [" it is *Not*" +:+ Py.nl] []))
    by reflexivity.
  rewrite (M_bind_ok _ _ w2 w2 group no_output)
    by (unfold lift, getitem; now rewrite Hg).
  rewrite (M_bind_ok _ _ w2 w2 tt
             (mkOut [] [("Moving " +:+ _pretty_name +:+ " to Group " +:+ group)
                        +:+ Py.nl] []))
    by reflexivity.
  rewrite (M_bind_ok _ _ w2 w2 group no_output)
    by (unfold lift, getitem; now rewrite Hg).
  rewrite (M_bind_ok _ _ w2 w2 serial no_output)
    by (unfold lift, getitem; now rewrite Hserial).
  rewrite (M_bind_ok _ _ w2 w3 res (mkOut [] [] [MoveDevToGroup group serial]))
    by (unfold session_call; now rewrite Hmove).
  destruct res; [reflexivity|]. cbn [negb].
  destruct (com !! "hostname") as [hostname|] eqn:Hh.
  - rewrite (M_bind_ok _ _ w3 w3 hostname no_output)
      by (unfold lift, getitem; now rewrite Hh).
    rewrite (M_bind_ok _ _ w3 w3 group no_output)
      by (unfold lift, getitem; now rewrite Hg).
    reflexivity.
  - rewrite (M_bind_raise _ _ w3 w3 (KeyError "hostname") no_output)
      by (unfold lift, getitem; now rewrite Hh).
    reflexivity.
Qed.

(** A device that the inventory does not list: no group is fetched and
    no move is requested. *)
Lemma reconcile_unmatched (dev _pretty_name : string) (com : common)
    (gateways : list (gmap string string)) (w w1 : W) :
  get_dev_by_type S "gateway" w = (Ok gateways, w1) →
  List.filter (λ _dev : gmap string string,
                 String.eqb (Py.lower (default "" (_dev !! "macaddr"))) (Py.lower dev))
              gateways = [] →
  reconcile S dev _pretty_name com w
  = ((Ok tt, mkOut [] [] [GetDevByType "gateway"]), w1).
Proof.
  intros Hinv Hmatch. unfold reconcile.
  rewrite (M_bind_ok _ _ w w1 gateways (mkOut [] [] [GetDevByType "gateway"]))
    by (unfold session_call; now rewrite Hinv).
  now rewrite Hmatch.
Qed.

End ReconcilerFacts.

(** C7, at a device without [hostname] whose move fails: the move is
    requested, then the report of its failure raises [KeyError hostname]
    and the run ends with no command emitted. *)
Theorem failed_move_without_hostname_aborts :
  BuildCLI (fixed_session inventory_aabb "Other" false) rows_without_hostname tt =
    ((Raise (KeyError "hostname"),
      mkOut []
            ["Verifying aa:bb is in Group Branch1...";
             " it is *Not*" +:+ Py.nl;
             "Moving aa:bb to Group Branch1" +:+ Py.nl]
            [GetDevByType "gateway"; GetGroupForDevBySerial "S1";
             MoveDevToGroup "Branch1" "S1"]),
     tt).
Proof. vm_compute. reflexivity. Qed.

(** ** Ingestion: the shared buffers *)

Lemma dict_get_set (k k' : string) (e : entry) (d : list (string * entry)) :
  dict_get k' (dict_set k e d) = if String.eqb k k' then Some e else dict_get k' d.
Proof.
  induction d as [|[k0 e0] d IH]; cbn.
  - destruct (String.eqb_spec k k'); reflexivity.
  - destruct (String.eqb_spec k0 k) as [->|Hk0]; cbn.
    + destruct (String.eqb_spec k k'); reflexivity.
    + destruct (String.eqb_spec k0 k') as [->|Hk0'].
      * destruct (String.eqb_spec k k'); [congruence | reflexivity].
      * exact IH.
Qed.

Lemma mac_pairs_zip (header data_row : list string) :
  mac_pairs (zip header data_row) ≤ mac_columns header.
Proof.
  unfold mac_pairs, mac_columns. revert data_row.
  induction header as [|k header IH]; intros [|x data_row];
    cbn -[normalise]; try lia.
  specialize (IH data_row). destruct (String.eqb _ _); cbn; lia.
Qed.

Section IngestFacts.

Variables (lc lv : nat).

(** A column changes [cli_data] and [_mac] only when it is a
    [mac_address] column. *)
Lemma ingest_column_mac (s : ingest) (kv : string * string) :
  let s' := ingest_column lc lv s kv in
  if String.eqb (normalise kv.1) "mac_address"
  then cli_data s' = dict_set kv.2 EmptyEntry (cli_data s) ∧ _mac s' = kv.2
  else cli_data s' = cli_data s ∧ _mac s' = _mac s.
Proof.
  unfold ingest_column.
  destruct (String.eqb (normalise kv.1) "mac_address"); [now cbn|].
  repeat match goal with
         | |- context [if ?b then _ else _] => destruct b
         end; now cbn.
Qed.

Lemma columns_shared_or_empty (cols : list (string * string)) (s : ingest) :
  shared_or_empty lc lv s → shared_or_empty lc lv (foldl (ingest_column lc lv) s cols).
Proof.
  revert s. induction cols as [|kv cols IH]; intros s H; [exact H|].
  cbn [foldl]. apply IH.
  pose proof (ingest_column_mac s kv) as Hc. cbn zeta in Hc.
  destruct (String.eqb (normalise kv.1) "mac_address"); destruct Hc as [Hc _];
    intros dev e; rewrite Hc; [|apply H].
  rewrite dict_get_set. destruct (String.eqb kv.2 dev); [|apply H].
  intros [= <-]. now right.
Qed.

Lemma columns_no_mac (cols : list (string * string)) (s : ingest) :
  mac_pairs cols = 0 → all_but_current lc lv s →
  all_but_current lc lv (foldl (ingest_column lc lv) s cols).
Proof.
  revert s. induction cols as [|kv cols IH]; intros s Hn H; [exact H|].
  cbn [foldl]. unfold mac_pairs in Hn. cbn in Hn.
  pose proof (ingest_column_mac s kv) as Hc. cbn zeta in Hc.
  destruct (String.eqb (normalise kv.1) "mac_address"); [discriminate Hn|].
  destruct Hc as [Hc Hm]. apply IH; [exact Hn|].
  intros dev e. rewrite Hc, Hm. apply H.
Qed.

Lemma columns_one_mac (cols : list (string * string)) (s : ingest) :
  mac_pairs cols ≤ 1 → all_devices lc lv s →
  all_but_current lc lv (foldl (ingest_column lc lv) s cols).
Proof.
  revert s. induction cols as [|kv cols IH]; intros s Hn H.
  - intros dev e Hde. left. now apply (H dev).
  - cbn [foldl]. unfold mac_pairs in Hn. cbn in Hn.
    pose proof (ingest_column_mac s kv) as Hc. cbn zeta in Hc.
    destruct (String.eqb (normalise kv.1) "mac_address"); destruct Hc as [Hc Hm].
    + apply columns_no_mac.
      * unfold mac_pairs. cbn in Hn. lia.
      * intros dev e. rewrite Hc, Hm, dict_get_set.
        destruct (String.eqb_spec kv.2 dev) as [->|_]; [now right|].
        intros Hde. left. now apply (H dev).
    + apply IH; [exact Hn|]. intros dev e. rewrite Hc. apply H.
Qed.

Lemma ingest_row_all_devices (header data_row : list string) (s : ingest) :
  mac_columns header ≤ 1 → all_devices lc lv s →
  all_devices lc lv (ingest_row lc lv header s data_row).
Proof.
  intros Hn H. unfold ingest_row.
  set (s0 := mkIngest _ _ _ _ ∅ _).
  assert (H1 : all_but_current lc lv (foldl (ingest_column lc lv) s0 (zip header data_row))).
  { apply columns_one_mac; [|exact H].
    pose proof (mac_pairs_zip header data_row). lia. }
  intros dev e. cbn [cli_data]. rewrite dict_get_set.
  destruct (String.eqb_spec (_mac (foldl (ingest_column lc lv) s0 (zip header data_row))) dev)
    as [Heq|Hne]; [now intros [= <-]|].
  intros Hde. destruct (H1 dev e Hde) as [-> | ->]; [reflexivity | contradiction].
Qed.

Lemma ingest_row_shared_or_empty (header data_row : list string) (s : ingest) :
  shared_or_empty lc lv s → shared_or_empty lc lv (ingest_row lc lv header s data_row).
Proof.
  intros H. unfold ingest_row.
  set (s0 := mkIngest _ _ _ _ ∅ _).
  assert (H1 : shared_or_empty lc lv (foldl (ingest_column lc lv) s0 (zip header data_row)))
    by now apply columns_shared_or_empty.
  intros dev e. cbn [cli_data]. rewrite dict_get_set.
  destruct (String.eqb _ dev); [intros [= <-]; now left | apply H1].
Qed.

End IngestFacts.

Lemma ingest_column_two_buffers (n : nat) (s : ingest) (kv : string * string) :
  two_buffers n s → two_buffers n (ingest_column 0 0 s kv).
Proof.
  intros (com & vl & Hh & Hn). unfold ingest_column, two_buffers.
  repeat match goal with
         | |- context [if ?b then _ else _] => destruct b
         end;
    cbn [heap]; unfold store_setitem, store_append; rewrite ?Hh; cbn;
    eexists _, _; (split; [reflexivity|]); rewrite ?length_app; lia.
Qed.

Lemma columns_two_buffers (n : nat) (cols : list (string * string)) (s : ingest) :
  two_buffers n s → two_buffers n (foldl (ingest_column 0 0) s cols).
Proof.
  revert s. induction cols as [|kv cols IH]; intros s H; [exact H|].
  cbn [foldl]. now apply IH, ingest_column_two_buffers.
Qed.

Lemma ingest_row_two_buffers (n : nat) (header data_row : list string) (s : ingest) :
  two_buffers n s → two_buffers (S n) (ingest_row 0 0 header s data_row).
Proof.
  intros H. unfold ingest_row.
  set (s0 := mkIngest _ _ _ _ ∅ _).
  assert (H0 : two_buffers n s0) by exact H.
  destruct (columns_two_buffers n (zip header data_row) s0 H0) as (com & vl & Hh & Hn).
  unfold two_buffers. cbn [heap]. unfold store_append. rewrite Hh. cbn.
  eexists _, _. split; [reflexivity|]. rewrite length_app. cbn. lia.
Qed.

Lemma rows_two_buffers (n : nat) (header : list string) (rows : list (list string))
    (s : ingest) :
  two_buffers n s →
  two_buffers (n + length rows) (foldl (ingest_row 0 0 header) s rows).
Proof.
  revert n s. induction rows as [|row rows IH]; intros n s H; cbn [foldl length].
  - now rewrite Nat.add_0_r.
  - replace (n + S (length rows)) with (S n + length rows) by lia.
    now apply IH, ingest_row_two_buffers.
Qed.

Lemma rows_all_devices (header : list string) (rows : list (list string))
    (s : ingest) :
  mac_columns header ≤ 1 → all_devices 0 0 s →
  all_devices 0 0 (foldl (ingest_row 0 0 header) s rows).
Proof.
  intros Hn. revert s. induction rows as [|row rows IH]; intros s H; [exact H|].
  cbn [foldl]. now apply IH, ingest_row_all_devices.
Qed.

Lemma rows_shared_or_empty (header : list string) (rows : list (list string))
    (s : ingest) :
  shared_or_empty 0 0 s →
  shared_or_empty 0 0 (foldl (ingest_row 0 0 header) s rows).
Proof.
  revert s. induction rows as [|row rows IH]; intros s H; [exact H|].
  cbn [foldl]. now apply IH, ingest_row_shared_or_empty.
Qed.

Lemma get_bulkedit_data_two_buffers (csv_rows : list (list string)) :
  two_buffers (length (tail csv_rows)) (get_bulkedit_data csv_rows).
Proof.
  unfold get_bulkedit_data. cbn.
  destruct csv_rows as [|header rows]; cbn [tail].
  - exists ∅, []. split; [reflexivity | cbn; lia].
  - apply (rows_two_buffers 0). exists ∅, []. split; [reflexivity | cbn; lia].
Qed.

(** Whatever the header, an entry of the mapping is the empty dictionary
    or refers to the two buffers. *)
Lemma get_bulkedit_data_shared_or_empty (csv_rows : list (list string)) :
  shared_or_empty 0 0 (get_bulkedit_data csv_rows).
Proof.
  unfold get_bulkedit_data. cbn.
  destruct csv_rows as [|header rows].
  - intros dev e [=].
  - apply rows_shared_or_empty. intros dev e [=].
Qed.

(** In the file of two devices, the first device is left with the group
    and hostname of the second, and with both VLANs. *)
Example two_devices_aliased :
  let r := get_bulkedit_data rows_two_devices in
  cli_data r = [("aa:bb", DevEntry 0 0); ("cc:dd", DevEntry 0 0)]
  ∧ heap r = mkStore [ {[ "group" := "Branch2"; "hostname" := "gw2" ]} ]
                     [ [ {[ "vlan_id" := VStr "10" ]}; {[ "vlan_id" := VStr "20" ]} ] ].
Proof. split; vm_compute; reflexivity. Qed.

(** ** DHCP exclude ranges *)

Lemma prefix_app (p s : string) :
  String.prefix p s = true → ∃ r, s = p +:+ r.
Proof.
  revert s. induction p as [|a p IH]; intros s H.
  - now exists s.
  - destruct s as [|b s]; [discriminate|]. cbn in H.
    destruct (ascii_dec a b) as [->|]; [|discriminate].
    destruct (IH s H) as [r ->]. now exists r.
Qed.

Section ExcludeFacts.

Variables (lc lv : nat).





End ExcludeFacts.

(** The commands of an accepted record, block by block. *)
Lemma build_vlan_cmds (v : vlanrec) :
  emittable v = true →
  cmds (build_vlan v).2 =
    cmds (vlan_block v).2 ++ cmds (interface_block v).2
    ++ cmds (access_port_block v).2 ++ cmds (dhcp_pool_block v).2
    ++ cmds (dhcp_excludes_block v).2 ++ cmds (vrrp_block v).2.
Proof.
  intros H. rewrite (build_vlan_blocks v H). cbn [snd out_app cmds].
  now rewrite unsupported_block_cmds, pppoe_block_cmds, app_nil_r.
Qed.

Lemma for_each_add_cmds (ls : list string) :
  for_each ls (λ _line, add_cmds [_line]) = (Ok tt, mkOut ls [] []).
Proof.
  induction ls as [|l ls IH]; [reflexivity|].
  cbn [for_each]. rewrite (bind_ok _ _ tt) by reflexivity. now rewrite IH.
Qed.

(** The exclude block emits the lines of [dhcp_excludes] as they are. *)
Lemma dhcp_excludes_block_cmds (v : vlanrec) (x : value) :
  v !! "dhcp_excludes" = Some x →
  cmds (dhcp_excludes_block v).2 = iter_value x.
Proof.
  intros H. unfold dhcp_excludes_block. rewrite H.
  destruct (truthy (Some x)) eqn:Ht; cbn [when].
  - rewrite (getitem_bind v "dhcp_excludes" x) by exact H.
    now rewrite for_each_add_cmds.
  - destruct x as [s|[|l ls]]; cbn in Ht |- *; try discriminate; trivial.
    apply negb_false_iff, String.eqb_eq in Ht. now subst s.
Qed.

(** ** The [vlan <id>] lines of a device *)

Lemma vlan_lines_app (a b : list string) :
  vlan_lines (a ++ b) = vlan_lines a ++ vlan_lines b.
Proof. apply List.filter_app. Qed.

Lemma nvl_ret {A : Type} (a : A) : no_vlan_line (mret a : E A).
Proof. reflexivity. Qed.

Lemma nvl_print (msg : string) : no_vlan_line (print msg).
Proof. reflexivity. Qed.

Lemma nvl_getitem {V : Type} (d : gmap string V) (k : string) :
  no_vlan_line (getitem d k).
Proof. unfold getitem. now destruct (d !! k). Qed.

Lemma nvl_add_cmds (l : list string) :
  vlan_lines l = [] → no_vlan_line (add_cmds l).
Proof. intros H. exact H. Qed.

Lemma nvl_bind {A B : Type} (m : E A) (f : A → E B) :
  no_vlan_line m → (∀ a, no_vlan_line (f a)) → no_vlan_line (m ≫= f).
Proof.
  intros Hm Hf. unfold no_vlan_line, mbind, E_bind.
  destruct m.1 as [a|e]; cbn [snd out_app cmds]; [|exact Hm].
  rewrite vlan_lines_app. unfold no_vlan_line in *. now rewrite Hm, Hf.
Qed.

Lemma nvl_when (b : bool) (m : E unit) : no_vlan_line m → no_vlan_line (when b m).
Proof. destruct b; [auto | intros _; apply nvl_ret]. Qed.

Lemma nvl_for_each {A : Type} (l : list A) (body : A → E unit) :
  (∀ x, no_vlan_line (body x)) → no_vlan_line (for_each l body).
Proof.
  intros H. induction l as [|x l IH]; [apply nvl_ret|].
  cbn [for_each]. apply nvl_bind; auto.
Qed.

Lemma nvl_needs_prefix (p : value) : no_vlan_line (needs_prefix p).
Proof. destruct p as [s|l]; cbn; [reflexivity|]. now destruct (negb _). Qed.

Ltac nvl_step :=
  lazymatch goal with
  | |- no_vlan_line (when _ _) => apply nvl_when
  | |- no_vlan_line (getitem _ _) => apply nvl_getitem
  | |- no_vlan_line (needs_prefix _) => apply nvl_needs_prefix
  | |- no_vlan_line (mret _) => apply nvl_ret
  | |- no_vlan_line (add_cmds _) => apply nvl_add_cmds; reflexivity
  | |- no_vlan_line (print _) => apply nvl_print
  | |- no_vlan_line (for_each _ _) => apply nvl_for_each; intros ?
  | |- no_vlan_line (if ?b then _ else _) => destruct b
  | |- no_vlan_line (_ ≫= _) => apply nvl_bind; [|intros ?]
  end.

Lemma nvl_interface_block (v : vlanrec) : no_vlan_line (interface_block v).
Proof. unfold interface_block. repeat nvl_step. Qed.

Lemma nvl_access_port_block (v : vlanrec) : no_vlan_line (access_port_block v).
Proof.
  unfold access_port_block. apply nvl_when.
  apply nvl_bind; [apply nvl_getitem | intros p].
  apply nvl_bind; [apply nvl_needs_prefix | intros b].
  destruct b; cbv zeta; repeat nvl_step.
Qed.

Lemma nvl_dhcp_pool_block (v : vlanrec) : no_vlan_line (dhcp_pool_block v).
Proof. unfold dhcp_pool_block. repeat nvl_step. Qed.

Lemma startswith_app (p s : string) : Py.startswith p (p +:+ s) = true.
Proof.
  unfold Py.startswith. induction p as [|a p IH]; simpl.
  - now destruct s.
  - destruct (ascii_dec a a); [exact IH | contradiction].
Qed.

Lemma startswith_vlan_char (c : ascii) :
  Py.startswith "vlan " (String c "") = false.
Proof.
  unfold Py.startswith.
  change (String.prefix "vlan " (String c ""))
    with (if ascii_dec "v" c then String.prefix "lan " "" else false).
  now destruct (ascii_dec "v" c).
Qed.

Lemma vlan_lines_chars (s : string) : vlan_lines (Py.chars s) = [].
Proof.
  induction s as [|c s IH]; [reflexivity|].
  unfold vlan_lines in *. cbn [Py.chars List.filter].
  now rewrite startswith_vlan_char.
Qed.

Lemma excludes_ok_insert_str (k s : string) (v : vlanrec) :
  excludes_ok v → excludes_ok (<[k := VStr s]> v).
Proof.
  intros H x. rewrite lookup_insert. case_decide; [|apply H].
  intros [= <-]. apply vlan_lines_chars.
Qed.

Lemma excludes_ok_insert_other (k : string) (x : value) (v : vlanrec) :
  k ≠ "dhcp_excludes" → excludes_ok v → excludes_ok (<[k := x]> v).
Proof. intros Hk H y. rewrite lookup_insert_ne by exact Hk. apply H. Qed.

Lemma excludes_ok_appended (start e : string) (v : vlanrec) :
  excludes_ok v →
  excludes_ok (<["dhcp_excludes" := appended "dhcp_excludes" (exclude_line start e) v]> v).
Proof.
  intros H x. rewrite lookup_insert_eq. intros [= <-]. unfold appended.
  destruct (v !! "dhcp_excludes") as [old|] eqn:Hold; [|reflexivity].
  cbn [iter_value]. rewrite vlan_lines_app, (H old Hold). reflexivity.
Qed.

Lemma store_append_ok (lv : nat) (v : vlanrec) (h : store) :
  excludes_ok v → Forall (Forall excludes_ok) (lists h) →
  Forall (Forall excludes_ok) (lists (store_append lv v h)).
Proof.
  intros Hv Hh. cbn. apply Forall_alter; [exact Hh|].
  intros xs _ Hxs. apply Forall_app. split; [exact Hxs | now constructor].
Qed.

Lemma ingest_column_records_ok (lc lv : nat) (s : ingest) (kv : string * string) :
  records_ok s → records_ok (ingest_column lc lv s kv).
Proof.
  intros [Hv Hh]. unfold ingest_column, records_ok.
  repeat match goal with
         | |- context [if ?b then _ else _] => destruct b
         end; cbn [vlan_data heap]; split; trivial.
  - intros x. rewrite lookup_singleton. case_decide; [|discriminate].
    intros [= <-]. apply vlan_lines_chars.
  - intros x. rewrite lookup_singleton. case_decide; [|discriminate].
    intros [= <-]. apply vlan_lines_chars.
  - now apply store_append_ok.
  - now apply excludes_ok_insert_other.
  - now apply excludes_ok_insert_other.
  - now apply excludes_ok_appended.
  - now apply excludes_ok_insert_str.
Qed.

Lemma columns_records_ok (lc lv : nat) (cols : list (string * string)) (s : ingest) :
  records_ok s → records_ok (foldl (ingest_column lc lv) s cols).
Proof.
  revert s. induction cols as [|kv cols IH]; intros s H; [exact H|].
  cbn [foldl]. now apply IH, ingest_column_records_ok.
Qed.

Lemma ingest_row_records_ok (lc lv : nat) (header data_row : list string)
    (s : ingest) :
  records_ok s → records_ok (ingest_row lc lv header s data_row).
Proof.
  intros [Hv Hh]. unfold ingest_row.
  set (s0 := mkIngest _ _ _ _ ∅ _).
  assert (H0 : records_ok s0) by (split; [intros x [=] | exact Hh]).
  destruct (columns_records_ok lc lv (zip header data_row) s0 H0) as [Hv1 Hh1].
  split; cbn [vlan_data heap]; [exact Hv1 | now apply store_append_ok].
Qed.

Lemma rows_records_ok (lc lv : nat) (header : list string)
    (rows : list (list string)) (s : ingest) :
  records_ok s → records_ok (foldl (ingest_row lc lv header) s rows).
Proof.
  revert s. induction rows as [|row rows IH]; intros s H; [exact H|].
  cbn [foldl]. now apply IH, ingest_row_records_ok.
Qed.

(** The exclude lines of every record that ingestion stores are
    [ip dhcp exclude-address] lines or single characters. *)
Lemma get_bulkedit_data_records_ok (csv_rows : list (list string)) (e : entry)
    (vl : list vlanrec) :
  vlans_of (heap (get_bulkedit_data csv_rows)) e = Some vl →
  Forall excludes_ok vl.
Proof.
  assert (H : records_ok (get_bulkedit_data csv_rows)).
  { unfold get_bulkedit_data. cbn.
    assert (H0 : records_ok (mkIngest [] (mkStore [∅] [[]]) "error" "" ∅ [])).
    { split; [intros x [=] | repeat constructor]. }
    destruct csv_rows as [|header rows]; [exact H0|].
    now apply rows_records_ok. }
  destruct H as [_ H]. destruct e as [|c l]; [discriminate|]. cbn.
  intros Hl. exact (proj1 (Forall_lookup _ _) H l vl Hl).
Qed.

Lemma vlan_lines_vlan (s : string) (l : list string) :
  vlan_lines (("vlan " +:+ s) :: l) = ("vlan " +:+ s) :: vlan_lines l.
Proof. unfold vlan_lines. cbn [List.filter]. now rewrite startswith_app. Qed.

Lemma vlan_lines_skip (x : string) (l : list string) :
  Py.startswith "vlan " x = false → vlan_lines (x :: l) = vlan_lines l.
Proof. intros H. unfold vlan_lines. cbn [List.filter]. now rewrite H. Qed.

Lemma vlan_block_vlan_lines (v : vlanrec) :
  is_Some (v !! "vlan_id") → vlan_lines (cmds (vlan_block v).2) = [vlan_line v].
Proof.
  intros [id Hid]. unfold vlan_block, vlan_line.
  rewrite (getitem_bind v "vlan_id" id) by exact Hid. rewrite Hid.
  cbn [add_cmds snd cmds from_option]. now rewrite vlan_lines_vlan.
Qed.

Lemma dhcp_excludes_block_vlan_lines (v : vlanrec) :
  excludes_ok v → no_vlan_line (dhcp_excludes_block v).
Proof.
  intros H. unfold no_vlan_line.
  destruct (v !! "dhcp_excludes") as [x|] eqn:Hx.
  - rewrite (dhcp_excludes_block_cmds v x Hx). now apply H.
  - unfold dhcp_excludes_block. now rewrite Hx.
Qed.

Lemma vrrp_block_vlan_lines (v : vlanrec) :
  is_Some (v !! "vlan_id") →
  vlan_lines (cmds (vrrp_block v).2)
  = if vrrp_emitted v then [vlan_line v] else [].
Proof.
  intros [id Hid]. unfold vrrp_emitted.
  destruct (truthy (v !! "vrrp_id")) eqn:Ht; cbn [andb].
  - destruct (truthy_Some _ Ht) as [vid Hvid]. rewrite Hvid in Ht.
    rewrite (vrrp_block_out v vid id Hvid Ht Hid).
    destruct (v !! "vrrp_ip") as [ip|]; [|reflexivity].
    destruct (truthy (Some ip)); [|reflexivity].
    unfold vlan_line. rewrite Hid. cbn [snd cmds app from_option].
    rewrite !vlan_lines_skip by reflexivity.
    rewrite vlan_lines_vlan. f_equal.
    destruct (v !! "vrrp_priority") as [p|]; [|reflexivity].
    now destruct (truthy (Some p)).
  - unfold vrrp_block. now rewrite Ht.
Qed.

(** The [vlan <id>] lines of a record: its header, and one more when its
    VRRP block is emitted. *)
Lemma build_vlan_vlan_lines (v : vlanrec) :
  emittable v = true → excludes_ok v →
  vlan_lines (cmds (build_vlan v).2)
  = vlan_line v :: (if vrrp_emitted v then [vlan_line v] else []).
Proof.
  intros Hem Hex. destruct (emittable_inv v Hem) as (Hid & _ & _).
  rewrite (build_vlan_cmds v Hem), !vlan_lines_app.
  rewrite (vlan_block_vlan_lines v Hid), (vrrp_block_vlan_lines v Hid).
  rewrite (nvl_interface_block v), (nvl_access_port_block v),
    (nvl_dhcp_pool_block v), (dhcp_excludes_block_vlan_lines v Hex).
  reflexivity.
Qed.

Lemma for_each_build_vlan (vl : list vlanrec) :
  Forall (λ v, emittable v = true) vl → Forall excludes_ok vl →
  ok (for_each vl build_vlan)
  ∧ vlan_lines (cmds (for_each vl build_vlan).2)
    = flat_map (λ v, vlan_line v :: (if vrrp_emitted v then [vlan_line v] else [])) vl.
Proof.
  induction vl as [|v vl IH]; intros Hem Hex.
  - split; [apply ok_ret | reflexivity].
  - apply Forall_cons in Hem as [Hv Hem]. apply Forall_cons in Hex as [Hx Hex].
    destruct (IH Hem Hex) as [Hok Hlines].
    assert (Hokv : ok (build_vlan v)).
    { exists tt. now rewrite (build_vlan_blocks v Hv). }
    cbn [for_each flat_map]. rewrite (seq_ok _ _ Hokv). cbn [fst snd]. split.
    + exact Hok.
    + cbn [out_app cmds]. rewrite vlan_lines_app, Hlines.
      now rewrite (build_vlan_vlan_lines v Hv Hx).
Qed.

(** The [vlan <id>] lines of a file with a VRRP block in VLAN 10. *)
Example vrrp_vlan_lines :
  vlan_lines (cmds (BuildCLI no_inventory rows_vrrp tt).1.2)
  = ["vlan 10"; "vlan 10"; "vlan 20"].
Proof. vm_compute. reflexivity. Qed.

(** Two rows of one device that put two ports in VLAN 10: one distinct
    [vlan_id], two records, two [vlan 10] lines. *)
Lemma vlan_lines_distinct_counterexample :
  let r := get_bulkedit_data rows_same_vlan in
  let vl := [ {[ "vlan_id" := VStr "10"; "access_port" := VStr "1/1/1" ]};
              {[ "vlan_id" := VStr "10"; "access_port" := VStr "1/1/2" ]} ] in
  cli_data r = [("aa:bb", DevEntry 0 0)]
  ∧ vlans_of (heap r) (DevEntry 0 0) = Some vl
  ∧ distinct_vlan_ids vl = 1
  ∧ BuildCLI no_inventory rows_same_vlan tt =
      ((Ok tt,
        mkOut ["vlan 10"; "!"; "interface gigabitethernet 1/1/1";
               "switchport access vlan 10"; "!";
               "vlan 10"; "!"; "interface gigabitethernet 1/1/2";
               "switchport access vlan 10"; "!"]
              ["Verifying aa:bb is in Group Branch1...";
               "Building cmds for aa:bb" +:+ Py.nl]
              [GetDevByType "gateway"]),
       tt)
  ∧ length (vlan_lines (cmds (BuildCLI no_inventory rows_same_vlan tt).1.2))
    ≠ distinct_vlan_ids vl.
Proof. repeat split; try (vm_compute; reflexivity). vm_compute. discriminate. Qed.

(** ** [emittable] is exact *)

Lemma access_port_block_raises (v : vlanrec) (x : string) (l : list string) :
  v !! "access_port" = Some (VList (x :: l)) →
  Py.mem "thernet" (x :: l) = false →
  (access_port_block v).1 = Raise (AttributeError "startswith").
Proof.
  intros Hp H. unfold access_port_block. rewrite Hp. cbn [truthy when].
  rewrite (getitem_bind v "access_port" (VList (x :: l))) by exact Hp.
  cbn [needs_prefix]. now rewrite H.
Qed.

Lemma build_vlan_raises (v : vlanrec) :
  emittable v = false → ∃ e, (build_vlan v).1 = Raise e.
Proof.
  unfold emittable. intros H.
  destruct (v !! "vlan_id") as [id|] eqn:Hid.
  2: { exists (KeyError "vlan_id"). unfold build_vlan, vlan_block, getitem.
       now rewrite Hid. }
  destruct (truthy (v !! "vlan_ip")) eqn:Hip;
    destruct (v !! "vlan_subnet") as [sn|] eqn:Hsn;
    try (exists (KeyError "vlan_subnet");
         now rewrite (interface_block_without_subnet v id Hid Hip Hsn)).
  all: rewrite bool_decide_eq_true_2 in H by eauto; cbn [andb negb orb] in H.
  all: try rewrite bool_decide_eq_true_2 in H by eauto; cbn [andb negb orb] in H.
  all: destruct (v !! "access_port") as [[p|[|x l]]|] eqn:Hp; try discriminate H.
  all: exists (AttributeError "startswith"); unfold build_vlan.
  all: rewrite (seq_ok (vlan_block v)) by (apply ok_vlan_block; rewrite Hid; eauto).
  all: rewrite (seq_ok (interface_block v))
         by (apply ok_interface_block; rewrite ?Hid, ?Hsn, ?Hip; eauto; discriminate).
  all: rewrite (seq_ok (pppoe_block v)) by apply ok_pppoe_block.
  all: cbn [fst].
  all: now rewrite (bind_raise _ _ _ (access_port_block_raises v x l Hp H)).
Qed.

(** The emitter raises nothing on a record exactly when it is
    [emittable]. *)
Lemma build_vlan_ok_iff (v : vlanrec) :
  (build_vlan v).1 = Ok tt ↔ emittable v = true.
Proof.
  split.
  - intros Hok. destruct (emittable v) eqn:Hem; [reflexivity|].
    destruct (build_vlan_raises v Hem) as [e He]. congruence.
  - intros Hem. now rewrite (build_vlan_blocks v Hem).
Qed.

(** ** The VRRP and access-port blocks, reached or not *)











(** The two halves at sample records: the error without [vrrp_ip], and
    the whole block. *)
Example vrrp_block_samples :
  build_vlan vrrp_without_ip
  = (Ok tt, mkOut ["vlan 10"; "!"] [vrrp_error (VStr "5") (VStr "10")] [])
  ∧ build_vlan vrrp_record
    = (Ok tt, mkOut ["vlan 10"; "!"; "vrrp 5"; "ip address 10.0.0.254"; "vlan 10";
                     "priority 110"; "no shutdown"; "!"] [] []).
Proof. split; vm_compute; reflexivity. Qed.




(** The commands at sample records: a bare port, and a port of a record
    with an address and no [vlan_subnet]. *)
Example access_port_samples :
  build_vlan (access_record "1/1/3")
  = (Ok tt, mkOut ["vlan 10"; "!"; "interface gigabitethernet 1/1/3";
                   "switchport access vlan 10"; "!"] [] [])
  ∧ build_vlan (<["vlan_ip" := VStr "10.0.0.1"]> (access_record "1/1/3"))
    = (Raise (KeyError "vlan_subnet"),
       mkOut ["vlan 10"; "!"] [subnet_error (VStr "10")] []).
Proof. split; vm_compute; reflexivity. Qed.

(** * Further properties *)

(** ** Keys that the emitter does not read *)

(** X1.  A key that the VLAN loop does not read has no effect on the
    output for a record: neither on the commands, nor on what is printed,
    nor on the exception. *)
Theorem build_vlan_ignores_other_keys (k : string) (x : value) (v : vlanrec) :
  Py.mem k emitter_keys = false →
  build_vlan (<[k := x]> v) = build_vlan v.
Proof.
  intros H. cbn [Py.mem emitter_keys existsb] in H.
  repeat (apply orb_false_elim in H as [?%String.eqb_neq H]).
  unfold build_vlan, vlan_block, interface_block, pppoe_block, access_port_block,
    dhcp_pool_block, dhcp_excludes_block, vrrp_block, unsupported_block, getitem.
  rewrite !lookup_insert_ne by assumption. reflexivity.
Qed.

Lemma build_vlan_ignores_other_keys_witness :
  build_vlan (<["vlan_name" := VStr "users"]> (access_record "1/1/3"))
  = build_vlan (access_record "1/1/3").
Proof.
  apply (build_vlan_ignores_other_keys "vlan_name" (VStr "users")
           (access_record "1/1/3")).
  vm_compute. reflexivity.
Defined.

(** ** Invariants of the stored records *)

(** A column leaves the VLAN lists alone or appends the open record. *)
Lemma ingest_column_lists (lc lv : nat) (s : ingest) (kv : string * string) :
  lists (heap (ingest_column lc lv s kv)) = lists (heap s)
  ∨ lists (heap (ingest_column lc lv s kv))
    = alter (λ xs, xs ++ [vlan_data s]) lv (lists (heap s)).
Proof.
  unfold ingest_column.
  repeat match goal with
         | |- context [if ?b then _ else _] => destruct b
         end; cbn [heap lists store_setitem store_append]; auto.
Qed.

Section StoredRecords.

Variable P : vlanrec → Prop.
Hypothesis P_empty : P ∅.
Hypothesis P_column : ∀ (lc lv : nat) (s : ingest) (kv : string * string),
  P (vlan_data s) → P (vlan_data (ingest_column lc lv s kv)).

Lemma alter_append_sat (lv : nat) (v : vlanrec) (ls : list (list vlanrec)) :
  P v → Forall (Forall P) ls → Forall (Forall P) (alter (λ xs, xs ++ [v]) lv ls).
Proof.
  intros Hv Hls. apply Forall_alter; [exact Hls|].
  intros xs _ Hxs. apply Forall_app. split; [exact Hxs | now constructor].
Qed.

Lemma ingest_column_sat (lc lv : nat) (s : ingest) (kv : string * string) :
  records_sat P s → records_sat P (ingest_column lc lv s kv).
Proof.
  intros [Hv Hh]. split; [now apply P_column|].
  destruct (ingest_column_lists lc lv s kv) as [-> | ->];
    [exact Hh | now apply alter_append_sat].
Qed.

Lemma columns_sat (lc lv : nat) (cols : list (string * string)) (s : ingest) :
  records_sat P s → records_sat P (foldl (ingest_column lc lv) s cols).
Proof.
  revert s. induction cols as [|kv cols IH]; intros s H; [exact H|].
  cbn [foldl]. now apply IH, ingest_column_sat.
Qed.

Lemma ingest_row_sat (lc lv : nat) (header data_row : list string) (s : ingest) :
  records_sat P s → records_sat P (ingest_row lc lv header s data_row).
Proof.
  intros [Hv Hh]. unfold ingest_row.
  set (s0 := mkIngest _ _ _ _ ∅ _).
  assert (H0 : records_sat P s0) by (split; [exact P_empty | exact Hh]).
  destruct (columns_sat lc lv (zip header data_row) s0 H0) as [Hv1 Hh1].
  split; cbn [vlan_data heap]; [exact Hv1 | now apply alter_append_sat].
Qed.

Lemma rows_sat (lc lv : nat) (header : list string) (rows : list (list string))
    (s : ingest) :
  records_sat P s → records_sat P (foldl (ingest_row lc lv header) s rows).
Proof.
  revert s. induction rows as [|row rows IH]; intros s H; [exact H|].
  cbn [foldl]. now apply IH, ingest_row_sat.
Qed.

(** A property of the empty record that every column keeps for the open
    record holds of every record that ingestion stores. *)
Lemma get_bulkedit_data_sat (csv_rows : list (list string)) (e : entry)
    (vl : list vlanrec) :
  vlans_of (heap (get_bulkedit_data csv_rows)) e = Some vl → Forall P vl.
Proof.
  assert (H : records_sat P (get_bulkedit_data csv_rows)).
  { unfold get_bulkedit_data. cbn.
    assert (H0 : records_sat P (mkIngest [] (mkStore [∅] [[]]) "error" "" ∅ [])).
    { split; [exact P_empty | repeat constructor]. }
    destruct csv_rows as [|header rows]; [exact H0|].
    now apply rows_sat. }
  destruct H as [_ H]. destruct e as [|c l]; [discriminate|]. cbn.
  intros Hl. exact (proj1 (Forall_lookup _ _) H l vl Hl).
Qed.

End StoredRecords.

(** ** The keys of the stored records *)

Lemma keys_routed_insert (k : string) (x : value) (v : vlanrec) :
  routed_key k = true → keys_routed v → keys_routed (<[k := x]> v).
Proof.
  intros Hk Hv k'. rewrite lookup_insert. case_decide; [now subst | apply Hv].
Qed.

Lemma keys_routed_column (lc lv : nat) (s : ingest) (kv : string * string) :
  keys_routed (vlan_data s) → keys_routed (vlan_data (ingest_column lc lv s kv)).
Proof.
  intros H. unfold ingest_column.
  destruct (String.eqb (normalise kv.1) "mac_address"); [exact H|].
  destruct (Py.mem (normalise kv.1) common_keys) eqn:Hc; [exact H|].
  destruct (Py.startswith_any vlan_prefixes (normalise kv.1)) eqn:Hp; [|exact H].
  assert (Hk : routed_key (normalise kv.1) = true)
    by (unfold routed_key; now rewrite Hc, Hp).
  repeat match goal with
         | |- context [if ?b then _ else _] => destruct b
         end; cbn [vlan_data]; trivial;
    try (apply keys_routed_insert; [reflexivity | exact H]);
    try (intros k'; rewrite lookup_singleton; case_decide;
         [now subst | intros [? [=]]]).
  now apply keys_routed_insert.
Qed.

(** X2.  Every key of every record that ingestion stores starts with one
    of the VLAN prefixes and is no common attribute.  So no stored record
    has [pppoe_username], [bg_peer_ip], [zs_site_to_site_map_name] or
    [source_fqdn], and for the records of a file the emitter prints none
    of its three not-supported warnings. *)
Theorem stored_keys_are_routed (csv_rows : list (list string)) (e : entry)
    (vl : list vlanrec) (v : vlanrec) :
  vlans_of (heap (get_bulkedit_data csv_rows)) e = Some vl →
  v ∈ vl →
  keys_routed v
  ∧ pppoe_block v = mret tt
  ∧ unsupported_block v = mret tt.
Proof.
  intros Hvl Hv.
  assert (Hk : keys_routed v).
  { assert (Hall : Forall keys_routed vl).
    { apply (get_bulkedit_data_sat keys_routed) with (csv_rows := csv_rows) (e := e);
        [intros k [x Hx]; now rewrite lookup_empty in Hx
        | apply keys_routed_column | exact Hvl]. }
    exact (proj1 (Forall_forall _ _) Hall v Hv). }
  assert (Hnone : ∀ k, routed_key k = false → v !! k = None).
  { intros k Hr. destruct (v !! k) as [x|] eqn:Hx; [|reflexivity].
    rewrite Hk in Hr by (rewrite Hx; eauto). discriminate. }
  split; [exact Hk|].
  unfold pppoe_block, unsupported_block.
  rewrite (Hnone "pppoe_username"), (Hnone "bg_peer_ip"),
    (Hnone "zs_site_to_site_map_name"), (Hnone "source_fqdn") by reflexivity.
  split; reflexivity.
Qed.

Lemma stored_keys_are_routed_witness :
  keys_routed {[ "vlan_id" := VStr "10" ]}
  ∧ pppoe_block {[ "vlan_id" := VStr "10" ]} = mret tt
  ∧ unsupported_block {[ "vlan_id" := VStr "10" ]} = mret tt.
Proof.
  apply (stored_keys_are_routed rows_pppoe (DevEntry 0 0)
           [ {[ "vlan_id" := VStr "10" ]} ]).
  - vm_compute. reflexivity.
  - apply list_elem_of_here.
Defined.

(** ** Rows that open their VLAN columns with [vlan_id] *)

Lemma has_vlan_id_column (lc lv : nat) (s : ingest) (kv : string * string) :
  has_vlan_id (vlan_data s) → has_vlan_id (vlan_data (ingest_column lc lv s kv)).
Proof.
  intros H. unfold ingest_column, has_vlan_id in *.
  destruct (String.eqb (normalise kv.1) "mac_address"); [exact H|].
  destruct (Py.mem (normalise kv.1) common_keys); [exact H|].
  destruct (Py.startswith_any vlan_prefixes (normalise kv.1)); [|exact H].
  destruct (String.eqb_spec (normalise kv.1) "vlan_id") as [->|Hne].
  { cbn [vlan_data]. rewrite lookup_singleton_eq. eauto. }
  repeat match goal with
         | |- context [if ?b then _ else _] => destruct b
         end; cbn [vlan_data]; trivial;
    rewrite lookup_insert_ne by (try done; congruence); exact H.
Qed.

Lemma columns_vlan_id_first (lc lv : nat) (cols : list (string * string))
    (s : ingest) :
  vlan_id_first cols = true →
  vlan_data s = ∅ →
  Forall (Forall has_vlan_id) (lists (heap s)) →
  records_sat has_vlan_id (foldl (ingest_column lc lv) s cols).
Proof.
  revert s. induction cols as [|kv cols IH]; intros s Hf He Hh; [discriminate|].
  cbn [foldl vlan_id_first] in *.
  destruct (String.eqb (normalise kv.1) "mac_address") eqn:Hm.
  { apply IH; [exact Hf | | ]; unfold ingest_column; now rewrite Hm. }
  destruct (Py.mem (normalise kv.1) common_keys) eqn:Hc.
  { apply IH; [exact Hf | | ]; unfold ingest_column; now rewrite Hm, Hc. }
  destruct (Py.startswith_any vlan_prefixes (normalise kv.1)) eqn:Hp.
  2: { apply IH; [exact Hf | | ]; unfold ingest_column; now rewrite Hm, Hc, Hp. }
  cbn [orb negb] in Hf. apply columns_sat; [apply has_vlan_id_column|].
  unfold ingest_column. rewrite Hm, Hc, Hp, Hf, He.
  rewrite bool_decide_eq_true_2 by reflexivity.
  apply String.eqb_eq in Hf. rewrite Hf.
  split; cbn [vlan_data heap]; [|exact Hh].
  unfold has_vlan_id. rewrite lookup_singleton_eq. eauto.
Qed.

Lemma ingest_row_vlan_id_first (lc lv : nat) (header data_row : list string)
    (s : ingest) :
  vlan_id_first (zip header data_row) = true →
  Forall (Forall has_vlan_id) (lists (heap s)) →
  Forall (Forall has_vlan_id) (lists (heap (ingest_row lc lv header s data_row))).
Proof.
  intros Hf Hh. unfold ingest_row.
  set (s0 := mkIngest _ _ _ _ ∅ _).
  destruct (columns_vlan_id_first lc lv (zip header data_row) s0 Hf eq_refl Hh)
    as [Hv1 Hh1].
  cbn [heap lists store_append]. now apply alter_append_sat.
Qed.

(** X3.  When in every data row the first column routed to the VLAN
    branch is a [vlan_id] column, every record of the VLAN list that
    ingestion builds has a [vlan_id]. *)
Theorem vlan_id_first_records (header : list string) (rows : list (list string))
    (e : entry) (vl : list vlanrec) :
  Forall (λ row, vlan_id_first (zip header row) = true) rows →
  vlans_of (heap (get_bulkedit_data (header :: rows))) e = Some vl →
  Forall has_vlan_id vl.
Proof.
  intros Hrows.
  assert (H : Forall (Forall has_vlan_id)
                (lists (heap (get_bulkedit_data (header :: rows))))).
  { unfold get_bulkedit_data. cbn.
    assert (H0 : Forall (Forall has_vlan_id)
                   (lists (heap (mkIngest [] (mkStore [∅] [[]]) "error" "" ∅ []))))
      by repeat constructor.
    revert H0. generalize (mkIngest [] (mkStore [∅] [[]]) "error" "" ∅ []).
    induction Hrows as [|row rows Hrow _ IH]; intros s Hs; [exact Hs|].
    cbn [foldl]. apply IH. now apply ingest_row_vlan_id_first. }
  destruct e as [|c l]; [discriminate|]. cbn.
  intros Hl. exact (proj1 (Forall_lookup _ _) H l vl Hl).
Qed.

Lemma vlan_id_first_records_witness : Forall has_vlan_id vrrp_vlans.
Proof.
  apply (vlan_id_first_records
           ["MAC Address"; "Group"; "VLAN ID"; "VRRP ID"; "VRRP IP"; "VLAN ID"]
           [ ["aa:bb"; "Branch1"; "10"; "5"; "10.0.0.254"; "20"] ]
           (DevEntry 0 0) vrrp_vlans).
  - repeat constructor.
  - vm_compute. reflexivity.
Defined.

(** ** The DHCP pool *)

Lemma when_getitem (v : vlanrec) (k : string) (body : value → E unit) :
  when (truthy (v !! k)) (x ← getitem v k; body x)
  = match v !! k with
    | Some x => if truthy (Some x) then body x else mret tt
    | None => mret tt
    end.
Proof.
  destruct (v !! k) as [x|] eqn:Hx; [|reflexivity].
  destruct (truthy (Some x)); [|reflexivity].
  cbn [when]. now apply getitem_bind.
Qed.

Lemma for_each_lines {A : Type} (f : A → string) (l : list A) :
  for_each l (λ x, add_cmds [f x]) = (Ok tt, mkOut (map f l) [] []).
Proof.
  induction l as [|x l IH]; [reflexivity|].
  cbn [for_each]. rewrite (bind_ok _ _ tt) by reflexivity. now rewrite IH.
Qed.

Lemma falsy_iter (x : value) : truthy (Some x) = false → iter_value x = [].
Proof.
  destruct x as [s|[|a l]]; cbn; try discriminate; trivial.
  intros H. apply negb_false_iff, String.eqb_eq in H. now subst s.
Qed.

(** Two blocks that only emit commands, one after the other. *)
Lemma seq_cmds (a b : list string) (k : E unit) :
  k = (Ok tt, mkOut b [] []) →
  (((Ok tt, mkOut a [] []) : E unit);; k) = (Ok tt, mkOut (a ++ b) [] []).
Proof. intros ->. reflexivity. Qed.

(** The output of the pool block of a record with [dhcp_pool_name]. *)
Lemma dhcp_pool_block_out (v : vlanrec) (n : value) :
  v !! "dhcp_pool_name" = Some n → truthy (Some n) = true →
  dhcp_pool_block v
  = (Ok tt,
     mkOut (("ip dhcp pool " +:+ py_str n)
            :: gw_lines v ++ dns_lines v ++ domain_lines v ++ network_lines v
            ++ ["!"]) [] []).
Proof.
  intros Hn Ht. unfold dhcp_pool_block. rewrite Hn, Ht. cbn [when].
  rewrite (getitem_bind v "dhcp_pool_name" n) by exact Hn.
  rewrite !when_getitem.
  assert (Hgw : match v !! "dhcp_def_gws" with
                | Some x =>
                    if truthy (Some x)
                    then for_each (iter_value x) (λ gw, add_cmds ["default-router " +:+ gw])
                    else mret tt
                | None => mret tt
                end = (Ok tt, mkOut (gw_lines v) [] [])).
  { unfold gw_lines. destruct (v !! "dhcp_def_gws") as [x|]; [|reflexivity].
    cbn [from_option]. destruct (truthy (Some x)) eqn:Hx.
    - apply for_each_lines.
    - now rewrite (falsy_iter x Hx). }
  assert (Hdns : match v !! "dns_servers" with
                 | Some x =>
                     if truthy (Some x)
                     then add_cmds ["dns-server " +:+ Py.join " " (iter_value x)]
                     else mret tt
                 | None => mret tt
                 end = (Ok tt, mkOut (dns_lines v) [] [])).
  { unfold dns_lines. destruct (v !! "dns_servers") as [x|]; [|reflexivity].
    now destruct (truthy (Some x)). }
  assert (Hdom : match v !! "domain_name" with
                 | Some x =>
                     if truthy (Some x) then add_cmds ["domain-name " +:+ py_str x]
                     else mret tt
                 | None => mret tt
                 end = (Ok tt, mkOut (domain_lines v) [] [])).
  { unfold domain_lines. destruct (v !! "domain_name") as [x|]; [|reflexivity].
    now destruct (truthy (Some x)). }
  assert (Hnet : when (truthy (v !! "dhcp_network"))
                   (if truthy (v !! "dhcp_mask")
                    then net ← getitem v "dhcp_network";
                         mask ← getitem v "dhcp_mask";
                         add_cmds ["network " +:+ py_str net +:+ " " +:+ py_str mask]
                    else when (truthy (v !! "dhcp_network_prefix"))
                           (net ← getitem v "dhcp_network";
                            pre ← getitem v "dhcp_network_prefix";
                            add_cmds ["network " +:+ py_str net +:+ " /" +:+ py_str pre]))
                 = (Ok tt, mkOut (network_lines v) [] [])).
  { unfold network_lines.
    destruct (truthy (v !! "dhcp_network")) eqn:Hnt; [|reflexivity].
    destruct (truthy_Some _ Hnt) as [net Hnet]. cbn [when].
    destruct (truthy (v !! "dhcp_mask")) eqn:Hmt.
    - destruct (truthy_Some _ Hmt) as [mask Hmask].
      rewrite (getitem_bind v "dhcp_network" net) by exact Hnet.
      rewrite (getitem_bind v "dhcp_mask" mask) by exact Hmask.
      now rewrite Hnet, Hmask.
    - destruct (truthy (v !! "dhcp_network_prefix")) eqn:Hpt; [|reflexivity].
      destruct (truthy_Some _ Hpt) as [pre Hpre]. cbn [when].
      rewrite (getitem_bind v "dhcp_network" net) by exact Hnet.
      rewrite (getitem_bind v "dhcp_network_prefix" pre) by exact Hpre.
      now rewrite Hnet, Hpre. }
  rewrite Hgw, Hdns, Hdom, Hnet.
  change (add_cmds ["ip dhcp pool " +:+ py_str n])
    with ((Ok tt, mkOut ["ip dhcp pool " +:+ py_str n] [] []) : E unit).
  erewrite seq_cmds; [reflexivity|].
  erewrite seq_cmds; [reflexivity|].
  erewrite seq_cmds; [reflexivity|].
  erewrite seq_cmds; [reflexivity|].
  erewrite seq_cmds; reflexivity.
Qed.

Lemma lines_with_app (p : string) (a b : list string) :
  lines_with p (a ++ b) = lines_with p a ++ lines_with p b.
Proof. apply List.filter_app. Qed.

Lemma lines_with_map_other {A : Type} (p : string) (f : A → string) (l : list A) :
  (∀ x, Py.startswith p (f x) = false) → lines_with p (map f l) = [].
Proof.
  intros H. induction l as [|x l IH]; [reflexivity|].
  unfold lines_with in *. cbn [map List.filter]. now rewrite H.
Qed.

Lemma lines_with_map_same (p : string) (l : list string) :
  lines_with p (map (λ x, p +:+ x) l) = map (λ x, p +:+ x) l.
Proof.
  induction l as [|x l IH]; [reflexivity|].
  unfold lines_with in *. cbn [map List.filter].
  now rewrite startswith_app, IH.
Qed.

Lemma lines_with_same (p x : string) : lines_with p [p +:+ x] = [p +:+ x].
Proof. unfold lines_with. cbn [List.filter]. now rewrite startswith_app. Qed.

Lemma dns_lines_no_network (v : vlanrec) : lines_with "network " (dns_lines v) = [].
Proof. unfold dns_lines. now destruct (truthy _). Qed.

Lemma domain_lines_no_network (v : vlanrec) :
  lines_with "network " (domain_lines v) = [].
Proof. unfold domain_lines. now destruct (truthy _). Qed.

(** X4.  In the DHCP pool of a record with [dhcp_network] and [dhcp_mask]
    set, the only [network] line is [network <net> <mask>], whatever
    [dhcp_network_prefix] is. *)
Theorem dhcp_mask_preferred (v : vlanrec) (n net mask : value) :
  v !! "dhcp_pool_name" = Some n → truthy (Some n) = true →
  v !! "dhcp_network" = Some net → truthy (Some net) = true →
  v !! "dhcp_mask" = Some mask → truthy (Some mask) = true →
  lines_with "network " (cmds (dhcp_pool_block v).2)
  = ["network " +:+ py_str net +:+ " " +:+ py_str mask].
Proof.
  intros Hn Hnt Hnet Hnett Hmask Hmaskt.
  rewrite (dhcp_pool_block_out v n Hn Hnt). cbn [snd cmds].
  change (lines_with "network " (?a :: ?l)) with (lines_with "network " l).
  rewrite !lines_with_app, dns_lines_no_network, domain_lines_no_network.
  unfold gw_lines. rewrite lines_with_map_other by reflexivity.
  unfold network_lines. rewrite Hnet, Hnett, Hmask, Hmaskt. cbn [from_option app].
  rewrite lines_with_same. reflexivity.
Qed.

Lemma dhcp_mask_preferred_witness :
  lines_with "network " (cmds (dhcp_pool_block pool_record).2)
  = ["network 10.0.0.0 255.255.255.0"].
Proof.
  apply (dhcp_mask_preferred pool_record (VStr "users") (VStr "10.0.0.0")
           (VStr "255.255.255.0")); vm_compute; reflexivity.
Defined.

Lemma dns_lines_other (p : string) (v : vlanrec) :
  (∀ x, Py.startswith p ("dns-server " +:+ x) = false) →
  lines_with p (dns_lines v) = [].
Proof.
  intros H. unfold dns_lines, lines_with.
  destruct (truthy (v !! "dns_servers")); [|reflexivity].
  cbn [List.filter]. now rewrite H.
Qed.

Lemma domain_lines_other (p : string) (v : vlanrec) :
  (∀ x, Py.startswith p ("domain-name " +:+ x) = false) →
  lines_with p (domain_lines v) = [].
Proof.
  intros H. unfold domain_lines, lines_with.
  destruct (truthy (v !! "domain_name")); [|reflexivity].
  cbn [List.filter]. now rewrite H.
Qed.

Lemma network_lines_other (p : string) (v : vlanrec) :
  (∀ x, Py.startswith p ("network " +:+ x) = false) →
  lines_with p (network_lines v) = [].
Proof.
  intros H. unfold network_lines, lines_with.
  destruct (truthy (v !! "dhcp_network")); [|reflexivity].
  destruct (truthy (v !! "dhcp_mask")); [cbn [List.filter]; now rewrite H|].
  destruct (truthy (v !! "dhcp_network_prefix")); [|reflexivity].
  cbn [List.filter]. now rewrite H.
Qed.

(** ** Appended columns: DNS servers and default routers *)

Lemma ingest_column_dns (lc lv : nat) (s : ingest) (k v : string) :
  Py.startswith "dns_server_" (normalise k) = true →
  ingest_column lc lv s (k, v)
  = mkIngest (cli_data s) (heap s) (_mac s) (_exclude_start s)
      (<["dns_servers" := appended "dns_servers" v (vlan_data s)]> (vlan_data s))
      (printed s).
Proof.
  intros H. destruct (prefix_app _ _ H) as [r Hr].
  unfold ingest_column. cbn [fst snd]. rewrite H, Hr. reflexivity.
Qed.

Lemma ingest_column_gw (lc lv : nat) (s : ingest) (k v : string) :
  Py.startswith "dhcp_default_router" (normalise k) = true →
  ingest_column lc lv s (k, v)
  = mkIngest (cli_data s) (heap s) (_mac s) (_exclude_start s)
      (<["dhcp_def_gws" := appended "dhcp_def_gws" v (vlan_data s)]> (vlan_data s))
      (printed s).
Proof.
  intros H. destruct (prefix_app _ _ H) as [r Hr].
  unfold ingest_column. cbn [fst snd]. rewrite H, Hr. reflexivity.
Qed.

Lemma appended_list (key v : string) (d : vlanrec) :
  appended key v d = VList (from_option iter_value [] (d !! key) ++ [v]).
Proof. unfold appended. now destruct (d !! key). Qed.

(** Columns that all append to the list under [key]. *)
Lemma columns_append (lc lv : nat) (key : string) (cols : list (string * string))
    (kv : string * string) (s : ingest) :
  (∀ s0 kv0, kv0 ∈ kv :: cols →
     ingest_column lc lv s0 kv0
     = mkIngest (cli_data s0) (heap s0) (_mac s0) (_exclude_start s0)
         (<[key := appended key kv0.2 (vlan_data s0)]> (vlan_data s0)) (printed s0)) →
  foldl (ingest_column lc lv) s (kv :: cols)
  = mkIngest (cli_data s) (heap s) (_mac s) (_exclude_start s)
      (<[key := VList (from_option iter_value [] (vlan_data s !! key)
                       ++ map snd (kv :: cols))]> (vlan_data s))
      (printed s).
Proof.
  revert kv s. induction cols as [|kv' cols IH]; intros kv s H.
  - cbn [foldl map]. rewrite H by apply list_elem_of_here.
    now rewrite appended_list.
  - change (foldl (ingest_column lc lv) s (kv :: kv' :: cols))
      with (foldl (ingest_column lc lv) (ingest_column lc lv s kv) (kv' :: cols)).
    rewrite IH by (intros s0 kv0 Hin; apply H; now right).
    rewrite H by apply list_elem_of_here. cbn [cli_data heap _mac _exclude_start
                                                vlan_data printed].
    rewrite lookup_insert_eq, insert_insert_eq, appended_list.
    cbn [from_option iter_value map]. now rewrite <- app_assoc.
Qed.

Lemma truthy_app_cons (a : list string) (x : string) (b : list string) :
  truthy (Some (VList (a ++ x :: b))) = true.
Proof. now destruct a. Qed.

(** X5.  Consecutive [dns_server_*] columns append their cells, empty
    ones included, to [dns_servers] in column order; and when the record
    has a DHCP pool, its only [dns-server] line is the list joined with
    spaces. *)
Theorem dns_servers_round_trip (lc lv : nat) (s : ingest) (kv : string * string)
    (cols : list (string * string)) :
  Forall (λ kv : string * string,
            Py.startswith "dns_server_" (normalise kv.1) = true) (kv :: cols) →
  let s' := foldl (ingest_column lc lv) s (kv :: cols) in
  let servers := from_option iter_value [] (vlan_data s !! "dns_servers")
                 ++ map snd (kv :: cols) in
  vlan_data s' = <["dns_servers" := VList servers]> (vlan_data s)
  ∧ (truthy (vlan_data s !! "dhcp_pool_name") = true →
     lines_with "dns-server " (cmds (dhcp_pool_block (vlan_data s')).2)
     = ["dns-server " +:+ Py.join " " servers]).
Proof.
  intros Hall s' servers.
  assert (Hs' : s' = mkIngest (cli_data s) (heap s) (_mac s) (_exclude_start s)
                       (<["dns_servers" := VList servers]> (vlan_data s)) (printed s)).
  { apply columns_append. intros s0 [k0 v0] Hin.
    apply ingest_column_dns.
    exact (proj1 (Forall_forall _ _) Hall (k0, v0) Hin). }
  rewrite Hs'. cbn [vlan_data]. split; [reflexivity|].
  intros Hpool. destruct (truthy_Some _ Hpool) as [n Hn].
  set (v' := <["dns_servers" := VList servers]> (vlan_data s)).
  assert (Hn' : v' !! "dhcp_pool_name" = Some n)
    by (unfold v'; now rewrite lookup_insert_ne).
  rewrite Hn in Hpool.
  rewrite (dhcp_pool_block_out v' n Hn' Hpool). cbn [snd cmds].
  change (lines_with "dns-server " (?a :: ?l)) with (lines_with "dns-server " l).
  rewrite !lines_with_app.
  unfold gw_lines. rewrite lines_with_map_other by reflexivity.
  assert (Hdns : dns_lines v' = ["dns-server " +:+ Py.join " " servers]).
  { unfold dns_lines, v'. rewrite lookup_insert_eq. unfold servers. cbn [map].
    now rewrite truthy_app_cons. }
  rewrite Hdns, lines_with_same.
  rewrite domain_lines_other, network_lines_other by reflexivity.
  reflexivity.
Qed.

Lemma dns_servers_round_trip_witness :
  lines_with "dns-server "
    (cmds (dhcp_pool_block
             (vlan_data (foldl (ingest_column 0 0) open_pool
                           [("DNS Server 1", "8.8.8.8"); ("DNS Server 2", "1.1.1.1")]))).2)
  = ["dns-server 8.8.8.8 1.1.1.1"].
Proof.
  refine (proj2 (dns_servers_round_trip 0 0 open_pool ("DNS Server 1", "8.8.8.8")
                   [("DNS Server 2", "1.1.1.1")] _) _).
  - repeat constructor.
  - vm_compute. reflexivity.
Defined.

(** X6.  Consecutive [dhcp_default_router*] columns append their cells
    to [dhcp_def_gws] in column order; and when the record has a DHCP
    pool, its [default-router] lines are one per cell, in that order. *)
Theorem default_routers_round_trip (lc lv : nat) (s : ingest)
    (kv : string * string) (cols : list (string * string)) :
  Forall (λ kv : string * string,
            Py.startswith "dhcp_default_router" (normalise kv.1) = true)
         (kv :: cols) →
  let s' := foldl (ingest_column lc lv) s (kv :: cols) in
  let gws := from_option iter_value [] (vlan_data s !! "dhcp_def_gws")
             ++ map snd (kv :: cols) in
  vlan_data s' = <["dhcp_def_gws" := VList gws]> (vlan_data s)
  ∧ (truthy (vlan_data s !! "dhcp_pool_name") = true →
     lines_with "default-router " (cmds (dhcp_pool_block (vlan_data s')).2)
     = map (λ gw, "default-router " +:+ gw) gws).
Proof.
  intros Hall s' gws.
  assert (Hs' : s' = mkIngest (cli_data s) (heap s) (_mac s) (_exclude_start s)
                       (<["dhcp_def_gws" := VList gws]> (vlan_data s)) (printed s)).
  { apply columns_append. intros s0 [k0 v0] Hin.
    apply ingest_column_gw.
    exact (proj1 (Forall_forall _ _) Hall (k0, v0) Hin). }
  rewrite Hs'. cbn [vlan_data]. split; [reflexivity|].
  intros Hpool. destruct (truthy_Some _ Hpool) as [n Hn].
  set (v' := <["dhcp_def_gws" := VList gws]> (vlan_data s)).
  assert (Hn' : v' !! "dhcp_pool_name" = Some n)
    by (unfold v'; now rewrite lookup_insert_ne).
  rewrite Hn in Hpool.
  rewrite (dhcp_pool_block_out v' n Hn' Hpool). cbn [snd cmds].
  change (lines_with "default-router " (?a :: ?l))
    with (lines_with "default-router " l).
  rewrite !lines_with_app.
  assert (Hgw : gw_lines v' = map (λ gw, "default-router " +:+ gw) gws).
  { unfold gw_lines, v'. now rewrite lookup_insert_eq. }
  rewrite Hgw, lines_with_map_same.
  rewrite dns_lines_other, domain_lines_other, network_lines_other by reflexivity.
  now rewrite app_nil_r.
Qed.

Lemma default_routers_round_trip_witness :
  lines_with "default-router "
    (cmds (dhcp_pool_block
             (vlan_data (foldl (ingest_column 0 0) open_pool
                           [("DHCP Default Router 1", "10.0.0.1");
                            ("DHCP Default Router 2", "10.0.0.2")]))).2)
  = ["default-router 10.0.0.1"; "default-router 10.0.0.2"].
Proof.
  refine (proj2 (default_routers_round_trip 0 0 open_pool
                   ("DHCP Default Router 1", "10.0.0.1")
                   [("DHCP Default Router 2", "10.0.0.2")] _) _).
  - repeat constructor.
  - vm_compute. reflexivity.
Defined.

(** ** The commands of a device *)

Lemma for_each_app {A : Type} (pre rest : list A) (body : A → E unit) :
  (∀ x, x ∈ pre → ok (body x)) →
  for_each (pre ++ rest) body
  = ((for_each rest body).1,
     out_app (for_each pre body).2 (for_each rest body).2).
Proof.
  induction pre as [|x pre IH]; intros H.
  - cbn [app for_each]. cbn. rewrite out_app_nil_l. now destruct (for_each rest body).
  - cbn [app for_each].
    rewrite !(seq_ok (body x)) by (apply H; left).
    rewrite IH by (intros y Hy; apply H; now right).
    cbn [fst snd]. now rewrite out_app_assoc.
Qed.

Lemma for_each_build_vlan_cmds (vl : list vlanrec) :
  Forall (λ v, emittable v = true) vl →
  ok (for_each vl build_vlan)
  ∧ cmds (for_each vl build_vlan).2 = concat (map (λ v, cmds (build_vlan v).2) vl).
Proof.
  induction vl as [|v vl IH]; intros Hem.
  - split; [apply ok_ret | reflexivity].
  - apply Forall_cons in Hem as [Hv Hem]. destruct (IH Hem) as [Hok Hc].
    assert (Hokv : ok (build_vlan v))
      by (exists tt; now rewrite (build_vlan_blocks v Hv)).
    cbn [for_each map concat]. rewrite (seq_ok _ _ Hokv). cbn [fst snd out_app cmds].
    split; [exact Hok | now rewrite Hc].
Qed.

(** The part of [build_dev_cmds] before the VLAN loop. *)
Lemma build_dev_cmds_split (name : string) (com : common) (vl : list vlanrec) :
  build_dev_cmds name com vl
  = ((for_each vl build_vlan).1,
     out_app (mkOut (hostname_lines com) [("Building cmds for " +:+ name) +:+ Py.nl] [])
             (for_each vl build_vlan).2).
Proof.
  unfold build_dev_cmds, hostname_lines.
  rewrite (seq_ok (print _)) by apply ok_print.
  destruct (com !! "hostname") as [h|] eqn:Hh; cbn [fmap option_fmap option_map truthy].
  - destruct (negb (String.eqb h "")); cbn [when].
    + rewrite (getitem_bind com "hostname" h) by exact Hh.
      rewrite (seq_ok (add_cmds _)) by apply ok_add_cmds. reflexivity.
    + rewrite (seq_ok (mret tt)) by apply ok_ret. cbn [fst snd].
      now rewrite out_app_nil_l.
  - cbn [when]. rewrite (seq_ok (mret tt)) by apply ok_ret. cbn [fst snd].
    now rewrite out_app_nil_l.
Qed.

(** X7.  When the emitter accepts every record of a device, the commands
    of the device are [hostname <name>] and a separator when [hostname]
    is a non-empty string, then the commands of each record of its VLAN
    list, in list order, each as the record gives them on its own. *)
Theorem device_commands (name : string) (com : common) (vl : list vlanrec) :
  Forall (λ v, emittable v = true) vl →
  (build_dev_cmds name com vl).1 = Ok tt
  ∧ cmds (build_dev_cmds name com vl).2
    = hostname_lines com ++ concat (map (λ v, cmds (build_vlan v).2) vl).
Proof.
  intros Hem. destruct (for_each_build_vlan_cmds vl Hem) as [Hok Hc].
  rewrite build_dev_cmds_split. cbn [fst snd out_app cmds].
  split; [now apply ok_tt | now rewrite Hc].
Qed.

Lemma device_commands_witness :
  (build_dev_cmds "gw1" {[ "group" := "Branch1"; "hostname" := "gw1" ]} vrrp_vlans).1
  = Ok tt
  ∧ cmds (build_dev_cmds "gw1" {[ "group" := "Branch1"; "hostname" := "gw1" ]}
                         vrrp_vlans).2
    = hostname_lines {[ "group" := "Branch1"; "hostname" := "gw1" ]}
      ++ concat (map (λ v, cmds (build_vlan v).2) vrrp_vlans).
Proof.
  apply (device_commands "gw1" {[ "group" := "Branch1"; "hostname" := "gw1" ]}
           vrrp_vlans).
  repeat constructor.
Defined.

(** X8.  When the emitter accepts the records before [v] and not [v], the
    VLAN loop stops at [v] with its exception: the commands are those of
    the hostname and of the records before [v], then what [v] emitted
    before it raised; the records after [v] give nothing. *)
Theorem device_commands_abort (name : string) (com : common)
    (pre post : list vlanrec) (v : vlanrec) :
  Forall (λ v, emittable v = true) pre →
  emittable v = false →
  (∃ e, (build_dev_cmds name com (pre ++ v :: post)).1 = Raise e)
  ∧ (build_dev_cmds name com (pre ++ v :: post)).1 = (build_vlan v).1
  ∧ cmds (build_dev_cmds name com (pre ++ v :: post)).2
    = hostname_lines com ++ concat (map (λ v, cmds (build_vlan v).2) pre)
      ++ cmds (build_vlan v).2.
Proof.
  intros Hpre Hv. destruct (build_vlan_raises v Hv) as [e He].
  destruct (for_each_build_vlan_cmds pre Hpre) as [_ Hc].
  assert (Hloop : for_each (pre ++ v :: post) build_vlan
                  = (Raise e, out_app (for_each pre build_vlan).2 (build_vlan v).2)).
  { rewrite for_each_app.
    - cbn [for_each]. now rewrite (bind_raise _ _ e He).
    - intros x Hx. exists tt.
      rewrite (build_vlan_blocks x (proj1 (Forall_forall _ _) Hpre x Hx)).
      reflexivity. }
  rewrite build_dev_cmds_split, Hloop. cbn [fst snd out_app cmds].
  rewrite Hc, He. repeat split; eauto.
Qed.

Lemma device_commands_abort_witness :
  (∃ e, (build_dev_cmds "gw1" ∅ ([access_record "1/1/3"] ++ ∅ :: vrrp_vlans)).1
        = Raise e)
  ∧ (build_dev_cmds "gw1" ∅ ([access_record "1/1/3"] ++ ∅ :: vrrp_vlans)).1
    = (build_vlan ∅).1
  ∧ cmds (build_dev_cmds "gw1" ∅ ([access_record "1/1/3"] ++ ∅ :: vrrp_vlans)).2
    = hostname_lines ∅
      ++ concat (map (λ v, cmds (build_vlan v).2) [access_record "1/1/3"])
      ++ cmds (build_vlan ∅).2.
Proof.
  apply (device_commands_abort "gw1" ∅ [access_record "1/1/3"] vrrp_vlans ∅).
  - repeat constructor.
  - vm_compute. reflexivity.
Defined.

(** ** The device loop and the session *)

Lemma app_empty_r (s : string) : s +:+ "" = s.
Proof.
  induction s as [|c s IH]; [reflexivity|].
  change (String c (s +:+ "") = String c s). now rewrite IH.
Qed.

Section DeviceLoop.

Context {W : Type} (S : session W).

Lemma attach_attach {B : Type} (o o' : output) (r : E B * W) :
  attach o (attach o' r) = attach (out_app o o') r.
Proof. destruct r as [[x o''] w]. cbn. now rewrite out_app_assoc. Qed.

Lemma attach_nil {B : Type} (r : E B * W) : attach no_output r = r.
Proof. destruct r as [[x o] w]. cbn. now rewrite out_app_nil_l. Qed.

(** X9.  The devices are processed one after the other: when the devices
    of [pre] are processed without exception, the run on [pre ++ post] is
    the run on [post] from the state of the session that [pre] leaves,
    with the output of [pre] in front. *)
Theorem build_cmds_concat (h : store) (pre post : list (string * entry))
    (o : output) (w w' : W) :
  build_cmds S h pre w = ((Ok tt, o), w') →
  build_cmds S h (pre ++ post) w = attach o (build_cmds S h post w').
Proof.
  revert w o. induction pre as [|d pre IH]; intros w o Hpre.
  - cbn in Hpre. injection Hpre as <- <-. cbn [app]. now rewrite attach_nil.
  - cbn [app]. rewrite build_cmds_cons in *.
    destruct (build_dev S h d.1 d.2 w) as [[r1 o1] w1].
    destruct r1 as [[]|x1]; [|discriminate Hpre].
    destruct (build_cmds S h pre w1) as [[r2 o2] w2] eqn:Hrest.
    cbn [attach] in Hpre. injection Hpre as -> <- ->.
    now rewrite (IH w1 o2 Hrest), attach_attach.
Qed.

(** The body of the device loop, up to the call of the inventory. *)
Lemma build_dev_start (h : store) (dev : string) (e : entry) (com : common)
    (vl : list vlanrec) (group : string) (w : W) :
  common_of h e = Some com →
  vlans_of h e = Some vl →
  com !! "group" = Some group →
  let name := default dev (com !! "hostname") in
  build_dev S h dev e w
  = attach (mkOut [] ["Verifying " +:+ name +:+ " is in Group " +:+ group +:+ "..."] [])
      ((reconcile S dev name com;; lift (build_dev_cmds name com vl)) w).
Proof.
  intros Hcom Hvl Hg name. unfold build_dev. rewrite Hcom, Hvl. cbn [from_option].
  rewrite (M_bind_ok _ _ w w com no_output) by reflexivity.
  rewrite (M_bind_ok _ _ w w vl no_output) by reflexivity.
  rewrite (M_bind_ok _ _ w w group no_output)
    by (unfold lift, getitem; now rewrite Hg).
  rewrite (M_bind_ok _ _ w w tt
             (mkOut [] ["Verifying " +:+ name +:+ " is in Group " +:+ group +:+ "..."] []))
    by (unfold lift, print_end; now rewrite app_empty_r).
  now rewrite !attach_nil.
Qed.

End DeviceLoop.

Lemma build_cmds_concat_witness :
  let h := heap (get_bulkedit_data rows_two_devices) in
  build_cmds no_inventory h ([("aa:bb", DevEntry 0 0)] ++ [("cc:dd", DevEntry 0 0)]) tt
  = attach (build_cmds no_inventory h [("aa:bb", DevEntry 0 0)] tt).1.2
           (build_cmds no_inventory h [("cc:dd", DevEntry 0 0)] tt).
Proof.
  apply (build_cmds_concat no_inventory
           (heap (get_bulkedit_data rows_two_devices))
           [("aa:bb", DevEntry 0 0)] [("cc:dd", DevEntry 0 0)]).
  vm_compute. reflexivity.
Defined.

Ltac in_calls :=
  repeat first [apply list_elem_of_here | apply list_elem_of_further].

Ltac not_in_calls H :=
  repeat (apply elem_of_cons in H as [H|H]; [try discriminate H|]);
  try (now apply elem_of_nil in H).

Section SessionFacts.

Context {W : Type} (S : session W).

(** X10.  An exception that the session raises for the inventory is not
    caught: the body of the device loop ends with it after the
    [Verifying] print, with no command; and when the devices before were
    processed without exception, the run ends there. *)
Theorem inventory_error_aborts (h : store) (pre post : list (string * entry))
    (dev : string) (e : entry) (com : common) (vl : list vlanrec)
    (group : string) (x : exn) (o : output) (w w' w1 : W) :
  common_of h e = Some com →
  vlans_of h e = Some vl →
  com !! "group" = Some group →
  build_cmds S h pre w = ((Ok tt, o), w') →
  get_dev_by_type S "gateway" w' = (Raise x, w1) →
  let said := mkOut [] ["Verifying " +:+ default dev (com !! "hostname")
                        +:+ " is in Group " +:+ group +:+ "..."]
                    [GetDevByType "gateway"] in
  build_dev S h dev e w' = ((Raise x, said), w1)
  ∧ build_cmds S h (pre ++ (dev, e) :: post) w = ((Raise x, out_app o said), w1).
Proof.
  intros Hcom Hvl Hg Hpre Hinv said.
  assert (Hdev : build_dev S h dev e w' = ((Raise x, said), w1)).
  { rewrite (build_dev_start S h dev e com vl group w' Hcom Hvl Hg).
    assert (Hr : reconcile S dev (default dev (com !! "hostname")) com w'
                 = ((Raise x, mkOut [] [] [GetDevByType "gateway"]), w1)).
    { unfold reconcile.
      now rewrite (M_bind_raise _ _ w' w1 x (mkOut [] [] [GetDevByType "gateway"]))
        by (unfold session_call; now rewrite Hinv). }
    now rewrite (M_bind_raise _ _ w' w1 x (mkOut [] [] [GetDevByType "gateway"]) Hr). }
  split; [exact Hdev|].
  exact (build_cmds_abort S h pre post dev e x o said w w' w1 Hpre Hdev).
Qed.

(** X11.  For a device found in the inventory, when the calls of the
    session return: the group is fetched by the serial number of the
    first matching entry, and the move of that serial number to the
    desired group is requested if and only if the fetched group differs
    from the desired one. *)
Theorem move_requested_iff_group_differs (dev _pretty_name : string) (com : common)
    (gateways : list (gmap string string)) (dev_info : gmap string string)
    (rest : list (gmap string string)) (group serial current : string)
    (res : bool) (w w1 w2 w3 : W) :
  get_dev_by_type S "gateway" w = (Ok gateways, w1) →
  List.filter (λ _dev : gmap string string,
                 String.eqb (Py.lower (default "" (_dev !! "macaddr"))) (Py.lower dev))
              gateways = dev_info :: rest →
  com !! "group" = Some group →
  dev_info !! "serial" = Some serial →
  get_group_for_dev_by_serial S serial w1 = (Ok current, w2) →
  move_dev_to_group S group serial w2 = (Ok res, w3) →
  let called := calls (reconcile S dev _pretty_name com w).1.2 in
  GetGroupForDevBySerial serial ∈ called
  ∧ (MoveDevToGroup group serial ∈ called ↔ group ≠ current)
  ∧ (∀ g s, MoveDevToGroup g s ∈ called → g = group ∧ s = serial).
Proof.
  intros Hinv Hmatch Hg Hserial Hcur Hmove called. subst called.
  rewrite (reconcile_matched S dev _pretty_name com gateways dev_info rest group
             serial current res w w1 w2 w3 Hinv Hmatch Hg Hserial Hcur Hmove).
  cbn zeta.
  destruct (String.eqb_spec group current) as [Heq|Hne];
    [|destruct res; [|destruct (com !! "hostname")]];
    cbn [fst snd calls app];
    (split; [in_calls | split; [split|]]).
  all: lazymatch goal with
       | |- _ ∈ _ → _ ≠ _ => intros H; first [exact Hne | not_in_calls H]
       | |- _ ≠ _ → _ => intros H; first [contradiction | in_calls]
       | |- _ =>
           intros g0 s0 H; not_in_calls H; injection H as -> ->; now split
       end.
Qed.

(** X12.  A device that the inventory does not list is processed
    silently: the inventory is the only call of the session, nothing is
    printed about the group, and the commands of the device are emitted. *)
Theorem unmatched_device_is_emitted (h : store) (dev : string) (e : entry)
    (com : common) (vl : list vlanrec) (group : string)
    (gateways : list (gmap string string)) (w w1 : W) :
  common_of h e = Some com →
  vlans_of h e = Some vl →
  com !! "group" = Some group →
  get_dev_by_type S "gateway" w = (Ok gateways, w1) →
  List.filter (λ _dev : gmap string string,
                 String.eqb (Py.lower (default "" (_dev !! "macaddr"))) (Py.lower dev))
              gateways = [] →
  let name := default dev (com !! "hostname") in
  build_dev S h dev e w
  = ((build_dev_cmds name com vl).1,
     out_app (mkOut [] ["Verifying " +:+ name +:+ " is in Group " +:+ group +:+ "..."]
                    [GetDevByType "gateway"])
             (build_dev_cmds name com vl).2,
     w1).
Proof.
  intros Hcom Hvl Hg Hinv Hmatch name.
  rewrite (build_dev_start S h dev e com vl group w Hcom Hvl Hg). fold name.
  rewrite (M_bind_ok _ _ w w1 tt (mkOut [] [] [GetDevByType "gateway"])
             (reconcile_unmatched S dev name com gateways w w1 Hinv Hmatch)).
  unfold lift. destruct (build_dev_cmds name com vl) as [r o]. reflexivity.
Qed.

End SessionFacts.

Lemma inventory_error_aborts_witness :
  let h := mkStore [common_gw1] [vrrp_vlans] in
  let said := mkOut [] ["Verifying " +:+ default "aa:bb" (common_gw1 !! "hostname")
                        +:+ " is in Group " +:+ "Branch1" +:+ "..."]
                    [GetDevByType "gateway"] in
  build_dev failing_session h "aa:bb" (DevEntry 0 0) tt
  = ((Raise (TransportError "timed out"), said), tt)
  ∧ build_cmds failing_session h ([] ++ [("aa:bb", DevEntry 0 0)]) tt
    = ((Raise (TransportError "timed out"), out_app no_output said), tt).
Proof.
  apply (inventory_error_aborts failing_session (mkStore [common_gw1] [vrrp_vlans])
           [] [] "aa:bb" (DevEntry 0 0) common_gw1 vrrp_vlans "Branch1"
           (TransportError "timed out") no_output tt tt tt);
    vm_compute; reflexivity.
Defined.

Lemma move_requested_iff_group_differs_witness :
  let called := calls (reconcile (fixed_session inventory_aabb "Other" true)
                         "aa:bb" "gw1" common_gw1 tt).1.2 in
  GetGroupForDevBySerial "S1" ∈ called
  ∧ (MoveDevToGroup "Branch1" "S1" ∈ called ↔ "Branch1" ≠ "Other")
  ∧ (∀ g s, MoveDevToGroup g s ∈ called → g = "Branch1" ∧ s = "S1").
Proof.
  apply (move_requested_iff_group_differs (fixed_session inventory_aabb "Other" true)
           "aa:bb" "gw1" common_gw1 inventory_aabb
           {[ "macaddr" := "AA:BB"; "serial" := "S1" ]} [] "Branch1" "S1" "Other"
           true tt tt tt tt);
    vm_compute; reflexivity.
Defined.

Lemma unmatched_device_is_emitted_witness :
  let h := mkStore [common_gw1] [vrrp_vlans] in
  let name := default "aa:bb" (common_gw1 !! "hostname") in
  build_dev no_inventory h "aa:bb" (DevEntry 0 0) tt
  = ((build_dev_cmds name common_gw1 vrrp_vlans).1,
     out_app (mkOut [] ["Verifying " +:+ name +:+ " is in Group " +:+ "Branch1" +:+ "..."]
                    [GetDevByType "gateway"])
             (build_dev_cmds name common_gw1 vrrp_vlans).2,
     tt).
Proof.
  apply (unmatched_device_is_emitted no_inventory (mkStore [common_gw1] [vrrp_vlans])
           "aa:bb" (DevEntry 0 0) common_gw1 vrrp_vlans "Branch1" [] tt tt);
    vm_compute; reflexivity.
Defined.

(** ** Comment lines *)

(** X13.  A line that starts with [#] contributes nothing, wherever it
    stands in the file: ingestion of the file is that of the file
    without the line. *)
Theorem comment_line_ignored (reader : list string → list (list string))
    (before after : list string) (line : string) :
  Py.startswith "#" line = true →
  get_bulkedit_data_lines reader (before ++ line :: after)
  = get_bulkedit_data_lines reader (before ++ after).
Proof.
  intros H. unfold get_bulkedit_data_lines, uncommented.
  rewrite !List.filter_app. cbn [List.filter]. now rewrite H.
Qed.

Lemma comment_line_ignored_witness :
  get_bulkedit_data_lines (map (λ l, [l]))
    (["MAC Address"] ++ "# gateways of the lab" :: ["aa:bb"])
  = get_bulkedit_data_lines (map (λ l, [l])) (["MAC Address"] ++ ["aa:bb"]).
Proof.
  apply (comment_line_ignored (map (λ l, [l])) ["MAC Address"] ["aa:bb"]
           "# gateways of the lab").
  vm_compute. reflexivity.
Defined.

(** ** All devices of a file *)

Lemma get_bulkedit_data_all_devices (csv_rows : list (list string)) :
  mac_columns (hd [] csv_rows) ≤ 1 →
  all_devices 0 0 (get_bulkedit_data csv_rows).
Proof.
  intros Hmac. unfold get_bulkedit_data. cbn.
  destruct csv_rows as [|header rows]; [intros d x [=]|].
  apply rows_all_devices; [exact Hmac | intros d x [=]].
Qed.

(** X14.  When the header names [mac_address] at most once, any two
    devices of the file have the same common attributes and the same
    VLAN list, and the emitter gives the same commands for both. *)
Theorem devices_emit_same_commands (csv_rows : list (list string))
    (dev1 dev2 : string) (e1 e2 : entry) (com1 com2 : common)
    (vl1 vl2 : list vlanrec) :
  mac_columns (hd [] csv_rows) ≤ 1 →
  dict_get dev1 (cli_data (get_bulkedit_data csv_rows)) = Some e1 →
  dict_get dev2 (cli_data (get_bulkedit_data csv_rows)) = Some e2 →
  common_of (heap (get_bulkedit_data csv_rows)) e1 = Some com1 →
  vlans_of (heap (get_bulkedit_data csv_rows)) e1 = Some vl1 →
  common_of (heap (get_bulkedit_data csv_rows)) e2 = Some com2 →
  vlans_of (heap (get_bulkedit_data csv_rows)) e2 = Some vl2 →
  com1 = com2 ∧ vl1 = vl2
  ∧ cmds (build_dev_cmds (default dev1 (com1 !! "hostname")) com1 vl1).2
    = cmds (build_dev_cmds (default dev2 (com2 !! "hostname")) com2 vl2).2.
Proof.
  intros Hmac H1 H2 Hc1 Hv1 Hc2 Hv2.
  pose proof (get_bulkedit_data_all_devices csv_rows Hmac) as Hall.
  rewrite (Hall dev1 e1 H1) in Hc1, Hv1. rewrite (Hall dev2 e2 H2) in Hc2, Hv2.
  assert (com1 = com2) as <- by congruence.
  assert (vl1 = vl2) as <- by congruence.
  repeat split.
Qed.

Lemma devices_emit_same_commands_witness :
  ({[ "group" := "Branch2"; "hostname" := "gw2" ]} : common)
  = {[ "group" := "Branch2"; "hostname" := "gw2" ]}
  ∧ [ ({[ "vlan_id" := VStr "10" ]} : vlanrec); {[ "vlan_id" := VStr "20" ]} ]
    = [ {[ "vlan_id" := VStr "10" ]}; {[ "vlan_id" := VStr "20" ]} ]
  ∧ cmds (build_dev_cmds
            (default "aa:bb"
               (({[ "group" := "Branch2"; "hostname" := "gw2" ]} : common) !! "hostname"))
            {[ "group" := "Branch2"; "hostname" := "gw2" ]}
            [ {[ "vlan_id" := VStr "10" ]}; {[ "vlan_id" := VStr "20" ]} ]).2
    = cmds (build_dev_cmds
              (default "cc:dd"
                 (({[ "group" := "Branch2"; "hostname" := "gw2" ]} : common) !! "hostname"))
              {[ "group" := "Branch2"; "hostname" := "gw2" ]}
              [ {[ "vlan_id" := VStr "10" ]}; {[ "vlan_id" := VStr "20" ]} ]).2.
Proof.
  apply (devices_emit_same_commands rows_two_devices "aa:bb" "cc:dd"
           (DevEntry 0 0) (DevEntry 0 0)).
  - vm_compute. lia.
  - vm_compute. reflexivity.
  - vm_compute. reflexivity.
  - vm_compute. reflexivity.
  - vm_compute. reflexivity.
  - vm_compute. reflexivity.
  - vm_compute. reflexivity.
Defined.

(** ** The common attributes *)

Lemma common_key_not_mac (key : string) :
  Py.mem key common_keys = true → String.eqb key "mac_address" = false.
Proof.
  intros H. cbn [Py.mem common_keys existsb] in H.
  repeat (apply orb_prop in H as [H|H]; [apply String.eqb_eq in H; now subst|]).
  discriminate H.
Qed.

Lemma ingest_column_common (key : string) (s : ingest) (kv : string * string)
    (com : common) (vl : list vlanrec) :
  Py.mem key common_keys = true →
  heap s = mkStore [com] [vl] →
  ∃ com' vl',
    heap (ingest_column 0 0 s kv) = mkStore [com'] [vl']
    ∧ com' !! key = if String.eqb (normalise kv.1) key then Some kv.2 else com !! key.
Proof.
  intros Hkey Hh. unfold ingest_column.
  destruct (String.eqb_spec (normalise kv.1) key) as [Hk|Hk].
  - rewrite Hk, (common_key_not_mac key Hkey), Hkey. cbn [heap].
    unfold store_setitem. rewrite Hh. cbn.
    eexists _, _. split; [reflexivity | apply lookup_insert_eq].
  - repeat match goal with
           | |- context [if ?b then _ else _] => destruct b
           end; cbn [heap]; unfold store_setitem, store_append; rewrite ?Hh; cbn;
      eexists _, _; (split; [reflexivity|]); trivial.
    now rewrite lookup_insert_ne.
Qed.

Lemma columns_common (key : string) (cols : list (string * string)) (s : ingest)
    (com : common) (vl : list vlanrec) :
  Py.mem key common_keys = true →
  heap s = mkStore [com] [vl] →
  ∃ com' vl',
    heap (foldl (ingest_column 0 0) s cols) = mkStore [com'] [vl']
    ∧ com' !! key = match last_value key cols with
                    | Some v => Some v
                    | None => com !! key
                    end.
Proof.
  intros Hkey. revert s com vl.
  induction cols as [|kv cols IH]; intros s com vl Hh.
  - exists com, vl. now split.
  - cbn [foldl last_value].
    destruct (ingest_column_common key s kv com vl Hkey Hh) as (com1 & vl1 & Hh1 & Hc1).
    destruct (IH _ com1 vl1 Hh1) as (com2 & vl2 & Hh2 & Hc2).
    exists com2, vl2. split; [exact Hh2|]. rewrite Hc2, Hc1.
    destruct (last_value key cols); [reflexivity|].
    now destruct (String.eqb (normalise kv.1) key).
Qed.

Lemma ingest_row_common (key : string) (header data_row : list string) (s : ingest)
    (com : common) (vl : list vlanrec) :
  Py.mem key common_keys = true →
  heap s = mkStore [com] [vl] →
  ∃ com' vl',
    heap (ingest_row 0 0 header s data_row) = mkStore [com'] [vl']
    ∧ com' !! key = match last_value key (zip header data_row) with
                    | Some v => Some v
                    | None => com !! key
                    end.
Proof.
  intros Hkey Hh. unfold ingest_row.
  set (s0 := mkIngest _ _ _ _ ∅ _).
  destruct (columns_common key (zip header data_row) s0 com vl Hkey Hh)
    as (com1 & vl1 & Hh1 & Hc1).
  cbn [heap]. unfold store_append. rewrite Hh1. cbn.
  eexists _, _. split; [reflexivity | exact Hc1].
Qed.

(** X15.  A common attribute of the shared dictionary has the value of
    the last row of the file that has its column (in that row, of the
    last such column), whatever the rows before and whatever the MAC of
    that row.  Every device of the mapping reads this value: every entry
    refers to that dictionary, but for the empty dictionary that a
    [mac_address] column leaves when the header names [mac_address]
    twice or more. *)
Theorem common_last_row_wins (key v : string) (header row : list string)
    (rows : list (list string)) :
  Py.mem key common_keys = true →
  last_value key (zip header row) = Some v →
  let r := get_bulkedit_data (header :: rows ++ [row]) in
  (∃ com, shared_common r = Some com ∧ com !! key = Some v)
  ∧ ∀ dev e, dict_get dev (cli_data r) = Some e →
      (∃ com, common_of (heap r) e = Some com ∧ com !! key = Some v)
      ∨ (e = EmptyEntry ∧ 2 ≤ mac_columns header).
Proof.
  intros Hkey Hlast r.
  assert (Hcom : ∃ com, shared_common r = Some com ∧ com !! key = Some v).
  { destruct (get_bulkedit_data_two_buffers (header :: rows)) as (com0 & vl0 & Hh0 & _).
    subst r. unfold get_bulkedit_data in *. cbn in Hh0 |- *.
    rewrite foldl_app. cbn [foldl].
    destruct (ingest_row_common key header row _ com0 vl0 Hkey Hh0)
      as (com & vl & Hh & Hc).
    exists com. unfold shared_common. rewrite Hh, Hc, Hlast. now split. }
  split; [exact Hcom|].
  intros dev e He.
  destruct (get_bulkedit_data_shared_or_empty _ dev e He) as [-> | ->].
  - left. exact Hcom.
  - destruct (le_lt_dec (mac_columns header) 1) as [Hmac|Hmac]; [|right; split; [done|lia]].
    pose proof (get_bulkedit_data_all_devices (header :: rows ++ [row]) Hmac dev _ He).
    discriminate.
Qed.

Lemma common_last_row_wins_witness :
  let r := get_bulkedit_data
             (["MAC Address"; "Group"; "Hostname"; "VLAN ID"]
              :: [ ["aa:bb"; "Branch1"; "gw1"; "10"] ]
              ++ [ ["cc:dd"; "Branch2"; "gw2"; "20"] ]) in
  (∃ com, shared_common r = Some com ∧ com !! "hostname" = Some "gw2")
  ∧ ∀ dev e, dict_get dev (cli_data r) = Some e →
      (∃ com, common_of (heap r) e = Some com ∧ com !! "hostname" = Some "gw2")
      ∨ (e = EmptyEntry
         ∧ 2 ≤ mac_columns ["MAC Address"; "Group"; "Hostname"; "VLAN ID"]).
Proof.
  apply (common_last_row_wins "hostname" "gw2"
           ["MAC Address"; "Group"; "Hostname"; "VLAN ID"]
           ["cc:dd"; "Branch2"; "gw2"; "20"]
           [ ["aa:bb"; "Branch1"; "gw1"; "10"] ]);
    vm_compute; reflexivity.
Defined.

(** In the file of two devices the first device, too, reads the hostname
    of the last row. *)
Example common_last_row_sample :
  let r := get_bulkedit_data rows_two_devices in
  (e ← dict_get "aa:bb" (cli_data r); com ← common_of (heap r) e; com !! "hostname")
  = Some "gw2".
Proof. vm_compute. reflexivity. Qed.

(** ** The order of the devices *)

Lemma keys_dict_set (k : string) (e : entry) (d : list (string * entry)) :
  map fst (dict_set k e d) = add_key k (map fst d).
Proof.
  unfold add_key. induction d as [|[k' e'] d IH]; [reflexivity|].
  cbn [dict_set map fst Py.mem existsb].
  destruct (String.eqb_spec k' k) as [->|Hne].
  - now rewrite String.eqb_refl.
  - destruct (String.eqb_spec k k') as [->|_]; [contradiction|].
    cbn [map fst orb]. rewrite IH. fold (Py.mem k (map fst d)).
    now destruct (Py.mem k (map fst d)).
Qed.

Lemma mem_add_key (k : string) (ks : list string) : Py.mem k (add_key k ks) = true.
Proof.
  unfold add_key. destruct (Py.mem k ks) eqn:H; [exact H|].
  unfold Py.mem. rewrite existsb_app. cbn. now rewrite String.eqb_refl, orb_true_r.
Qed.

Lemma add_key_idem (k : string) (ks : list string) :
  add_key k (add_key k ks) = add_key k ks.
Proof. unfold add_key at 1. now rewrite mem_add_key. Qed.

Lemma columns_without_mac (lc lv : nat) (cols : list (string * string)) (s : ingest) :
  mac_pairs cols = 0 →
  cli_data (foldl (ingest_column lc lv) s cols) = cli_data s
  ∧ _mac (foldl (ingest_column lc lv) s cols) = _mac s.
Proof.
  revert s. induction cols as [|kv cols IH]; intros s Hn; [now split|].
  cbn [foldl]. unfold mac_pairs in Hn. cbn [List.filter] in Hn.
  pose proof (ingest_column_mac lc lv s kv) as Hc. cbn zeta in Hc.
  destruct (String.eqb (normalise kv.1) "mac_address"); [discriminate Hn|].
  destruct Hc as [Hc Hm]. destruct (IH (ingest_column lc lv s kv) Hn) as [-> ->].
  now split.
Qed.

Lemma ingest_row_keys (lc lv : nat) (kmac m : string) (hrest rest : list string)
    (s : ingest) :
  normalise kmac = "mac_address" →
  mac_columns hrest = 0 →
  map fst (cli_data (ingest_row lc lv (kmac :: hrest) s (m :: rest)))
  = add_key m (map fst (cli_data s)).
Proof.
  intros Hk Hn. unfold ingest_row.
  set (s0 := mkIngest _ _ _ _ ∅ _).
  change (zip (kmac :: hrest) (m :: rest)) with ((kmac, m) :: zip hrest rest).
  cbn [foldl].
  pose proof (ingest_column_mac lc lv s0 (kmac, m)) as Hc. cbn zeta in Hc.
  cbn [fst snd] in Hc. rewrite Hk in Hc. cbn in Hc. destruct Hc as [Hc Hm].
  assert (H0 : mac_pairs (zip hrest rest) = 0)
    by (pose proof (mac_pairs_zip hrest rest); lia).
  destruct (columns_without_mac lc lv (zip hrest rest)
              (ingest_column lc lv s0 (kmac, m)) H0) as [Hc' Hm'].
  cbn [cli_data]. rewrite Hc', Hm', Hc, Hm.
  now rewrite !keys_dict_set, add_key_idem.
Qed.

Lemma get_bulkedit_data_cons (header : list string) (rows : list (list string)) :
  get_bulkedit_data (header :: rows)
  = foldl (ingest_row 0 0 header) (mkIngest [] (mkStore [∅] [[]]) "error" "" ∅ []) rows.
Proof. reflexivity. Qed.

Lemma rows_keys (kmac : string) (hrest : list string) (rows : list (list string))
    (s : ingest) :
  normalise kmac = "mac_address" →
  mac_columns hrest = 0 →
  Forall (λ row : list string, row ≠ []) rows →
  map fst (cli_data (foldl (ingest_row 0 0 (kmac :: hrest)) s rows))
  = foldl (λ ks k, add_key k ks) (map fst (cli_data s)) (map (hd "") rows).
Proof.
  intros Hk Hn Hrows. revert s.
  induction Hrows as [|row rows Hrow _ IH]; intros s; [reflexivity|].
  destruct row as [|m rest]; [contradiction|].
  cbn [foldl map hd]. rewrite IH.
  now rewrite (ingest_row_keys 0 0 kmac m hrest rest s).
Qed.

(** X16.  When [mac_address] is the first column of the header and no
    other, and no data row is empty, the keys of the mapping that
    ingestion returns, which [build_cmds] iterates in order, are the
    distinct MAC addresses of the rows in the order of their first
    occurrence. *)
Theorem devices_in_first_seen_order (kmac : string) (hrest : list string)
    (rows : list (list string)) :
  normalise kmac = "mac_address" →
  mac_columns hrest = 0 →
  Forall (λ row : list string, row ≠ []) rows →
  map fst (cli_data (get_bulkedit_data ((kmac :: hrest) :: rows)))
  = first_seen (map (hd "") rows).
Proof.
  intros Hk Hn Hrows. rewrite get_bulkedit_data_cons.
  now rewrite (rows_keys kmac hrest rows _ Hk Hn Hrows).
Qed.

Lemma devices_in_first_seen_order_witness :
  map fst (cli_data (get_bulkedit_data
                       (("MAC Address" :: ["Group"; "VLAN ID"])
                        :: [ ["cc:dd"; "Branch2"; "20"];
                             ["aa:bb"; "Branch1"; "10"];
                             ["cc:dd"; "Branch2"; "30"] ])))
  = first_seen (map (hd "") [ ["cc:dd"; "Branch2"; "20"];
                              ["aa:bb"; "Branch1"; "10"];
                              ["cc:dd"; "Branch2"; "30"] ]).
Proof.
  apply (devices_in_first_seen_order "MAC Address" ["Group"; "VLAN ID"]).
  - vm_compute. reflexivity.
  - vm_compute. reflexivity.
  - repeat constructor; discriminate.
Defined.

Example first_seen_sample :
  first_seen ["cc:dd"; "aa:bb"; "cc:dd"] = ["cc:dd"; "aa:bb"].
Proof. reflexivity. Qed.

(** ** The interface block *)

Lemma when_opt_line (v : vlanrec) (k p : string) :
  when (truthy (v !! k)) (x ← getitem v k; add_cmds [p +:+ py_str x])
  = (Ok tt, mkOut (opt_line p (v !! k)) [] []).
Proof.
  rewrite when_getitem. unfold opt_line.
  destruct (v !! k) as [x|]; [|reflexivity]. now destruct (truthy (Some x)).
Qed.

(** X17.  For a record with [vlan_ip] set and the key [vlan_subnet]: the
    interface block emits [interface vlan <id>], [ip address <ip> <subnet>],
    the description, helper-address and operstate lines of the fields
    that are set, and a separator; it prints the validation error exactly
    when the subnet is empty; and the two interface lines directly follow
    the header of the VLAN among the commands of the record. *)
Theorem interface_block_lines (v : vlanrec) (id ip sn : value) :
  v !! "vlan_id" = Some id →
  v !! "vlan_ip" = Some ip → truthy (Some ip) = true →
  v !! "vlan_subnet" = Some sn →
  interface_block v
  = (Ok tt,
     mkOut ([ "interface vlan " +:+ py_str id;
              "ip address " +:+ py_str ip +:+ " " +:+ py_str sn ]
            ++ opt_line "description " (v !! "vlan_interface_description")
            ++ opt_line "ip helper-address " (v !! "vlan_helper_addr")
            ++ opt_line "operstate " (v !! "vlan_interface_operstate")
            ++ ["!"])
           (if truthy (Some sn) then [] else [subnet_error id]) [])
  ∧ ∃ rest, cmds (build_vlan v).2
            = [ "vlan " +:+ py_str id; "!"; "interface vlan " +:+ py_str id;
                "ip address " +:+ py_str ip +:+ " " +:+ py_str sn ] ++ rest.
Proof.
  intros Hid Hip Hipt Hsn.
  assert (Hb : interface_block v
               = (Ok tt,
                  mkOut ([ "interface vlan " +:+ py_str id;
                           "ip address " +:+ py_str ip +:+ " " +:+ py_str sn ]
                         ++ opt_line "description " (v !! "vlan_interface_description")
                         ++ opt_line "ip helper-address " (v !! "vlan_helper_addr")
                         ++ opt_line "operstate " (v !! "vlan_interface_operstate")
                         ++ ["!"])
                        (if truthy (Some sn) then [] else [subnet_error id]) [])).
  { unfold interface_block. rewrite Hip, Hipt, Hsn. cbn [when].
    rewrite !when_opt_line.
    rewrite !(getitem_bind v "vlan_id" id) by exact Hid.
    rewrite (getitem_bind v "vlan_ip" ip) by exact Hip.
    rewrite (getitem_bind v "vlan_subnet" sn) by exact Hsn.
    destruct (opt_line "description " (v !! "vlan_interface_description")) as [|? ?],
      (opt_line "ip helper-address " (v !! "vlan_helper_addr")) as [|? ?],
      (opt_line "operstate " (v !! "vlan_interface_operstate")) as [|? ?],
      (truthy (Some sn)); reflexivity. }
  split; [exact Hb|].
  unfold build_vlan. rewrite (seq_ok (vlan_block v)) by (apply ok_vlan_block; eauto).
  rewrite (seq_ok (interface_block v)) by (exists tt; now rewrite Hb).
  unfold vlan_block. rewrite (getitem_bind v "vlan_id" id) by exact Hid.
  rewrite Hb. cbn [fst snd out_app cmds app]. eexists. reflexivity.
Qed.

Lemma interface_block_lines_witness :
  let v : vlanrec := {[ "vlan_id" := VStr "10"; "vlan_ip" := VStr "10.0.0.1";
                        "vlan_subnet" := VStr "255.255.255.0" ]} in
  interface_block v
  = (Ok tt,
     mkOut ([ "interface vlan " +:+ py_str (VStr "10");
              "ip address " +:+ py_str (VStr "10.0.0.1") +:+ " "
              +:+ py_str (VStr "255.255.255.0") ]
            ++ opt_line "description " (v !! "vlan_interface_description")
            ++ opt_line "ip helper-address " (v !! "vlan_helper_addr")
            ++ opt_line "operstate " (v !! "vlan_interface_operstate")
            ++ ["!"])
           (if truthy (Some (VStr "255.255.255.0")) then []
            else [subnet_error (VStr "10")]) [])
  ∧ ∃ rest, cmds (build_vlan v).2
            = [ "vlan " +:+ py_str (VStr "10"); "!";
                "interface vlan " +:+ py_str (VStr "10");
                "ip address " +:+ py_str (VStr "10.0.0.1") +:+ " "
                +:+ py_str (VStr "255.255.255.0") ] ++ rest.
Proof.
  apply (interface_block_lines
           {[ "vlan_id" := VStr "10"; "vlan_ip" := VStr "10.0.0.1";
              "vlan_subnet" := VStr "255.255.255.0" ]}
           (VStr "10") (VStr "10.0.0.1") (VStr "255.255.255.0"));
    vm_compute; reflexivity.
Defined.

(** ** The pending start of an exclude range *)





Example pending_start_lands_in_next_vlan :
  vlan_data (foldl (ingest_column 0 0) open_vlan_10
               [("DHCP Exclude Start 1", "10.0.0.2"); ("VLAN ID", "20");
                ("DHCP Exclude End 1", "10.0.0.10")])
  = {[ "vlan_id" := VStr "20";
       "dhcp_excludes" := VList ["ip dhcp exclude-address 10.0.0.2 10.0.0.10"] ]}.
Proof. vm_compute. reflexivity. Qed.

(** ** The request builders of [CentralApi] *)

Lemma filters_lookup (keys : list string) (values : list (option string))
    (k v : string) :
  NoDup keys →
  Requests.filters keys values !! k = Some v
  ↔ v ≠ "" ∧ (k, Some v) ∈ zip keys values.
Proof.
  intros Hnd. unfold Requests.filters.
  assert (Hk : NoDup (map fst (zip keys values))).
  { revert values. induction Hnd as [|x keys Hx Hnd IH]; intros [|y values];
      cbn; try constructor; [|apply IH].
    intros Hin. apply Hx. apply list_elem_of_fmap in Hin as [[x' y'] [-> Hin]].
    apply elem_of_zip_l in Hin. exact Hin. }
  clear Hnd. induction (zip keys values) as [|[k' v'] kvs IH] using rev_ind.
  - cbn. rewrite lookup_empty. split; [discriminate|].
    intros [_ H]. now apply elem_of_nil in H.
  - rewrite map_app in Hk. apply NoDup_app in Hk as (Hk1 & Hk2 & _).
    rewrite foldl_app. cbn [foldl fst snd].
    assert (Hlast : ∀ x : string * option string,
              x ∈ kvs ++ [(k', v')] ↔ x ∈ kvs ∨ x = (k', v')).
    { intros x. rewrite elem_of_app, list_elem_of_singleton. reflexivity. }
    assert (Hfresh : ∀ y, (k', y) ∈ kvs → False).
    { intros y Hy. apply (Hk2 k').
      - apply list_elem_of_fmap. exists (k', y). now split.
      - cbn. apply list_elem_of_singleton. reflexivity. }
    destruct v' as [s|].
    + destruct (String.eqb_spec s "") as [->|Hs]; cbn [negb].
      * rewrite (IH Hk1), Hlast. split.
        -- intros [H1 H2]. split; [exact H1|now left].
        -- intros [H1 [H2|H2]]; [now split|]. congruence.
      * destruct (decide (k = k')) as [->|Hne].
        -- rewrite lookup_insert_eq, Hlast. split.
           ++ intros [= ->]. split; [exact Hs|now right].
           ++ intros [_ [H|[= ->]]]; [destruct (Hfresh _ H)|reflexivity].
        -- rewrite lookup_insert_ne by congruence. rewrite (IH Hk1), Hlast. split.
           ++ intros [H1 H2]. split; [exact H1|now left].
           ++ intros [H1 [H2|H2]]; [now split|]. congruence.
    + rewrite (IH Hk1), Hlast. split.
      * intros [H1 H2]. split; [exact H1|now left].
      * intros [H1 [H2|H2]]; [now split|]. congruence.
Qed.

(** X19.  [get_wlan_clients] and [get_wired_clients] send a filter exactly
    for the arguments that are given and not empty, each under its own
    name and with its value: an argument that is [None] or the empty
    string adds no parameter. *)
Theorem client_filters_sent {R : Type} (get : string → gmap string string → R)
    (group swarm_id label ssid serial os_type cluster_id band stack_id
       : option string) :
  (∃ params,
     Requests.get_wlan_clients get group swarm_id label ssid serial os_type
       cluster_id band
     = get "/monitoring/v1/clients/wireless" params
     ∧ ∀ k v, params !! k = Some v
              ↔ v ≠ "" ∧ (k, Some v) ∈ wlan_arguments group swarm_id label ssid
                                         serial os_type cluster_id band)
  ∧ (∃ params,
       Requests.get_wired_clients get group swarm_id label ssid serial
         cluster_id stack_id
       = get "/monitoring/v1/clients/wired" params
       ∧ ∀ k v, params !! k = Some v
                ↔ v ≠ "" ∧ (k, Some v) ∈ wired_arguments group swarm_id label
                                           ssid serial cluster_id stack_id).
Proof.
  split; eexists; (split; [reflexivity|]); intros k v;
    (rewrite filters_lookup; [reflexivity|]);
    apply (bool_decide_unpack _); vm_compute; reflexivity.
Qed.

Example client_filters_sample :
  Requests.get_wlan_clients (λ url params, (url, params))
    (Some "Branch1") None (Some "") None None None None (Some "5")
  = ("/monitoring/v1/clients/wireless",
     {[ "group" := "Branch1"; "band" := "5" ]}).
Proof. vm_compute. reflexivity. Qed.

Lemma lower_iap_no_alias : Py.mem (Py.lower "iap") ["aps"; "ap"] = false.
Proof. vm_compute. reflexivity. Qed.

(** X20.  [get_dev_by_type] asks for the type [iap] when the given type is
    [ap] or [aps] in any case, and for the given type as it is written
    otherwise; asking for the type that was sent sends the same
    request. *)
Theorem access_point_alias {R : Type} (get : string → gmap string string → R)
    (dev_type : string) :
  ∃ sku : string,
    Requests.get_dev_by_type get dev_type
    = get "/platform/device_inventory/v1/devices" {[ "sku_type" := sku ]}
    ∧ (sku = "iap"
       ↔ dev_type = "iap" ∨ Py.lower dev_type = "ap" ∨ Py.lower dev_type = "aps")
    ∧ (sku = "iap" ∨ sku = dev_type)
    ∧ Requests.get_dev_by_type get sku = Requests.get_dev_by_type get dev_type.
Proof.
  unfold Requests.get_dev_by_type.
  destruct (Py.mem (Py.lower dev_type) ["aps"; "ap"]) eqn:Hm.
  - exists "iap". rewrite lower_iap_no_alias. repeat split; auto.
    intros _. unfold Py.mem in Hm. cbn [existsb] in Hm.
    rewrite orb_false_r in Hm. apply orb_prop in Hm as [H|H];
      apply String.eqb_eq in H; auto.
  - exists dev_type. rewrite Hm. split; [reflexivity|]. split; [|now split; [right|]].
    split; [now left|].
    unfold Py.mem in Hm. cbn [existsb] in Hm. rewrite orb_false_r in Hm.
    apply orb_false_elim in Hm as [H1 H2].
    apply String.eqb_neq in H1, H2. intros [H|[H|H]]; congruence.
Qed.

Example access_point_alias_sample :
  Requests.get_dev_by_type (λ _ params, params) "APs" = {[ "sku_type" := "iap" ]}
  ∧ Requests.get_dev_by_type (λ _ params, params) "Gateway"
    = {[ "sku_type" := "Gateway" ]}.
Proof. split; vm_compute; reflexivity. Qed.

Lemma contains_app (sub p r : string) : Py.contains sub (p +:+ sub +:+ r) = true.
Proof.
  induction p as [|a p IH].
  - change ("" +:+ sub +:+ r) with (sub +:+ r).
    assert (H : ∀ s, Py.contains sub s = true ∨ Py.startswith sub s = false).
    { intros [|c s]; cbn [Py.contains]; destruct (Py.startswith sub _); auto. }
    destruct (H (sub +:+ r)) as [H'|H']; [exact H'|].
    now rewrite startswith_app in H'.
  - change (String a p +:+ sub +:+ r) with (String a (p +:+ sub +:+ r)).
    cbn [Py.contains]. rewrite IH. apply orb_true_r.
Qed.

Lemma length_app (s t : string) :
  String.length (s +:+ t) = String.length s + String.length t.
Proof.
  induction s as [|a s IH]; [reflexivity|].
  change (String a s +:+ t) with (String a (s +:+ t)). cbn [String.length].
  now rewrite IH.
Qed.

(** X21.  [caasapi] addresses a MAC address in colon notation (six octets
    of two characters) as [node_name], and a name without a colon as
    [group_name]; [cid] is the customer of the configuration (or [None]),
    and the commands sent are those given, none for [None]. *)
Theorem caasapi_target {R : Type}
    (post : string → gmap string (option string) → gmap string string
            → list string → R)
    (vars : gmap string string) (access_token base_url : string)
    (cli_cmds : option (list string)) :
  vars !! "base_url" = Some base_url →
  (∀ octets : list string,
     length octets = 6 → Forall (λ o, String.length o = 2) octets →
     Requests.caasapi post vars access_token (colon_mac octets) cli_cmds
     = Ok (post (base_url +:+ "/caasapi/v1/exec/cmd")
             (<["node_name" := Some (colon_mac octets)]>
                {[ "cid" := vars !! "customer_id" ]})
             (json_headers access_token) (default [] cli_cmds)))
  ∧ (∀ name : string,
       Py.contains ":" name = false →
       Requests.caasapi post vars access_token name cli_cmds
       = Ok (post (base_url +:+ "/caasapi/v1/exec/cmd")
               (<["group_name" := Some name]> {[ "cid" := vars !! "customer_id" ]})
               (json_headers access_token) (default [] cli_cmds))).
Proof.
  intros Hb.
  assert (Hc : match cli_cmds with Some (c :: l) => c :: l | _ => [] end
               = default [] cli_cmds) by now destruct cli_cmds as [[|? ?]|].
  split.
  - intros octets Hlen Hoct.
    destruct octets as [|o1 [|o2 [|o3 [|o4 [|o5 [|o6 [|? ?]]]]]]]; try discriminate.
    repeat (apply Forall_cons in Hoct as [? Hoct]).
    unfold Requests.caasapi. rewrite Hb, Hc.
    assert (Hcol : Py.contains ":" (colon_mac [o1; o2; o3; o4; o5; o6]) = true).
    { unfold colon_mac, Py.join. cbn [String.concat]. apply contains_app. }
    assert (Hl : String.length (colon_mac [o1; o2; o3; o4; o5; o6]) = 17).
    { unfold colon_mac, Py.join. cbn [String.concat]. rewrite !length_app.
      cbn [String.length]. lia. }
    rewrite Hcol, Hl. reflexivity.
  - intros name Hn. unfold Requests.caasapi. rewrite Hb, Hc, Hn. reflexivity.
Qed.

Lemma caasapi_target_witness :
  let post := λ (url : string) (params : gmap string (option string))
                (_ : gmap string string) (cmds : list string), (url, params, cmds) in
  let vars : gmap string string :=
    {[ "base_url" := "https://central"; "customer_id" := "c1" ]} in
  Requests.caasapi post vars "tok" "20:4c:03:26:28:4c" (Some ["show version"])
  = Ok ("https://central/caasapi/v1/exec/cmd",
        {[ "cid" := Some "c1"; "node_name" := Some "20:4c:03:26:28:4c" ]},
        ["show version"])
  ∧ Requests.caasapi post vars "tok" "20-4c-03-26-28-4c" (Some ["show version"])
    = Ok ("https://central/caasapi/v1/exec/cmd",
          {[ "cid" := Some "c1"; "group_name" := Some "20-4c-03-26-28-4c" ]},
          ["show version"]).
Proof.
  intros post vars.
  destruct (caasapi_target post vars "tok" "https://central" (Some ["show version"]))
    as [Hmac Hname]; [reflexivity|].
  split.
  - change "20:4c:03:26:28:4c" with (colon_mac ["20"; "4c"; "03"; "26"; "28"; "4c"]).
    rewrite (Hmac ["20"; "4c"; "03"; "26"; "28"; "4c"]);
      [vm_compute; reflexivity | reflexivity | repeat constructor].
  - rewrite (Hname "20-4c-03-26-28-4c"); vm_compute; reflexivity.
Defined.

(** * The shared buffers, from the file to the commands *)

(** ** The contents of the two buffers *)

Lemma vlan_id_key_facts (k : string) :
  String.eqb k "vlan_id" = true →
  String.eqb k "mac_address" = false
  ∧ Py.mem k common_keys = false
  ∧ Py.startswith_any vlan_prefixes k = true.
Proof. intros H. apply String.eqb_eq in H. subst k. repeat split. Qed.

Lemma mac_key_not_common (k : string) :
  String.eqb k "mac_address" = true → Py.mem k common_keys = false.
Proof. intros H. apply String.eqb_eq in H. now subst k. Qed.

Lemma vlan_id_cells_app (a b : list (string * string)) :
  vlan_id_cells (a ++ b) = vlan_id_cells a ++ vlan_id_cells b.
Proof. unfold vlan_id_cells. now rewrite List.filter_app, map_app. Qed.

Lemma vlan_ids_snoc (vl : list vlanrec) (v : vlanrec) :
  vlan_ids (vl ++ [v]) = vlan_ids vl ++ option_list (v !! "vlan_id").
Proof.
  unfold vlan_ids. rewrite omap_app. f_equal; cbn; now destruct (v !! "vlan_id").
Qed.

(** What a column does to the two buffers: [_common] is set by the
    columns of the common attributes, [_vlans] grows, and a [vlan_id]
    column is the only one that opens a record with a [vlan_id]. *)
Lemma ingest_column_contents (n : nat) (s : ingest) (kv : string * string)
    (com : common) (vl : list vlanrec) :
  heap s = mkStore [com] [vl] → n ≤ length vl →
  ∃ vl',
    heap (ingest_column 0 0 s kv) = mkStore [set_common com kv] [vl']
    ∧ n ≤ length vl'
    ∧ vlan_ids vl' ++ option_list (vlan_data (ingest_column 0 0 s kv) !! "vlan_id")
      = (vlan_ids vl ++ option_list (vlan_data s !! "vlan_id"))
        ++ map VStr (vlan_id_cells [kv]).
Proof.
  intros Hh Hn. unfold ingest_column, set_common, vlan_id_cells.
  cbn [List.filter]. set (k := normalise kv.1).
  destruct (String.eqb k "vlan_id") eqn:Hid.
  - destruct (vlan_id_key_facts k Hid) as (-> & -> & ->).
    apply String.eqb_eq in Hid. rewrite Hid. cbn [map snd vlan_data heap].
    rewrite lookup_singleton_eq. cbn [option_list].
    case_bool_decide as He.
    + exists vl. rewrite Hh, He, lookup_empty. cbn [option_list].
      rewrite app_nil_r. repeat split; trivial.
    + exists (vl ++ [vlan_data s]). unfold store_append. rewrite Hh. cbn.
      rewrite vlan_ids_snoc, List.length_app. repeat split; trivial. lia.
  - apply String.eqb_neq in Hid. cbn [map]. rewrite app_nil_r.
    destruct (String.eqb k "mac_address") eqn:Hmac.
    { rewrite (mac_key_not_common k Hmac). exists vl. now rewrite Hh. }
    destruct (Py.mem k common_keys) eqn:Hcom.
    { exists vl. cbn [heap vlan_data]. unfold store_setitem. rewrite Hh. now cbn. }
    exists vl.
    repeat match goal with
           | |- context [if ?b then _ else _] => destruct b
           end; cbn [heap vlan_data]; rewrite ?Hh;
      rewrite ?lookup_insert_ne by (done || congruence); repeat split; trivial.
Qed.

Lemma columns_contents (n : nat) (cols : list (string * string)) (s : ingest)
    (com : common) (vl : list vlanrec) :
  heap s = mkStore [com] [vl] → n ≤ length vl →
  ∃ vl',
    heap (foldl (ingest_column 0 0) s cols) = mkStore [foldl set_common com cols] [vl']
    ∧ n ≤ length vl'
    ∧ vlan_ids vl'
      ++ option_list (vlan_data (foldl (ingest_column 0 0) s cols) !! "vlan_id")
      = (vlan_ids vl ++ option_list (vlan_data s !! "vlan_id"))
        ++ map VStr (vlan_id_cells cols).
Proof.
  revert s com vl. induction cols as [|kv cols IH]; intros s com vl Hh Hn.
  - exists vl. cbn. now rewrite app_nil_r.
  - destruct (ingest_column_contents n s kv com vl Hh Hn) as (vl1 & Hh1 & Hn1 & Hi1).
    destruct (IH _ _ vl1 Hh1 Hn1) as (vl2 & Hh2 & Hn2 & Hi2).
    exists vl2. cbn [foldl]. repeat split; trivial.
    rewrite Hi2, Hi1. change (kv :: cols) with ([kv] ++ cols).
    now rewrite vlan_id_cells_app, map_app, <- !app_assoc.
Qed.

Lemma ingest_row_contents (n : nat) (header data_row : list string) (s : ingest)
    (com : common) (vl : list vlanrec) :
  heap s = mkStore [com] [vl] → n ≤ length vl →
  ∃ vl',
    heap (ingest_row 0 0 header s data_row)
    = mkStore [foldl set_common com (zip header data_row)] [vl']
    ∧ S n ≤ length vl'
    ∧ vlan_ids vl' = vlan_ids vl ++ map VStr (vlan_id_cells (zip header data_row)).
Proof.
  intros Hh Hn. unfold ingest_row.
  set (s0 := mkIngest _ _ _ _ ∅ _).
  destruct (columns_contents n (zip header data_row) s0 com vl Hh Hn)
    as (vl1 & Hh1 & Hn1 & Hi1).
  exists (vl1 ++ [vlan_data (foldl (ingest_column 0 0) s0 (zip header data_row))]).
  cbn [heap]. unfold store_append. rewrite Hh1. cbn [dicts lists alter list_alter].
  rewrite vlan_ids_snoc, List.length_app, Hi1. cbn [vlan_data s0 length].
  rewrite lookup_empty. cbn [option_list]. rewrite app_nil_r.
  repeat split; trivial. lia.
Qed.

Lemma file_columns_cons (header row : list string) (rows : list (list string)) :
  file_columns header (row :: rows) = zip header row ++ file_columns header rows.
Proof. reflexivity. Qed.

Lemma rows_contents (n : nat) (header : list string) (rows : list (list string))
    (s : ingest) (com : common) (vl : list vlanrec) :
  heap s = mkStore [com] [vl] → n ≤ length vl →
  ∃ vl',
    heap (foldl (ingest_row 0 0 header) s rows)
    = mkStore [foldl set_common com (file_columns header rows)] [vl']
    ∧ n + length rows ≤ length vl'
    ∧ vlan_ids vl' = vlan_ids vl ++ map VStr (vlan_id_cells (file_columns header rows)).
Proof.
  revert n s com vl. induction rows as [|row rows IH]; intros n s com vl Hh Hn.
  - exists vl. cbn. rewrite app_nil_r. repeat split; trivial. lia.
  - destruct (ingest_row_contents n header row s com vl Hh Hn)
      as (vl1 & Hh1 & Hn1 & Hi1).
    destruct (IH (S n) _ _ vl1 Hh1 Hn1) as (vl2 & Hh2 & Hn2 & Hi2).
    exists vl2. cbn [foldl length]. rewrite file_columns_cons, foldl_app.
    repeat split; trivial; [lia|].
    now rewrite Hi2, Hi1, vlan_id_cells_app, map_app, <- app_assoc.
Qed.

(** The two buffers after a file: [_common] holds the common attributes
    as the columns of all rows set them, and the [vlan_id] values of
    [_vlans] are the [vlan_id] cells of all rows, in file order. *)
Lemma get_bulkedit_data_contents (header : list string) (rows : list (list string)) :
  ∃ vl,
    heap (get_bulkedit_data (header :: rows))
    = mkStore [common_after (file_columns header rows)] [vl]
    ∧ length rows ≤ length vl
    ∧ vlan_ids vl = map VStr (vlan_id_cells (file_columns header rows)).
Proof.
  rewrite get_bulkedit_data_cons.
  destruct (rows_contents 0 header rows (mkIngest [] (mkStore [∅] [[]]) "error" "" ∅ [])
              ∅ [] eq_refl (Nat.le_0_l _)) as (vl & Hh & Hn & Hi).
  exists vl. repeat split; trivial.
Qed.

(** C2, as the code has it.  After a file, the store holds one dictionary
    of common attributes and one VLAN list.  Every value of the mapping
    is the device entry that refers to these two, or the empty dictionary
    that a [mac_address] column left: the latter only when the header
    names [mac_address] twice or more.  The dictionary holds the common
    attributes as the columns of all rows of the file set them, and the
    list holds at least one record per data row, with the [vlan_id] cells
    of all rows in file order: every device sees the state accumulated
    over the whole file. *)
Theorem devices_share_buffers (header : list string) (rows : list (list string)) :
  let r := get_bulkedit_data (header :: rows) in
  ∃ (com : common) (vl : list vlanrec),
    heap r = mkStore [com] [vl]
    ∧ com = common_after (file_columns header rows)
    ∧ vlan_ids vl = map VStr (vlan_id_cells (file_columns header rows))
    ∧ length rows ≤ length vl
    ∧ ∀ dev e, dict_get dev (cli_data r) = Some e →
        (e = DevEntry 0 0
         ∧ common_of (heap r) e = Some com ∧ vlans_of (heap r) e = Some vl)
        ∨ (e = EmptyEntry ∧ 2 ≤ mac_columns header).
Proof.
  intros r. destruct (get_bulkedit_data_contents header rows) as (vl & Hh & Hn & Hi).
  exists (common_after (file_columns header rows)), vl.
  fold r in Hh. repeat split; trivial.
  intros dev e He.
  destruct (le_lt_dec (mac_columns header) 1) as [Hmac|Hmac].
  - left. rewrite (get_bulkedit_data_all_devices (header :: rows) Hmac dev e He).
    rewrite Hh. repeat split.
  - destruct (get_bulkedit_data_shared_or_empty (header :: rows) dev e He) as [-> | ->].
    + left. rewrite Hh. repeat split.
    + right. split; [reflexivity | lia].
Qed.

(** The file of two devices: both entries refer to the two buffers, which
    hold the attributes of the second row and the records of both. *)
Example devices_share_buffers_sample :
  let r := get_bulkedit_data rows_two_devices in
  cli_data r = [("aa:bb", DevEntry 0 0); ("cc:dd", DevEntry 0 0)]
  ∧ heap r = mkStore [ {[ "group" := "Branch2"; "hostname" := "gw2" ]} ]
                     [ [ {[ "vlan_id" := VStr "10" ]}; {[ "vlan_id" := VStr "20" ]} ] ]
  ∧ common_after (file_columns (hd [] rows_two_devices) (tail rows_two_devices))
    = {[ "group" := "Branch2"; "hostname" := "gw2" ]}
  ∧ vlan_id_cells (file_columns (hd [] rows_two_devices) (tail rows_two_devices))
    = ["10"; "20"].
Proof. repeat split; vm_compute; reflexivity. Qed.

(** A header with two [mac_address] columns: under the MAC of the first
    one the mapping holds the empty dictionary, which refers to no
    buffer, and [build_cmds] raises on it. *)
Lemma second_mac_column_counterexample :
  let r := get_bulkedit_data rows_two_mac_columns in
  cli_data r = [("aa:bb", EmptyEntry); ("cc:dd", DevEntry 0 0); ("ee:ff", DevEntry 0 0)]
  ∧ dict_get "aa:bb" (cli_data r) = Some EmptyEntry
  ∧ common_of (heap r) EmptyEntry = None
  ∧ vlans_of (heap r) EmptyEntry = None
  ∧ BuildCLI no_inventory rows_two_mac_columns tt
    = ((Raise (KeyError "_common"), mkOut [] [] []), tt).
Proof. repeat split; vm_compute; reflexivity. Qed.

(** ** The [vlan <id>] lines, in file order *)

Lemma append_inj (p a b : string) : p +:+ a = p +:+ b → a = b.
Proof.
  induction p as [|c p IH]; intros H; [exact H|].
  change (String c (p +:+ a) = String c (p +:+ b)) in H.
  injection H as H. now apply IH.
Qed.

Lemma mem_map_prefix (p k : string) (ks : list string) :
  Py.mem (p +:+ k) (map (String.append p) ks) = Py.mem k ks.
Proof.
  unfold Py.mem. induction ks as [|x ks IH]; [reflexivity|].
  cbn [map existsb]. rewrite IH. f_equal.
  destruct (String.eqb_spec k x) as [->|Hne]; [apply String.eqb_refl|].
  apply String.eqb_neq. intros H. now apply append_inj in H.
Qed.

Lemma add_key_prefix (p k : string) (ks : list string) :
  add_key (p +:+ k) (map (String.append p) ks) = map (String.append p) (add_key k ks).
Proof.
  unfold add_key. rewrite mem_map_prefix.
  destruct (Py.mem k ks); [reflexivity | now rewrite map_app].
Qed.

Lemma foldl_add_key_prefix (p : string) (l ks : list string) :
  foldl (λ ks k, add_key k ks) (map (String.append p) ks) (map (String.append p) l)
  = map (String.append p) (foldl (λ ks k, add_key k ks) ks l).
Proof.
  revert ks. induction l as [|k l IH]; intros ks; [reflexivity|].
  cbn [map foldl]. now rewrite add_key_prefix, IH.
Qed.

(** A line repeated right after itself is no new line. *)
Lemma foldl_add_key_repeated {A : Type} (x : A → string) (b : A → bool)
    (l : list A) (ks : list string) :
  foldl (λ ks k, add_key k ks) ks
        (flat_map (λ v, x v :: (if b v then [x v] else [])) l)
  = foldl (λ ks k, add_key k ks) ks (map x l).
Proof.
  revert ks. induction l as [|v l IH]; intros ks; [reflexivity|].
  cbn [flat_map map]. destruct (b v); cbn [app foldl]; rewrite ?add_key_idem; apply IH.
Qed.

(** The header lines of records that all have a [vlan_id]. *)
Lemma vlan_lines_of_cells (vl : list vlanrec) (ids : list string) :
  Forall (λ v : vlanrec, is_Some (v !! "vlan_id")) vl →
  vlan_ids vl = map VStr ids →
  map vlan_line vl = map (String.append "vlan ") ids.
Proof.
  intros Hall. revert ids. induction Hall as [|v vl [id Hid] Hall IH]; intros ids Hids.
  - destruct ids; [reflexivity | discriminate Hids].
  - unfold vlan_ids in Hids. cbn [omap list_omap] in Hids. rewrite Hid in Hids.
    destruct ids as [|i ids]; [discriminate Hids|].
    cbn [map] in Hids |- *. injection Hids as -> Hids.
    rewrite (IH ids Hids). unfold vlan_line. now rewrite Hid.
Qed.

(** C1, as the code has it.  For a device of an ingested file whose
    records the emitter accepts: the records of its VLAN list are those
    that the [vlan_id] cells of the file opened, in the order in which
    the cells are read (row by row, over all the rows of the file); the
    [vlan <id>] lines among the commands of the device are the header
    line of every record in that order, each followed by the [vlan <id>]
    line of its VRRP block when that block is emitted.  There is one
    header per [vlan_id] cell, whether or not its value occurred before;
    the distinct lines appear in the order of first occurrence of the
    values in the file. *)
Theorem vlan_lines_per_record (header : list string) (rows : list (list string))
    (dev : string) (e : entry) (com : common) (vl : list vlanrec) :
  let r := get_bulkedit_data (header :: rows) in
  dict_get dev (cli_data r) = Some e →
  common_of (heap r) e = Some com →
  vlans_of (heap r) e = Some vl →
  Forall (λ v, emittable v = true) vl →
  let out := build_dev_cmds (default dev (com !! "hostname")) com vl in
  let cells := vlan_id_cells (file_columns header rows) in
  out.1 = Ok tt
  ∧ map vlan_line vl = map (String.append "vlan ") cells
  ∧ vlan_lines (cmds out.2)
    = flat_map (λ v, vlan_line v :: (if vrrp_emitted v then [vlan_line v] else [])) vl
  ∧ length (vlan_lines (cmds out.2))
    = length cells + length (List.filter vrrp_emitted vl)
  ∧ first_seen (vlan_lines (cmds out.2))
    = map (String.append "vlan ") (first_seen cells).
Proof.
  intros r _ _ Hvl Hem out cells.
  pose proof (get_bulkedit_data_records_ok (header :: rows) e vl Hvl) as Hex.
  destruct (for_each_build_vlan vl Hem Hex) as [Hok Hlines].
  assert (Hcells : map vlan_line vl = map (String.append "vlan ") cells).
  { destruct (get_bulkedit_data_contents header rows) as (vl0 & Hh & _ & Hi).
    fold r in Hh. destruct e as [|c l]; [discriminate Hvl|].
    cbn [vlans_of] in Hvl. rewrite Hh in Hvl. cbn [lists] in Hvl.
    destruct l as [|l]; [|destruct l; discriminate Hvl].
    injection Hvl as <-. apply vlan_lines_of_cells; [|exact Hi].
    apply (Forall_impl _ _ _ Hem). intros v Hv. now apply emittable_inv in Hv. }
  assert (Hl : vlan_lines (cmds out.2)
               = flat_map (λ v, vlan_line v
                                :: (if vrrp_emitted v then [vlan_line v] else [])) vl).
  { subst out. rewrite build_dev_cmds_split. cbn [snd out_app cmds].
    rewrite vlan_lines_app, Hlines.
    assert (Hh : vlan_lines (hostname_lines com) = []).
    { unfold hostname_lines. destruct (com !! "hostname") as [h|]; [|reflexivity].
      destruct (negb (String.eqb h "")); reflexivity. }
    now rewrite Hh. }
  assert (Hlen : length (vlan_lines (cmds out.2))
                 = length vl + length (List.filter vrrp_emitted vl)).
  { rewrite Hl. clear. induction vl as [|v vl IH]; [reflexivity|].
    cbn [flat_map List.filter length]. rewrite List.length_app, IH.
    destruct (vrrp_emitted v); cbn [length]; lia. }
  repeat split.
  - subst out. rewrite build_dev_cmds_split. cbn [fst]. now apply ok_tt.
  - exact Hcells.
  - exact Hl.
  - rewrite Hlen. f_equal.
    rewrite <- (length_map vlan_line vl), Hcells. apply length_map.
  - rewrite Hl. unfold first_seen. rewrite foldl_add_key_repeated, Hcells.
    apply (foldl_add_key_prefix "vlan " cells []).
Qed.

Lemma vlan_lines_per_record_witness :
  let out := build_dev_cmds (default "aa:bb" (({[ "group" := "Branch1" ]} : common)
                                                !! "hostname"))
                            {[ "group" := "Branch1" ]} vrrp_vlans in
  let cells := vlan_id_cells (file_columns (hd [] rows_vrrp) (tail rows_vrrp)) in
  out.1 = Ok tt
  ∧ map vlan_line vrrp_vlans = map (String.append "vlan ") cells
  ∧ vlan_lines (cmds out.2)
    = flat_map (λ v, vlan_line v :: (if vrrp_emitted v then [vlan_line v] else []))
               vrrp_vlans
  ∧ length (vlan_lines (cmds out.2))
    = length cells + length (List.filter vrrp_emitted vrrp_vlans)
  ∧ first_seen (vlan_lines (cmds out.2))
    = map (String.append "vlan ") (first_seen cells).
Proof.
  apply (vlan_lines_per_record (hd [] rows_vrrp) (tail rows_vrrp) "aa:bb"
           (DevEntry 0 0) {[ "group" := "Branch1" ]} vrrp_vlans).
  - vm_compute. reflexivity.
  - vm_compute. reflexivity.
  - vm_compute. reflexivity.
  - repeat constructor.
Defined.

(** In a file that names VLAN 10, 20 and 10 again, the lines are those
    of the three cells in file order, and the distinct ones are in the
    order of first occurrence. *)
Example vlan_lines_file_order :
  let rows := [ ["MAC Address"; "Group"; "VLAN ID"; "VLAN ID"];
                ["aa:bb"; "Branch1"; "10"; "20"];
                ["aa:bb"; "Branch1"; "10"; "30"] ] in
  vlan_id_cells (file_columns (hd [] rows) (tail rows)) = ["10"; "20"; "10"; "30"]
  ∧ vlan_lines (cmds (BuildCLI no_inventory rows tt).1.2)
    = ["vlan 10"; "vlan 20"; "vlan 10"; "vlan 30"]
  ∧ first_seen (vlan_lines (cmds (BuildCLI no_inventory rows tt).1.2))
    = ["vlan 10"; "vlan 20"; "vlan 30"].
Proof. repeat split; vm_compute; reflexivity. Qed.

(** ** An exclude range, from its columns to its line *)

Section BlockFacts.

Variables (lc lv : nat).










End BlockFacts.






(** The file [rows_exclude], from the rows to the commands. *)
Example dhcp_exclude_emitted :
  vlans_of (heap (get_bulkedit_data rows_exclude)) (DevEntry 0 0)
  = Some [ {[ "vlan_id" := VStr "10"; "domain_name" := VStr "lab";
              "dhcp_excludes" := VList ["ip dhcp exclude-address 10.0.0.2 10.0.0.10"] ]} ]
  ∧ cmds (BuildCLI no_inventory rows_exclude tt).1.2
    = ["vlan 10"; "!"; "ip dhcp exclude-address 10.0.0.2 10.0.0.10"].
Proof. split; vm_compute; reflexivity. Qed.

